(** * yuma_tools: the YUMA almanac parser, reader and download

    A shallow embedding of [src/yuma_tools/parser.py] (parse_yuma_almanac),
    [src/yuma_tools/reader.py] (yumaread) and [src/yuma_tools/download.py]
    (download_yuma_almanac), and the properties of the specification
    checked against it.

    Conventions of the embedding.
    - Text is [string]; a character stands for a code point below 256.
      The character classes below are Python's on that range.
    - A Python [dict] with string keys is a [gmap string value].
    - Exceptions are explicit: a computation that may raise returns a
      [result]; [try ... except Exception] is a match on it.
    - [int] on text is CPython's, with its limit of 4300 digits
      ([sys.int_info.default_max_str_digits]); [float] on text rounds
      the decimal to the nearest binary64.
    - A table holds a column the way [pd.DataFrame] infers it from the
      records: a column of integers beside a missing value is a float64
      column, each integer held as its float.
    - A modification time is one [datetime.fromtimestamp] takes, and
      timestamps are those [pd.to_datetime] takes (years 1678 to 2261).
    - [print] calls, all guarded by [verbose], write to standard output and
      take no part in the value returned; they are left out, and so is
      the [verbose] flag. *)

From Stdlib Require Import ZArith NArith String Ascii List Bool Lia.
From Stdlib Require Import Floats.SpecFloat.
From Stdlib Require Import DecimalString DecimalPos.
From stdpp Require Import base option list gmap strings.

Import ListNotations.
Local Open Scope string_scope.
Local Open Scope list_scope.
Local Open Scope Z_scope.

(** ** Text primitives (Python [str] methods) *)

Module Text.

Definition code (c : ascii) : N := N_of_ascii c.

(** [str.isspace] and the regular-expression class [\s] agree on the
    code points below 256. *)
Definition isspace (c : ascii) : bool :=
  let n := code c in
  (((9 <=? n) && (n <=? 13)) || ((28 <=? n) && (n <=? 32))
   || (n =? 133) || (n =? 160))%N.

(** The regular-expression class [\d]: the decimal digits. *)
Definition isdigit (c : ascii) : bool :=
  let n := code c in ((48 <=? n) && (n <=? 57))%N.

Definition digit_val (c : ascii) : N := (code c - 48)%N.

Fixpoint lstrip_by (p : ascii -> bool) (s : string) : string :=
  match s with
  | String c s' => if p c then lstrip_by p s' else s
  | EmptyString => EmptyString
  end.

Fixpoint rstrip_by (p : ascii -> bool) (s : string) : string :=
  match s with
  | EmptyString => EmptyString
  | String c s' =>
      match rstrip_by p s' with
      | EmptyString => if p c then EmptyString else String c EmptyString
      | r => String c r
      end
  end.

Definition strip_by (p : ascii -> bool) (s : string) : string :=
  rstrip_by p (lstrip_by p s).

(** [s.strip()] *)
Definition strip (s : string) : string := strip_by isspace s.

(** [s.startswith(p)] *)
Definition startswith (p s : string) : bool := String.prefix p s.

(** [s.split(sep, 1)[1]] for a one-character [sep]: the text after the
    first [sep]; [None] stands for the IndexError raised when [s] has no
    [sep]. *)
Fixpoint split1_tail (sep : ascii) (s : string) : option string :=
  match s with
  | EmptyString => None
  | String c s' => if Ascii.eqb c sep then Some s' else split1_tail sep s'
  end.

(** [s.replace(old, new)] for one-character [old] and [new]. *)
Fixpoint replace (old new : ascii) (s : string) : string :=
  match s with
  | EmptyString => EmptyString
  | String c s' =>
      String (if Ascii.eqb c old then new else c) (replace old new s')
  end.

Fixpoint take_while (p : ascii -> bool) (s : string) : string :=
  match s with
  | String c s' => if p c then String c (take_while p s') else EmptyString
  | EmptyString => EmptyString
  end.

Fixpoint drop_while (p : ascii -> bool) (s : string) : string :=
  match s with
  | String c s' => if p c then drop_while p s' else s
  | EmptyString => EmptyString
  end.

Fixpoint drop (n : nat) (s : string) : string :=
  match n, s with
  | S n', String _ s' => drop n' s'
  | _, _ => s
  end.

Definition lower (c : ascii) : ascii :=
  let n := code c in
  if ((65 <=? n) && (n <=? 90))%N then ascii_of_N (n + 32) else c.

Fixpoint lower_str (s : string) : string :=
  match s with
  | EmptyString => EmptyString
  | String c s' => String (lower c) (lower_str s')
  end.

End Text.

(** ** The builtins [int] and [float] on text *)

Module Builtins.
Import Text.

(** Whitespace that [int] and [float] strip around a numeral: the ASCII
    blanks, and U+0085 and U+00A0 (28 to 31 are not accepted). *)
Definition num_space (c : ascii) : bool :=
  let n := code c in
  (((9 <=? n) && (n <=? 13)) || (n =? 32) || (n =? 133) || (n =? 160))%N.

(** Reads the rest of a digit part: digits, with single underscores
    allowed between two digits. Returns the accumulated value, the number
    of digits read and the unread text. *)
Fixpoint read_digits (acc : N) (n : nat) (s : string) : N * nat * string :=
  match s with
  | String c s' =>
      if isdigit c then read_digits (10 * acc + digit_val c)%N (S n) s'
      else if Ascii.eqb c "_" then
        match s' with
        | String d s'' =>
            if isdigit d
            then read_digits (10 * acc + digit_val d)%N (S n) s''
            else (acc, n, s)
        | EmptyString => (acc, n, s)
        end
      else (acc, n, s)
  | EmptyString => (acc, n, s)
  end.

(** A digit part has to start with a digit; [digitpart acc n s] reads one
    if there is one and otherwise reads nothing. *)
Definition digitpart (acc : N) (n : nat) (s : string) : N * nat * string :=
  match s with
  | String c s' =>
      if isdigit c then read_digits (10 * acc + digit_val c)%N (S n) s'
      else (acc, n, s)
  | EmptyString => (acc, n, s)
  end.

(** An optional sign; [true] is minus. *)
Definition read_sign (s : string) : bool * string :=
  match s with
  | String "-" s' => (true, s')
  | String "+" s' => (false, s')
  | _ => (false, s)
  end.

(** [sys.get_int_max_str_digits()], at its default: [int] refuses a
    numeral of more digits (CPython 3.11 and later, and the security
    releases of 3.7 to 3.10). *)
Definition int_max_str_digits : N := 4300.

(** [int(s)], base ten; [None] stands for ValueError, raised for a text
    that is no numeral and for a numeral of more than
    [int_max_str_digits] digits (the sign, the underscores and the blanks
    around do not count as digits, leading zeros do). *)
Definition py_int (s : string) : option Z :=
  let '(neg, t) := read_sign (strip_by num_space s) in
  match digitpart 0 0 t with
  | (v, S n, EmptyString) =>
      if (N.of_nat (S n) <=? int_max_str_digits)%N
      then Some (if neg then - Z.of_N v else Z.of_N v)
      else None
  | _ => None
  end.

(** Double precision values, as IEEE 754 binary64 data. *)
Definition prec : Z := 53.
Definition emax : Z := 1024.

(** The binary64 value nearest (ties to even) to [m * 10 ^ e10], with
    sign [neg]. *)
Definition of_decimal (neg : bool) (m : N) (e10 : Z) : spec_float :=
  match m with
  | N0 => S754_zero neg
  | Npos p =>
      if 0 <=? e10
      then binary_normalize prec emax
             ((if neg then Zneg p else Zpos p) * 10 ^ e10) 0 neg
      else SFdiv prec emax (S754_finite neg p 0)
             (S754_finite false (Z.to_pos (10 ^ (- e10))) 0)
  end.

(** The exponent of a decimal numeral: nothing, or [e] or [E], an
    optional sign and a digit part. [None]: a malformed exponent. *)
Definition read_exponent (s : string) : option (Z * string) :=
  match s with
  | String c s' =>
      if Ascii.eqb (lower c) "e" then
        let '(neg, t) := read_sign s' in
        match digitpart 0 0 t with
        | (v, S _, r) => Some (if neg then - Z.of_N v else Z.of_N v, r)
        | _ => None
        end
      else Some (0, s)
  | EmptyString => Some (0, s)
  end.

(** [float(s)]; [None] stands for ValueError. *)
Definition py_float (s : string) : option spec_float :=
  let '(neg, t) := read_sign (strip_by num_space s) in
  let l := lower_str t in
  if String.eqb l "inf" || String.eqb l "infinity" then Some (S754_infinity neg)
  else if String.eqb l "nan" then Some S754_nan
  else
    let '(mi, ni, r1) := digitpart 0 0 t in
    let '(m, n, r2) :=
      match r1 with
      | String "." r =>
          let '(m, n, r') := digitpart mi ni r in (m, n, r')
      | _ => (mi, ni, r1)
      end in
    let nfrac := (n - ni)%nat in
    match n with
    | O => None
    | S _ =>
        match read_exponent r2 with
        | Some (e, EmptyString) => Some (of_decimal neg m (e - Z.of_nat nfrac))
        | _ => None
        end
    end.

End Builtins.

(** ** Values, records and tables *)

Module Data.
Import Builtins.

(** [datetime.datetime]; [tzinfo] is the offset from UTC in minutes,
    [None] for a naive value. *)
Record datetime := mkDatetime {
  year : Z; month : Z; day : Z;
  hour : Z; minute : Z; second : Z; microsecond : Z;
  tzinfo : option Z
}.

(** What a record attribute or a table cell holds. [VNone] is Python's
    [None] in a record and the missing value (None, NaN, NaT) in a
    table; [VStr] is a rendered timestamp. *)
Inductive value :=
| VNone
| VInt (z : Z)
| VFloat (f : spec_float)
| VTime (t : datetime)
| VStr (s : string).

#[global] Instance spec_float_eq_dec : EqDecision spec_float.
Proof. solve_decision. Defined.
#[global] Instance datetime_eq_dec : EqDecision datetime.
Proof. solve_decision. Defined.
#[global] Instance value_eq_dec : EqDecision value.
Proof. solve_decision. Defined.

(** A Python [dict] from attribute names to values. *)
Abbreviation dict := (gmap string value).

(** [bool(d)] for a dict: true when it has a key. *)
Definition truthy (d : dict) : bool := bool_decide (d ≠ ∅).

(** [pandas.isnull] on one cell. *)
Definition isnull (v : value) : bool :=
  match v with
  | VNone => true
  | VFloat S754_nan => true
  | _ => false
  end.

(** A [pandas.DataFrame]: its columns, its rows (each row has a cell for
    every column) and, once [set_index] was applied, the named index. *)
Record DataFrame := mkDataFrame {
  columns : gset string;
  index : option (string * list value);
  rows : list dict
}.

Definition cell (k : string) (r : dict) : value := default VNone (r !! k).

(** The float64 nearest to an integer, ties to even, as [float(z)] and
    the C conversion to [double] give it; [float_overflows] says when
    the conversion raises OverflowError instead (the integers that
    round to 2^1024 or beyond). *)
Definition float_of_int (z : Z) : spec_float :=
  binary_normalize prec emax z 0 false.

Definition float_overflows (z : Z) : bool := 2 ^ 1024 - 2 ^ 970 <=? Z.abs z.

(** A cell of a float64 column: an integer is stored as its float. *)
Definition as_float (v : value) : value :=
  match v with
  | VInt z => VFloat (float_of_int z)
  | _ => v
  end.

Definition is_int (v : value) : bool :=
  match v with
  | VInt _ => true
  | _ => false
  end.

(** A column of integers of the int64 range and missing values, as a
    table holds it: float64 when it has both, else as it is. *)
Definition int_column (c : list value) : list value :=
  if existsb isnull c && existsb is_int c then as_float <$> c else c.

(** How a table stores the attribute [v] of a record: as it is, or, an
    integer in a float64 column, as its float. *)
Definition stored (v c : value) : Prop := c = v ∨ c = as_float v.

(** How pandas stores a column it has built from Python objects: the
    values as they are (an int64, uint64, float64 or datetime column,
    or a column of objects), or every value as a float64. *)
Inductive dtype := Kept | Float64.

Definition int64_min : Z := - 2 ^ 63.
Definition int64_max : Z := 2 ^ 63 - 1.
Definition uint64_max : Z := 2 ^ 64 - 1.

(** The inference of [pd.DataFrame] on one column of objects (the loop
    of [lib.maybe_convert_objects]), for the objects a record holds.
    An entry is [None] where the record has no such key (NaN), and
    [Some VNone] where it holds Python's [None]. The flags say what was
    seen: [null] a [None], [other] a NaN or a float, [int] an integer,
    [uint] an integer above the int64 range and [sint] a negative one.
    Every integer is first converted to a float, which overflows
    ([None] here); its range is looked at only while no [None] was
    seen, and an integer beyond the uint64 range, or integers that need
    both int64 and uint64, make the column one of objects. Without
    that, integers beside a missing value or a float give a float64
    column. *)
Fixpoint infer (c : list (option value)) (null other int uint sint : bool)
    : option dtype :=
  match c with
  | [] => Some (if int && (null || other) then Float64 else Kept)
  | None :: c' => infer c' null true int uint sint
  | Some VNone :: c' => infer c' true other int uint sint
  | Some (VFloat _) :: c' => infer c' null true int uint sint
  | Some (VInt z) :: c' =>
      if float_overflows z then None
      else if null then infer c' null other true uint sint
      else
        let uint' := uint || ((int64_max <? z) && (z <=? uint64_max)) in
        let sint' := sint || ((int64_min <=? z) && (z <? 0)) in
        if (uint' && sint') || (uint64_max <? z) || (z <? int64_min)
        then Some Kept
        else infer c' null other true uint' sint'
  | Some (VTime _) :: _ => Some Kept
  | Some (VStr _) :: _ => Some Kept
  end.

(** An entry that is missing, a [None], or an integer of the int64
    range. *)
Definition small_entry (o : option value) : Prop :=
  o = None ∨ o = Some VNone
  ∨ ∃ z, o = Some (VInt z) ∧ int64_min ≤ z ≤ int64_max.

(** The dtype of column [k] of the table of [records]; [None] stands
    for OverflowError. *)
Definition column_dtype (records : list dict) (k : string) : option dtype :=
  infer ((λ r : dict, r !! k) <$> records) false false false false false.

(** An entry of a column as the table holds it. *)
Definition astype (d : dtype) (o : option value) : value :=
  match o with
  | None => VNone
  | Some v => match d with Float64 => as_float v | Kept => v end
  end.

(** The row of record [r]: a cell for every column. *)
Definition table_row (records : list dict) (cols : gset string) (r : dict) : dict :=
  map_imap (λ k _, Some (astype (default Kept (column_dtype records k)) (r !! k)))
           (gset_to_gmap VNone cols).

(** The table of [records]: the columns are the keys of all records, and
    a record without a key gets the missing value there. *)
Definition frame (records : list dict) : DataFrame :=
  let cols : gset string := ⋃ (dom <$> records) in
  {| columns := cols;
     index := None;
     rows := table_row records cols <$> records |}.

(** [pd.DataFrame(records)]; [None] stands for the OverflowError of an
    integer that has no float. *)
Definition pd_DataFrame (records : list dict) : option DataFrame :=
  if forallb (λ k, bool_decide (is_Some (column_dtype records k)))
             (elements (columns (frame records)))
  then Some (frame records)
  else None.

(** [df[k]]: [None] stands for KeyError. *)
Definition column (df : DataFrame) (k : string) : option (list value) :=
  if bool_decide (k ∈ columns df) then Some (cell k <$> rows df) else None.

(** [df.set_index(k, inplace=True)] *)
Definition set_index (k : string) (df : DataFrame) : option DataFrame :=
  match column df k with
  | Some c =>
      Some {| columns := columns df ∖ {[k]};
              index := Some (k, c);
              rows := delete k <$> rows df |}
  | None => None
  end.

(** [df[k] = c] for a column [c] as long as the table. *)
Definition set_column (k : string) (c : list value) (df : DataFrame) : DataFrame :=
  {| columns := columns df ∪ {[k]};
     index := index df;
     rows := zip_with (fun r v => <[k := v]> r) (rows df) c |}.

End Data.

(** ** parser.py: parse_yuma_almanac *)

Module Parser.
Import Text Builtins Data.

(** The exceptions the two functions can raise. The first three
    ValueError constructors are the three messages of
    parse_yuma_almanac; [ValueError_int] is the one of [int] on the week
    number of a header, and OverflowError the one of [pd.DataFrame]. *)
Inductive exn :=
| FileNotFoundError
| IOError
| ValueError_empty_input
| ValueError_no_records
| ValueError_missing_required (missing : list string)
| ValueError_int (text : string)
| OverflowError
| ValueError_no_time_column
| KeyError (key : string)
| OtherError.

Inductive result (A : Type) :=
| Ok (a : A)
| Raise (e : exn).
Arguments Ok {A} a.
Arguments Raise {A} e.

(** Sequencing: an exception raised by the first step ends the
    computation. *)
#[global] Instance result_bind : MBind result := fun A B k r =>
  match r with
  | Ok a => k a
  | Raise e => Raise e
  end.

(** What the file system holds at a path: nothing that is a file, a file
    whose text cannot be read, or a file with its lines ([readlines()])
    and its modification time, given as the UTC value of
    [datetime.fromtimestamp(stat().st_mtime, tz=utc)]. *)
Inductive file_state :=
| NoFile
| Unreadable
| Readable (lines : list string) (mtime_utc : datetime).

(** A [pathlib.Path] together with what it points to. [name] is the
    final path component ([Path.name]). *)
Record path := mkPath { name : string; target : file_state }.

(** A converter returns [None] where the Python one raises. *)
Definition converter := string -> option value.

Definition conv_int : converter := fun x => VInt <$> py_int x.

(** [lambda x: float(x.replace("D", "E"))] *)
Definition conv_float : converter :=
  fun x => VFloat <$> py_float (replace "D" "E" x).

Definition field_map : list (string * (string * converter)) :=
  [ ("ID:", ("PRN", conv_int));
    ("Health:", ("Health", conv_int));
    ("Eccentricity:", ("Eccentricity", conv_float));
    ("Time of Applicability(s):", ("TimeOfApplicability", conv_float));
    ("Orbital Inclination(rad):", ("OrbitalInclination", conv_float));
    ("Rate of Right Ascen(r/s):", ("RateOfRightAscen", conv_float));
    ("SQRT(A)  (m 1/2):", ("SQRTA", conv_float));
    ("Right Ascen at Week(rad):", ("RightAscenAtWeek", conv_float));
    ("Argument of Perigee(rad):", ("ArgumentOfPerigee", conv_float));
    ("Mean Anom(rad):", ("MeanAnom", conv_float));
    ("Af0(s):", ("Af0", conv_float));
    ("Af1(s/s):", ("Af1", conv_float)) ].

(** The regular expression [Week\s+(\d+)] tried at the start of [s]; the
    result is group 1. The two classes are disjoint, so the greedy match
    is the only one. *)
Definition match_week_at (s : string) : option string :=
  if startswith "Week" s then
    let r := drop 4 s in
    match take_while isspace r with
    | EmptyString => None
    | _ =>
        match take_while isdigit (drop_while isspace r) with
        | EmptyString => None
        | g => Some g
        end
    end
  else None.

(** [re.search(r"Week\s+(\d+)", s)]: the leftmost match. *)
Fixpoint re_search_week (s : string) : option string :=
  match match_week_at s with
  | Some g => Some g
  | None =>
      match s with
      | EmptyString => None
      | String _ s' => re_search_week s'
      end
  end.

(** The local variables of the scan loop. *)
Record state := mkState {
  records : list dict;
  record : dict;
  week : value
}.

Definition init : state := {| records := []; record := ∅; week := VNone |}.

(** The label that a field line selects: the first entry of [field_map],
    in its order, whose label starts the line and is not ["ID:"]. *)
Definition lookup_field (line : string) : option (string * (string * converter)) :=
  List.find (fun e => startswith (fst e) line && negb (String.eqb (fst e) "ID:"))
            field_map.

(** [line.split(":", 1)[1].strip()]; [None] stands for IndexError. *)
Definition field_text (line : string) : option string :=
  strip <$> split1_tail ":" line.

(** [try: v = conv(line.split(":", 1)[1].strip()) except Exception: v = None] *)
Definition parse_field (conv : converter) (line : string) : value :=
  default VNone (field_text line ≫= conv).

(** One turn of [for line in lines]. *)
Definition step (almanac_date : datetime) (st : state) (raw : string) : result state :=
  let line := strip raw in
  if String.eqb line "" then Ok st
  else if startswith "******** Week" line then
    match re_search_week line with
    | Some g =>
        match py_int g with
        | Some w => Ok {| records := records st; record := record st; week := VInt w |}
        | None => Raise (ValueError_int g)
        end
    | None => Ok st
    end
  else if startswith "ID:" line then
    let records' :=
      if truthy (record st) then records st ++ [record st] else records st in
    let fresh : dict := <["Time" := VTime almanac_date]> {["Week" := week st]} in
    Ok {| records := records';
          record := <["PRN" := parse_field conv_int line]> fresh;
          week := week st |}
  else
    match lookup_field line with
    | Some (_, (key, conv)) =>
        Ok {| records := records st;
              record := <[key := parse_field conv line]> (record st);
              week := week st |}
    | None => Ok st
    end.

Fixpoint scan (almanac_date : datetime) (lines : list string) (st : state) : result state :=
  match lines with
  | [] => Ok st
  | l :: ls => st' ← step almanac_date st l; scan almanac_date ls st'
  end.

(** After the loop: [if record: records.append(record)]. *)
Definition finish (st : state) : list dict :=
  if truthy (record st) then records st ++ [record st] else records st.

Definition required_fields : list string := ["PRN"; "Week"; "Time"].

(** [f not in df.columns or df[f].isnull().all()] *)
Definition is_missing (df : DataFrame) (f : string) : bool :=
  match column df f with
  | None => true
  | Some c => forallb isnull c
  end.

(** [pd.to_datetime] on a column of timestamps and missing values
    leaves the values as they are. (The timestamps are taken in the
    range a pandas timestamp has, the years 1678 to 2261.) *)
Definition to_datetime (c : list value) : list value := c.

(** Lines 36 to 117 of parser.py: from the lines read to the table. *)
Definition parse_lines (lines : list string) (mtime_utc : datetime)
    (almanac_date : option datetime) (strict : bool) : result DataFrame :=
  match lines with
  | [] => Raise ValueError_empty_input
  | _ =>
      let almanac_date := default mtime_utc almanac_date in
      st ← scan almanac_date lines init;
      let records := finish st in
      match records with
      | [] => Raise ValueError_no_records
      | _ =>
          match pd_DataFrame records with
          | None => Raise OverflowError
          | Some df =>
              let missing := List.filter (is_missing df) required_fields in
              if strict && negb (bool_decide (missing = []))
              then Raise (ValueError_missing_required missing)
              else
                match column df "Time" with
                | None => Raise (KeyError "Time")
                | Some c => Ok (set_column "Time" (to_datetime c) df)
                end
          end
      end
  end.

Definition parse_yuma_almanac (filepath : path) (almanac_date : option datetime)
    (strict : bool) : result DataFrame :=
  match target filepath with
  | NoFile => Raise FileNotFoundError
  | Unreadable => Raise IOError
  | Readable lines mtime_utc => parse_lines lines mtime_utc almanac_date strict
  end.

End Parser.

(** ** reader.py: yumaread *)

Module Reader.
Import Text Builtins Data Parser.

(** The regular expression [(\d{4})-(\d{2})-(\d{2})] tried at the start
    of [s]; the result is the three groups. *)
Definition match_date_at (s : string) : option (string * string * string) :=
  match s with
  | String y1 (String y2 (String y3 (String y4 (String h1
      (String m1 (String m2 (String h2 (String d1 (String d2 _))))))))) =>
      if isdigit y1 && isdigit y2 && isdigit y3 && isdigit y4
         && Ascii.eqb h1 "-" && isdigit m1 && isdigit m2
         && Ascii.eqb h2 "-" && isdigit d1 && isdigit d2
      then Some (String y1 (String y2 (String y3 (String y4 ""))),
                 String m1 (String m2 ""),
                 String d1 (String d2 ""))
      else None
  | _ => None
  end.

(** [re.search(r"(\d{4})-(\d{2})-(\d{2})", s)]: the leftmost match. *)
Fixpoint re_search_date (s : string) : option (string * string * string) :=
  match match_date_at s with
  | Some g => Some g
  | None =>
      match s with
      | EmptyString => None
      | String _ s' => re_search_date s'
      end
  end.

Definition is_leap (y : Z) : bool :=
  (y mod 4 =? 0) && (negb (y mod 100 =? 0) || (y mod 400 =? 0)).

Definition days_in_month (y m : Z) : Z :=
  if m =? 2 then (if is_leap y then 29 else 28)
  else if (m =? 4) || (m =? 6) || (m =? 9) || (m =? 11) then 30
  else 31.

(** [datetime.datetime(y, m, d, tzinfo=datetime.timezone.utc)]; [None]
    stands for the ValueError of a date that does not exist. *)
Definition datetime_utc (y m d : Z) : option datetime :=
  if (1 <=? y) && (y <=? 9999) && (1 <=? m) && (m <=? 12)
     && (1 <=? d) && (d <=? days_in_month y m)
  then Some (mkDatetime y m d 0 0 0 0 (Some 0))
  else None.

(** Lines 44 to 54: the date taken from the file name, [None] when there
    is no match or the [try] block fails. *)
Definition filename_date (fname : string) : option datetime :=
  match re_search_date fname with
  | Some (gy, gm, gd) =>
      y ← py_int gy; m ← py_int gm; d ← py_int gd; datetime_utc y m d
  | None => None
  end.

(** [bool(time_format)] *)
Definition format_given (time_format : option string) : option string :=
  match time_format with
  | Some f => if String.eqb f "" then None else Some f
  | None => None
  end.

Definition default_time_format : option string := Some "%Y-%m-%d".

Section Yumaread.

(** [column.dt.strftime(fmt)] of pandas, given by what it does to one cell
    of the column; [None] where it raises. The whole column is rendered
    or, when one cell fails, none of it. *)
Variable strftime_cell : string -> value -> option value.

Definition dt_strftime (fmt : string) (c : list value) : option (list value) :=
  mapM (strftime_cell fmt) c.

(** [df.style.format(...).to_string()] with the display precision;
    [None] where it raises. *)
Variable style_to_string : option Z -> DataFrame -> option string.

(** Lines 64 to 69: the formatting of the Time column in its [try]. *)
Definition format_time (time_format : option string) (df : DataFrame) : DataFrame :=
  match format_given time_format with
  | Some fmt =>
      match column df "Time" ≫= dt_strftime fmt with
      | Some c => set_column "Time" c df
      | None => df
      end
  | None => df
  end.

(** The body of the [try] block of yumaread. *)
Definition yumaread_body (filename : path) (time_format : option string)
    (float_precision : option Z) (display strict : bool) : result DataFrame :=
  match target filename with
  | NoFile => Raise FileNotFoundError
  | _ =>
      let almanac_date := filename_date (name filename) in
      df ← parse_yuma_almanac filename almanac_date strict;
      if negb (bool_decide ("Time" ∈ columns df))
      then Raise ValueError_no_time_column
      else
        let df := format_time time_format df in
        match set_index "Time" df with
        | None => Raise (KeyError "Time")
        | Some df =>
            if display then
              match style_to_string float_precision df with
              | Some _ => Ok df
              | None => Raise OtherError
              end
            else Ok df
        end
  end.

(** yumaread: [except Exception] turns every exception into [None]. *)
Definition yumaread (filename : path) (time_format : option string)
    (float_precision : option Z) (display strict : bool) : option DataFrame :=
  match yumaread_body filename time_format float_precision display strict with
  | Ok df => Some df
  | Raise _ => None
  end.

End Yumaread.

(** A rendering of timestamps for formats made of the directives
    [%Y %m %d %H %M %S %%], among them the default [%Y-%m-%d]; it is
    used for concrete runs with such formats only, and is no model of
    the other directives. *)
Definition dec (n : Z) : ascii := ascii_of_N (48 + Z.to_N (n mod 10)).

Definition pad2 (n : Z) : string := String (dec (n / 10)) (String (dec n) "").

Definition pad4 (n : Z) : string :=
  String (dec (n / 1000)) (String (dec (n / 100)) (pad2 n)).

Fixpoint strftime (fmt : string) (t : datetime) : option string :=
  match fmt with
  | EmptyString => Some ""
  | String "%" (String c fmt') =>
      let piece :=
        if Ascii.eqb c "Y" then Some (pad4 (year t))
        else if Ascii.eqb c "m" then Some (pad2 (month t))
        else if Ascii.eqb c "d" then Some (pad2 (day t))
        else if Ascii.eqb c "H" then Some (pad2 (hour t))
        else if Ascii.eqb c "M" then Some (pad2 (minute t))
        else if Ascii.eqb c "S" then Some (pad2 (second t))
        else if Ascii.eqb c "%" then Some "%"
        else None in
      p ← piece; r ← strftime fmt' t; Some (p +:+ r)
  | String c fmt' => r ← strftime fmt' t; Some (String c r)
  end.

(** On a cell: a timestamp is rendered, a missing value stays missing,
    and anything else has no [.dt]. *)
Definition strftime_value (fmt : string) (v : value) : option value :=
  match v with
  | VTime t => VStr <$> strftime fmt t
  | VNone => Some VNone
  | _ => None
  end.

(** Two stand-ins for the display step: one that renders nothing and
    succeeds, one that raises. *)
Definition display_ok (_ : option Z) (_ : DataFrame) : option string := Some "".
Definition display_raises (_ : option Z) (_ : DataFrame) : option string := None.

End Reader.

(** ** The kinds of line the scan distinguishes *)

Module Lines.
Import Text Builtins Data Parser.

(** All four are read off the line as the loop sees it, that is after
    [strip()]. *)
Definition is_blank (l : string) : bool := String.eqb (strip l) "".
Definition is_header (l : string) : bool := startswith "******** Week" (strip l).
Definition is_id (l : string) : bool := startswith "ID:" (strip l).
Definition is_field (l : string) : bool := bool_decide (is_Some (lookup_field (strip l))).

(** The week number a header line carries, if the pattern finds one. *)
Definition header_week (l : string) : option string := re_search_week (strip l).

(** The PRN that an [ID:] line gives its record. *)
Definition prn_of (l : string) : value := parse_field conv_int (strip l).

(** No field line comes before the first [ID:] line: every field line
    lies in a block that an [ID:] line started. *)
Fixpoint well_formed (lines : list string) : bool :=
  match lines with
  | [] => true
  | l :: ls =>
      if is_id l then true
      else if is_field l then false
      else well_formed ls
  end.

Fixpoint all_chars (p : ascii -> bool) (s : string) : bool :=
  match s with
  | EmptyString => true
  | String c s' => p c && all_chars p s'
  end.

(** The week number of a header, if it has one, is a numeral [int]
    accepts: it has no more than [int_max_str_digits] digits. Every line
    that is no header fits. *)
Definition week_fits (l : string) : bool :=
  negb (is_header l)
  || match header_week l with
     | Some g => (N.of_nat (String.length g) <=? int_max_str_digits)%N
     | None => true
     end.


(** The attribute a field line writes. *)
Definition field_key (l : string) : option string :=
  (λ e, fst (snd e)) <$> lookup_field (strip l).

(** The lines start a record, or there are none: what follows the block
    of a record. *)
Definition starts_record (post : list string) : bool :=
  match post with
  | [] => true
  | l :: _ => is_id l
  end.

End Lines.

(** ** Concrete almanac files used in the examples *)

Module Samples.
Import Text Builtins Data Parser Reader.

(** A line as [readlines()] gives it, with its newline. *)
Definition ln (s : string) : string := s +:+ String (ascii_of_nat 10) "".

Definition midnight (y m d : Z) : datetime := mkDatetime y m d 0 0 0 0 (Some 0).

Definition mtime_a : datetime := mkDatetime 2025 1 2 3 4 5 0 (Some 0).
Definition mtime_b : datetime := mkDatetime 2026 6 7 8 9 10 0 (Some 0).

Definition ecc_line : string := ln "Eccentricity:               0.1234567D-01".
Definition af0_line : string := ln "Af0(s):                     0.5722045898D-03".

(** Two satellites under their week headers. *)
Definition two_records : list string :=
  [ ln "******** Week 175 almanac for PRN-01 ********";
    ln "ID:                         01";
    ln "Health:                     000";
    ecc_line;
    ln "";
    ln "******** Week 175 almanac for PRN-02 ********";
    ln "ID:                         02";
    ln "Health:                     063" ].

Definition two_records_file : path :=
  {| name := "almanac.alm"; target := Readable two_records mtime_a |}.

(** The same lines in a file modified at another time. *)
Definition two_records_file_b : path :=
  {| name := "almanac.alm"; target := Readable two_records mtime_b |}.

(** The same lines under a name that carries a date. *)
Definition dated_file : path :=
  {| name := "yumaAlmanac_2024-03-05.alm"; target := Readable two_records mtime_a |}.

(** A name whose first date-shaped part is no calendar date. *)
Definition misdated_file : path :=
  {| name := "0000-00-00_2024-03-05.alm"; target := Readable two_records mtime_a |}.

Definition missing_file : path := {| name := "almanac.alm"; target := NoFile |}.

(** A file with a field line and no [ID:] line at all. *)
Definition no_id_lines : list string := [ ln "Health:                     000" ].

Definition no_id_file : path :=
  {| name := "almanac.alm"; target := Readable no_id_lines mtime_a |}.

(** A field line between the week header and the first [ID:] line. *)
Definition field_before_id : list string :=
  [ ln "******** Week 175 almanac for PRN-01 ********";
    ln "Health:                     000";
    ln "ID:                         01" ].

Definition field_before_id_file : path :=
  {| name := "almanac.alm"; target := Readable field_before_id mtime_a |}.

(** A week header with no blank between [Week] and the number. *)
Definition tight_header : string := ln "******** Week175 almanac for PRN-01 ********".
Definition good_header : string := ln "******** Week 175 almanac for PRN-01 ********".
Definition id_line_1 : string := ln "ID:                         01".
Definition bad_id_line : string := ln "ID:                         A1".
Definition bad_health_line : string := ln "Health:                     n/a".
Definition health_line_0 : string := ln "Health:                     000".
Definition health_line_63 : string := ln "Health:                     063".

(** The cells of one column of a parse result, nothing if it failed. *)
Definition cells_of (k : string) (r : result DataFrame) : list value :=
  match r with
  | Ok df => cell k <$> rows df
  | Raise _ => []
  end.

(** The index of the table yumaread returns. *)
Definition index_of (r : option DataFrame) : option (string * list value) :=
  r ≫= index.

End Samples.

(** ** download.py: download_yuma_almanac *)

Module Download.
Import Text Builtins Data Parser Reader.

(** [datetime.date]: the constructor of Python admits valid calendar
    dates only, which [valid_date] says. *)
Record date := mkDate { dyear : Z; dmonth : Z; dday : Z }.

Definition valid_date (d : date) : bool :=
  (1 <=? dyear d) && (dyear d <=? 9999) && (1 <=? dmonth d) && (dmonth d <=? 12)
  && (1 <=? dday d) && (dday d <=? days_in_month (dyear d) (dmonth d)).

(** [date.timetuple().tm_yday]: the days of the months before, and the
    day of the month. *)
Definition days_before_month (y m : Z) : Z :=
  fold_right Z.add 0
    (List.map (days_in_month y)
       (List.filter (fun i => i <? m) [1; 2; 3; 4; 5; 6; 7; 8; 9; 10; 11; 12])).

Definition tm_yday (d : date) : Z :=
  days_before_month (dyear d) (dmonth d) + dday d.

(** [date.isoformat()] *)
Definition isoformat (d : date) : string :=
  pad4 (dyear d) +:+ "-" +:+ pad2 (dmonth d) +:+ "-" +:+ pad2 (dday d).

(** [str(n)] for an integer. *)
Definition str_int (n : Z) : string := NilZero.string_of_int (Z.to_int n).

(** The format [{doy:03d}] on a day of year (at most three digits). *)
Definition pad3 (n : Z) : string := String (dec (n / 100)) (pad2 n).

Definition url_of (d : date) : string :=
  "https://navcen.uscg.gov/sites/default/files/gps/almanac/"
  +:+ str_int (dyear d) +:+ "/Yuma/" +:+ pad3 (tm_yday d) +:+ ".alm".

(** A path [save_dir / name], as its directory and its final component. *)
Abbreviation file_path := (string * string)%type.

Definition filename_of (save_dir : string) (d : date) : file_path :=
  (save_dir, "yumaAlmanac_" +:+ isoformat d +:+ ".alm").

(** The exceptions the body can meet, each with its text [str(e)]. *)
Inductive exc :=
| RequestException (text : string)
| OSError (text : string)
| RuntimeError (text : string)
| Exception (text : string).

Inductive get_outcome :=
| GetRaises (e : exc)
| Response (status_code : Z) (content : string).

(** Opening the file for writing and writing it: done, or an OSError
    that leaves the file absent or with some content. *)
Inductive write_outcome :=
| Written
| WriteRaises (text : string) (remains : option string).

(** What the function finds outside itself: the files that exist, with
    their bytes; what [save_dir.mkdir(parents=True, exist_ok=True)] does
    ([Some text]: it raises OSError); what [requests.get(url, timeout=10)]
    gives; what writing a file does. *)
Record world := mkWorld {
  files : gmap file_path string;
  mkdir : string -> option string;
  get : string -> get_outcome;
  write : file_path -> string -> write_outcome
}.

(** What a call does: it returns a path or [None], or raises
    RuntimeError; the files afterwards; the requests sent. *)
Inductive outcome :=
| Return (r : option file_path)
| Raises (msg : string).

Record run := mkRun {
  out : outcome;
  files_after : gmap file_path string;
  requests : list string
}.

(** Whitespace for [bytes.strip()]. *)
Definition bytes_space (c : ascii) : bool :=
  let n := code c in (((9 <=? n) && (n <=? 13)) || (n =? 32))%N.

(** [bool(content.strip())] *)
Definition nonblank (content : string) : bool :=
  negb (String.eqb (strip_by bytes_space content) "").

(** The body of the [try] block: what it returns or raises, with the
    files and the requests. *)
Definition download_body (w : world) (d : date) (save_dir : string)
    (raise_on_fail overwrite : bool) : (exc + option file_path) * gmap file_path string * list string :=
  match mkdir w save_dir with
  | Some text => (inl (OSError text), files w, [])
  | None =>
      let url := url_of d in
      let filename := filename_of save_dir d in
      if bool_decide (is_Some (files w !! filename)) && negb overwrite
      then (inr (Some filename), files w, [])
      else
        match get w url with
        | GetRaises e => (inl e, files w, [url])
        | Response status_code content =>
            if (status_code =? 200) && nonblank content then
              match write w filename content with
              | Written =>
                  (inr (Some filename), <[filename := content]> (files w), [url])
              | WriteRaises text remains =>
                  (inl (OSError text),
                   match remains with
                   | Some c => <[filename := c]> (files w)
                   | None => delete filename (files w)
                   end,
                   [url])
              end
            else
              let msg := "Failed to download file (HTTP " +:+ str_int status_code
                         +:+ ") from: " +:+ url in
              if raise_on_fail then (inl (RuntimeError msg), files w, [url])
              else (inr None, files w, [url])
        end
  end.

(** The three [except] clauses, in their order. *)
Definition message (e : exc) : string :=
  match e with
  | RequestException text => "Request error: " +:+ text
  | OSError text => "File I/O error: " +:+ text
  | RuntimeError text => "Unexpected error: " +:+ text
  | Exception text => "Unexpected error: " +:+ text
  end.

Definition download_yuma_almanac (w : world) (d : date) (save_dir : string)
    (raise_on_fail overwrite : bool) : run :=
  let '(r, fs, reqs) := download_body w d save_dir raise_on_fail overwrite in
  {| out := match r with
            | inr v => Return v
            | inl e => if raise_on_fail then Raises (message e) else Return None
            end;
     files_after := fs;
     requests := reqs |}.

End Download.

(** ** The attributes of a record and the lines the scan passes over *)

Module Schema.
Import Text Builtins Data Parser Lines.

(** The attributes the scan can write: the three of a record start and
    those of the labels. *)
Definition attributes : list string :=
  ["PRN"; "Week"; "Time"] ++ List.map (fun e => fst (snd e)) field_map.

(** A line the loop passes over: blank, or no header, no [ID:] line and
    no field line. *)
Definition is_ignored (l : string) : bool :=
  negb (is_header l) && negb (is_id l) && negb (is_field l).

(** Lines 101 to 117 of parser.py, read as one function of the records
    of the scan: the table, or the exception. *)
Definition table_of (records : list dict) (strict : bool) : result DataFrame :=
  if bool_decide (records = []) then Raise ValueError_no_records
  else
    match pd_DataFrame records with
    | None => Raise OverflowError
    | Some df =>
        let missing := List.filter (is_missing df) required_fields in
        if strict && negb (bool_decide (missing = []))
        then Raise (ValueError_missing_required missing)
        else if bool_decide ("Time" ∈ columns df) then Ok df
        else Raise (KeyError "Time")
    end.

(** The table has a cell that is not null in column [f]. *)
Definition has_value (df : DataFrame) (f : string) : Prop :=
  f ∈ columns df ∧ ∃ r, r ∈ rows df ∧ isnull (cell f r) = false.

End Schema.

(** ** Concrete runs of the download *)

Module DownloadSamples.
Import Text Builtins Data Parser Reader Download.

Definition march_5 : date := mkDate 2024 3 5.

Definition almanac_bytes : string :=
  "******** Week 175 almanac for PRN-01 ********" +:+ String (ascii_of_nat 10) "ID: 01".

(** A world without files in which the archive answers 200. *)
Definition online : world :=
  {| files := ∅;
     mkdir := fun _ => None;
     get := fun _ => Response 200 almanac_bytes;
     write := fun _ _ => Written |}.

(** A world in which the file is there already and the archive is down. *)
Definition cached_offline : world :=
  {| files := {[ filename_of "data" march_5 := almanac_bytes ]};
     mkdir := fun _ => None;
     get := fun _ => GetRaises (RequestException "connection refused");
     write := fun _ _ => Written |}.

(** A world in which the archive has no file for the day. *)
Definition not_found : world :=
  {| files := ∅;
     mkdir := fun _ => None;
     get := fun _ => Response 404 "";
     write := fun _ _ => Written |}.

End DownloadSamples.

(** ** Facts about the text primitives and the builtins *)

Module TextFacts.
Import Text Builtins Data Parser Lines.

Lemma isdigit_not_num_space c : isdigit c = true → num_space c = false.
Proof. destruct c as [[] [] [] [] [] [] [] []]; vm_compute; congruence. Qed.

Lemma isdigit_read_sign c s :
  isdigit c = true → read_sign (String c s) = (false, String c s).
Proof. destruct c as [[] [] [] [] [] [] [] []]; vm_compute; congruence. Qed.

Lemma take_while_all p s : all_chars p (take_while p s) = true.
Proof.
  induction s as [|c s IH]; simpl; [done|].
  destruct (p c) eqn:Hc; simpl; [by rewrite Hc|done].
Qed.

Lemma rstrip_by_all_kept p s :
  all_chars (λ c, negb (p c)) s = true → rstrip_by p s = s.
Proof.
  induction s as [|c s IH]; simpl; [done|].
  intros [Hc Hs]%andb_prop. rewrite (IH Hs).
  destruct s; [|done]. by apply negb_true_iff in Hc as ->.
Qed.

Lemma all_chars_impl (p q : ascii → bool) s :
  (∀ c, p c = true → q c = true) → all_chars p s = true → all_chars q s = true.
Proof.
  intros Hpq. induction s as [|c s IH]; simpl; [done|].
  intros [Hc Hs]%andb_prop. by rewrite (Hpq _ Hc), IH.
Qed.

Lemma strip_by_digits g :
  all_chars isdigit g = true → strip_by num_space g = g.
Proof.
  intros Hg. unfold strip_by.
  assert (lstrip_by num_space g = g) as ->.
  { destruct g as [|c g]; simpl in *; [done|].
    apply andb_prop in Hg as [Hc _]. by rewrite (isdigit_not_num_space _ Hc). }
  apply rstrip_by_all_kept. revert Hg. apply all_chars_impl.
  intros c Hc. by rewrite (isdigit_not_num_space _ Hc).
Qed.

Lemma read_digits_all s : ∀ acc n,
  all_chars isdigit s = true →
  ∃ v, read_digits acc n s = (v, (n + String.length s)%nat, "").
Proof.
  induction s as [|c s IH]; simpl; intros acc n Hs.
  - exists acc. by rewrite Nat.add_0_r.
  - apply andb_prop in Hs as [Hc Hs]. rewrite Hc.
    destruct (IH (10 * acc + digit_val c)%N (S n) Hs) as [v Hv].
    exists v. rewrite Hv. do 2 f_equal. lia.
Qed.

(** [int] accepts a non-empty run of decimal digits exactly when it has
    no more than [int_max_str_digits] of them. *)
Lemma py_int_digits g :
  g ≠ "" → all_chars isdigit g = true →
  if (N.of_nat (String.length g) <=? int_max_str_digits)%N
  then is_Some (py_int g) else py_int g = None.
Proof.
  intros Hne Hg. unfold py_int. rewrite (strip_by_digits _ Hg).
  destruct g as [|c g]; [done|]. simpl in Hg.
  apply andb_prop in Hg as [Hc Hg].
  rewrite (isdigit_read_sign _ _ Hc). unfold digitpart. rewrite Hc.
  destruct (read_digits_all g (10 * 0 + digit_val c)%N 1 Hg) as [v ->].
  cbn [String.length Nat.add].
  destruct (N.of_nat (S (String.length g)) <=? int_max_str_digits)%N; eauto.
Qed.

Lemma match_week_at_digits s g :
  match_week_at s = Some g → g ≠ "" ∧ all_chars isdigit g = true.
Proof.
  unfold match_week_at. destruct (startswith "Week" s); [|done].
  destruct (take_while isspace _); [done|].
  pose proof (take_while_all isdigit (drop_while isspace (drop 4 s))) as Hall.
  destruct (take_while isdigit _) as [|c r]; [done|].
  intros [= <-]. done.
Qed.

(** Group 1 of the week pattern is a non-empty run of digits. *)
Lemma re_search_week_digits s g :
  re_search_week s = Some g → g ≠ "" ∧ all_chars isdigit g = true.
Proof.
  induction s as [|c s IH]; cbn [re_search_week];
    destruct (match_week_at _) eqn:E; try done;
    intros [= <-]; by eapply match_week_at_digits.
Qed.

Lemma re_search_week_int s g :
  re_search_week s = Some g →
  if (N.of_nat (String.length g) <=? int_max_str_digits)%N
  then is_Some (py_int g) else py_int g = None.
Proof. intros [??]%re_search_week_digits. by apply py_int_digits. Qed.

Lemma startswith_cons p c d t :
  startswith (String c p) (String d t) = true ↔ c = d ∧ startswith p t = true.
Proof.
  unfold startswith. simpl. destruct (ascii_dec c d) as [->|Hne].
  - split; [done|by intros [_ ?]].
  - split; [done|by intros [? _]].
Qed.

Lemma startswith_nil p c : startswith (String c p) "" = false.
Proof. done. Qed.

End TextFacts.

(** ** Facts about one turn of the scan loop *)

Module StepFacts.
Import Text Builtins Data Parser Lines TextFacts.

Lemma id_line_class s :
  startswith "ID:" s = true →
  String.eqb s "" = false ∧ startswith "******** Week" s = false.
Proof.
  destruct s as [|d t]; [done|].
  intros [<- _]%startswith_cons. done.
Qed.

Lemma header_line_class s :
  startswith "******** Week" s = true → String.eqb s "" = false.
Proof. destruct s; done. Qed.

Lemma lookup_field_in s e :
  lookup_field s = Some e →
  In e field_map ∧ startswith (fst e) s = true ∧ fst e ≠ "ID:".
Proof.
  intros [Hin [Hp Hne%negb_true_iff]%andb_prop]%find_some.
  split_and!; [done..|]. intros Heq. by rewrite Heq in Hne.
Qed.

(** A line that selects a label is not blank, not a week header and not
    an [ID:] line: it reaches the last branch of the loop. *)
Lemma lookup_field_class s e :
  lookup_field s = Some e →
  String.eqb s "" = false ∧ startswith "******** Week" s = false
  ∧ startswith "ID:" s = false.
Proof.
  intros (Hin & Hp & Hne)%lookup_field_in.
  simpl in Hin.
  repeat (destruct Hin as [<- | Hin];
    [cbn [fst] in *;
     first [done
           | destruct s as [|d t]; [done|];
             apply startswith_cons in Hp as [<- _]; by split_and!]|]).
  done.
Qed.

(** The labels write none of the three attributes set at record start. *)
Lemma lookup_field_key s f k c :
  lookup_field s = Some (f, (k, c)) →
  k ≠ "PRN" ∧ k ≠ "Week" ∧ k ≠ "Time".
Proof.
  intros (Hin & _ & Hne)%lookup_field_in. simpl in Hin, Hne.
  repeat (destruct Hin as [[= <- <- <-] | Hin]; [done|]). done.
Qed.

(** Every label but [Health:] converts with the D-to-E float converter. *)
Lemma lookup_field_conv s f k c :
  lookup_field s = Some (f, (k, c)) →
  (f = "Health:" ∧ c = conv_int) ∨ (f ≠ "Health:" ∧ c = conv_float).
Proof.
  intros (Hin & _ & Hne)%lookup_field_in. simpl in Hin, Hne.
  repeat (destruct Hin as [[= <- <- <-] | Hin]; [naive_solver|]). done.
Qed.

Lemma step_blank ad st l : is_blank l = true → step ad st l = Ok st.
Proof. unfold is_blank, step. by intros ->. Qed.

Lemma step_header ad st l :
  is_header l = true →
  step ad st l =
    match header_week l with
    | Some g =>
        match py_int g with
        | Some w => Ok {| records := records st; record := record st; week := VInt w |}
        | None => Raise (ValueError_int g)
        end
    | None => Ok st
    end.
Proof.
  unfold is_header, header_week, step. intros H.
  by rewrite (header_line_class _ H), H.
Qed.

Lemma step_id ad st l :
  is_id l = true →
  step ad st l =
    Ok {| records := finish st;
          record := <["PRN" := prn_of l]>
                      (<["Time" := VTime ad]> {["Week" := week st]});
          week := week st |}.
Proof.
  unfold is_id, step. intros H.
  destruct (id_line_class _ H) as [-> ->]. by rewrite H.
Qed.

Lemma step_field ad st l f k c :
  lookup_field (strip l) = Some (f, (k, c)) →
  step ad st l =
    Ok {| records := records st;
          record := <[k := parse_field c (strip l)]> (record st);
          week := week st |}.
Proof.
  unfold step. intros H.
  destruct (lookup_field_class _ _ H) as (-> & -> & ->). by rewrite H.
Qed.

Lemma step_other ad st l :
  is_header l = false → is_id l = false → is_field l = false →
  step ad st l = Ok st.
Proof.
  unfold is_header, is_id, is_field, step. intros -> -> Hf.
  destruct (String.eqb _ _); [done|].
  destruct (lookup_field _); [|done].
  apply bool_decide_eq_false in Hf. by destruct Hf.
Qed.

Lemma is_field_lookup l :
  is_field l = true ↔ ∃ f k c, lookup_field (strip l) = Some (f, (k, c)).
Proof.
  unfold is_field. rewrite bool_decide_eq_true. split.
  - intros [[f [k c]] H]. eauto.
  - intros (f & k & c & H). eauto.
Qed.

(** The kinds of line exclude one another. *)
Lemma is_id_not_header l : is_id l = true → is_header l = false.
Proof. intros H. by apply id_line_class in H as [_ ?]. Qed.

Lemma is_field_not_id l : is_field l = true → is_id l = false.
Proof.
  intros (f & k & c & H)%is_field_lookup.
  by apply lookup_field_class in H as (_ & _ & ?).
Qed.

Lemma is_field_not_header l : is_field l = true → is_header l = false.
Proof.
  intros (f & k & c & H)%is_field_lookup.
  by apply lookup_field_class in H as (_ & ? & _).
Qed.

(** A header whose week number fits sets the week; one whose week
    number does not fit raises the ValueError of [int]. *)
Lemma step_header_fits ad st l g :
  is_header l = true → header_week l = Some g → week_fits l = true →
  ∃ w, py_int g = Some w
       ∧ step ad st l
         = Ok {| records := records st; record := record st; week := VInt w |}.
Proof.
  intros Hh Hg Hfit. rewrite (step_header _ _ _ Hh), Hg.
  unfold week_fits in Hfit. rewrite Hh, Hg in Hfit. simpl in Hfit.
  pose proof (re_search_week_int _ _ Hg) as Hint. rewrite Hfit in Hint.
  destruct Hint as [w Hw]. rewrite Hw. eauto.
Qed.

Lemma step_header_unfit ad st l g :
  is_header l = true → header_week l = Some g → week_fits l = false →
  py_int g = None ∧ step ad st l = Raise (ValueError_int g).
Proof.
  intros Hh Hg Hfit. rewrite (step_header _ _ _ Hh), Hg.
  unfold week_fits in Hfit. rewrite Hh, Hg in Hfit. simpl in Hfit.
  pose proof (re_search_week_int _ _ Hg) as Hint. rewrite Hfit in Hint.
  by rewrite Hint.
Qed.

(** One turn of the loop raises for nothing but such a header. *)
Lemma step_fits ad st l : week_fits l = true → ∃ st', step ad st l = Ok st'.
Proof.
  intros Hfit. destruct (is_header l) eqn:Hh.
  - destruct (header_week l) as [g|] eqn:Hg.
    + destruct (step_header_fits ad st l g Hh Hg Hfit) as (w & _ & ->). eauto.
    + rewrite (step_header _ _ _ Hh), Hg. eauto.
  - destruct (is_id l) eqn:Hi; [rewrite (step_id _ _ _ Hi); eauto|].
    destruct (is_field l) eqn:Hf; [|rewrite step_other; eauto].
    apply is_field_lookup in Hf as (f & k & c & Hf).
    rewrite (step_field _ _ _ _ _ _ Hf). eauto.
Qed.

Lemma step_raises ad st l e :
  step ad st l = Raise e →
  is_header l = true ∧ week_fits l = false
  ∧ ∃ g, header_week l = Some g ∧ py_int g = None ∧ e = ValueError_int g.
Proof.
  intros Hs. destruct (week_fits l) eqn:Hfit.
  { destruct (step_fits ad st l Hfit) as [st' Hst']. congruence. }
  assert (is_header l = true) as Hh.
  { unfold week_fits in Hfit. by destruct (is_header l). }
  destruct (header_week l) as [g|] eqn:Hg.
  - destruct (step_header_unfit ad st l g Hh Hg Hfit) as [Hint Hst].
    split_and!; [done..|]. exists g. split_and!; [done..|]. congruence.
  - unfold week_fits in Hfit. by rewrite Hh, Hg in Hfit.
Qed.

Lemma step_Ok_fits ad st l st' : step ad st l = Ok st' → week_fits l = true.
Proof.
  intros Hs. destruct (week_fits l) eqn:Hfit; [done|].
  assert (is_header l = true) as Hh.
  { unfold week_fits in Hfit. by destruct (is_header l). }
  destruct (header_week l) as [g|] eqn:Hg.
  - destruct (step_header_unfit ad st l g Hh Hg Hfit) as [_ Hst]. congruence.
  - unfold week_fits in Hfit. by rewrite Hh, Hg in Hfit.
Qed.

(** The whole loop returns when the week number of every header fits,
    and only then. *)
Lemma scan_fits ad lines : ∀ st,
  Forall (λ l, week_fits l = true) lines → ∃ st', scan ad lines st = Ok st'.
Proof.
  induction lines as [|l ls IH]; intros st Hall; simpl; [eauto|].
  apply Forall_cons in Hall as [Hl Hall].
  destruct (step_fits ad st l Hl) as [st1 ->]. simpl. by apply IH.
Qed.

Lemma scan_Ok_fits ad lines : ∀ st st',
  scan ad lines st = Ok st' → Forall (λ l, week_fits l = true) lines.
Proof.
  induction lines as [|l ls IH]; intros st st'; simpl; [done|].
  destruct (step ad st l) as [st1|e] eqn:Hs; [|done]. simpl.
  intros Hscan. constructor; [by eapply step_Ok_fits|by eapply IH].
Qed.

Lemma scan_raises ad lines : ∀ st e,
  scan ad lines st = Raise e →
  ∃ l g, l ∈ lines ∧ is_header l = true ∧ week_fits l = false
         ∧ header_week l = Some g ∧ py_int g = None ∧ e = ValueError_int g.
Proof.
  induction lines as [|l ls IH]; intros st e; simpl; [done|].
  destruct (step ad st l) as [st1|e'] eqn:Hs; simpl.
  - intros (l' & g & Hin & H)%IH. exists l', g. split; [|done].
    by apply list_elem_of_further.
  - intros [= ->]. destruct (step_raises _ _ _ _ Hs) as (Hh & Hfit & g & Hg & Hi & ->).
    exists l, g. split_and!; try done. apply list_elem_of_here.
Qed.

Lemma scan_cons ad l ls st st1 :
  step ad st l = Ok st1 → scan ad (l :: ls) st = scan ad ls st1.
Proof. simpl. by intros ->. Qed.

Lemma scan_app ad ls1 : ∀ ls2 st st1,
  scan ad ls1 st = Ok st1 → scan ad (ls1 ++ ls2) st = scan ad ls2 st1.
Proof.
  induction ls1 as [|l ls1 IH]; intros ls2 st st1; simpl.
  - by intros [= ->].
  - destruct (step ad st l) as [st'|e]; simpl; [apply IH|done].
Qed.

Lemma scan_app_inv ad ls1 : ∀ ls2 st st',
  scan ad (ls1 ++ ls2) st = Ok st' →
  ∃ st1, scan ad ls1 st = Ok st1 ∧ scan ad ls2 st1 = Ok st'.
Proof.
  induction ls1 as [|l ls1 IH]; intros ls2 st st'; simpl; [eauto|].
  destruct (step ad st l) as [st1|e]; simpl; [apply IH|done].
Qed.

End StepFacts.

(** ** Facts about tables *)

Module TableFacts.
Import Text Builtins Data Parser Lines.

Lemma truthy_insert (k : string) (v : value) (r : dict) :
  truthy (<[k := v]> r) = true.
Proof. apply bool_decide_eq_true, insert_non_empty. Qed.

Lemma truthy_empty : truthy ∅ = false.
Proof. by apply bool_decide_eq_false; intros []. Qed.

Lemma truthy_false (r : dict) : truthy r = false → r = ∅.
Proof.
  intros H%bool_decide_eq_false. destruct (decide (r = ∅)); [done|].
  by destruct H.
Qed.

Lemma stored_same v : stored v v.
Proof. by left. Qed.

(** What is no integer is stored as it is. *)
Lemma stored_not_int v c : (∀ z, v ≠ VInt z) → stored v c → c = v.
Proof.
  intros Hv [->| ->]; [done|]. destruct v; try done. by destruct (Hv z).
Qed.

Lemma astype_stored d o : stored (default VNone o) (astype d o).
Proof. destruct o as [v|]; [|by left]. destruct d; [by left|by right]. Qed.

Lemma astype_not_int d o :
  (∀ z, o ≠ Some (VInt z)) → astype d o = default VNone o.
Proof.
  intros Ho. destruct o as [v|]; [|done]. destruct d; [done|].
  destruct v; try done. by destruct (Ho z).
Qed.

Lemma lookup_table_row records cols r k :
  table_row records cols r !! k
  = if bool_decide (k ∈ cols)
    then Some (astype (default Kept (column_dtype records k)) (r !! k))
    else None.
Proof.
  unfold table_row. rewrite map_lookup_imap, lookup_gset_to_gmap.
  case_bool_decide; [by rewrite option_guard_True|by rewrite option_guard_False].
Qed.

(** A key is a column exactly when some record has it. *)
Lemma elem_of_columns k records :
  k ∈ columns (frame records) ↔ ∃ r, r ∈ records ∧ is_Some (r !! k).
Proof.
  unfold frame; simpl. rewrite elem_of_union_list. split.
  - intros (X & (r & -> & Hr)%list_elem_of_fmap & Hk).
    exists r. split; [done|]. by apply elem_of_dom.
  - intros (r & Hr & Hk). exists (dom r). split.
    + apply list_elem_of_fmap. eauto.
    + by apply elem_of_dom.
Qed.

(** The cell of a row is the entry of the record, stored with the dtype
    of the column. *)
Lemma cell_table_row records r k :
  r ∈ records →
  cell k (table_row records (columns (frame records)) r)
  = astype (default Kept (column_dtype records k)) (r !! k).
Proof.
  intros Hr. unfold cell. rewrite lookup_table_row.
  case_bool_decide as Hk; [done|].
  destruct (r !! k) as [v|] eqn:Hv; [|done].
  destruct Hk. apply elem_of_columns. eauto.
Qed.

Lemma rows_frame records :
  rows (frame records) = table_row records (columns (frame records)) <$> records.
Proof. done. Qed.

Lemma rows_frame_cells k records :
  cell k <$> rows (frame records)
  = astype (default Kept (column_dtype records k))
      <$> ((λ r : dict, r !! k) <$> records).
Proof.
  rewrite rows_frame, <- !list_fmap_compose.
  apply list_fmap_ext. intros i r Hi. simpl.
  apply cell_table_row. by eapply list_elem_of_lookup_2.
Qed.

(** A column without integers holds what the records hold. *)
Lemma rows_frame_cells_kept k records :
  Forall (λ r : dict, ∀ z, r !! k ≠ Some (VInt z)) records →
  cell k <$> rows (frame records) = cell k <$> records.
Proof.
  intros Hall. rewrite rows_frame, <- list_fmap_compose.
  apply list_fmap_ext. intros i r Hi. simpl.
  assert (r ∈ records) as Hr by (by eapply list_elem_of_lookup_2).
  rewrite (cell_table_row _ _ _ Hr). apply astype_not_int.
  rewrite Forall_forall in Hall. by apply Hall.
Qed.

(** Row by row, a column holds what the records hold at its key, as the
    table stores it. *)
Lemma rows_frame_stored k records :
  Forall2 stored (cell k <$> records) (cell k <$> rows (frame records)).
Proof.
  rewrite rows_frame_cells, <- list_fmap_compose.
  apply Forall2_fmap, Forall_Forall2_diag, Forall_forall.
  intros r _. simpl. apply astype_stored.
Qed.

Lemma length_rows_frame records :
  length (rows (frame records)) = length records.
Proof. by rewrite rows_frame, length_fmap. Qed.

Lemma pd_DataFrame_Some records df :
  pd_DataFrame records = Some df → df = frame records.
Proof. unfold pd_DataFrame. case_match; by intros [= <-]. Qed.

Lemma zip_insert_same k (rs : list dict) :
  Forall (λ r, is_Some (r !! k)) rs →
  zip_with (λ r v, <[k := v]> r) rs (cell k <$> rs) = rs.
Proof.
  induction 1 as [|r rs [v Hv] _ IH]; csimpl; [done|].
  rewrite IH. f_equal. apply insert_id. unfold cell. by rewrite Hv.
Qed.

(** Writing back a column that was just read changes nothing. *)
Lemma set_column_same k records c :
  column (frame records) k = Some c →
  set_column k (to_datetime c) (frame records) = frame records.
Proof.
  unfold column, to_datetime. case_bool_decide as Hk; [|done].
  intros [= <-]. unfold set_column.
  assert (columns (frame records) ∪ {[k]} = columns (frame records)) as ->.
  { rewrite (comm_L (∪)). by apply subseteq_union_1_L, singleton_subseteq_l. }
  rewrite zip_insert_same; [done|].
  apply Forall_fmap, Forall_forall. intros r _. simpl.
  rewrite lookup_table_row, bool_decide_eq_true_2 by done. eauto.
Qed.

(** ** The dtype of a column of integers and missing values *)

Lemma int64_no_overflow z :
  int64_min ≤ z ≤ int64_max → float_overflows z = false.
Proof.
  unfold int64_min, int64_max, float_overflows. intros Hz.
  apply Z.leb_gt.
  assert (2 ^ 63 < 2 ^ 1024 - 2 ^ 970) by (by apply Z.ltb_lt).
  lia.
Qed.

Lemma infer_small c : ∀ null other int sint,
  Forall small_entry c →
  infer c null other int false sint
  = Some (if (int || existsb (λ o, is_int (default VNone o)) c)
             && (null || other || existsb (λ o, isnull (default VNone o)) c)
          then Float64 else Kept).
Proof.
  induction c as [|o c IH]; intros null other int sint Hall.
  { simpl. by rewrite !orb_false_r. }
  apply Forall_cons in Hall as [Ho Hall].
  destruct Ho as [->|[->|(z & -> & Hz)]]; cbn [infer existsb default is_int isnull].
  - rewrite (IH _ _ _ _ Hall).
    by destruct null, other, int, (existsb _ c), (existsb _ c).
  - rewrite (IH _ _ _ _ Hall).
    by destruct null, other, int, (existsb _ c), (existsb _ c).
  - rewrite (int64_no_overflow _ Hz). cbv zeta.
    assert ((int64_max <? z) = false) as -> by (apply Z.ltb_ge; lia).
    assert ((uint64_max <? z) = false) as ->
      by (apply Z.ltb_ge; unfold uint64_max, int64_max in *; lia).
    assert ((z <? int64_min) = false) as -> by (apply Z.ltb_ge; lia).
    cbn [andb orb].
    destruct null; rewrite (IH _ _ _ _ Hall);
      by destruct other, int, (existsb _ c), (existsb _ c).
Qed.

Lemma existsb_fmap {A B} (f : B → bool) (g : A → B) l :
  existsb f (g <$> l) = existsb (λ x, f (g x)) l.
Proof. induction l as [|x l IH]; csimpl; [done|]. by rewrite IH. Qed.

(** A column of integers of the int64 range and missing values: the
    integers stay when nothing is missing, and become floats beside a
    missing value. *)
Lemma small_column k records :
  Forall (λ r : dict, small_entry (r !! k)) records →
  is_Some (column_dtype records k)
  ∧ cell k <$> rows (frame records) = int_column (cell k <$> records).
Proof.
  intros Hall. rewrite rows_frame_cells. unfold column_dtype.
  rewrite infer_small by (by apply Forall_fmap).
  split; [eauto|]. cbn [orb default]. unfold int_column.
  rewrite !existsb_fmap. unfold cell.
  rewrite (andb_comm (existsb (λ x : dict, isnull _) records)).
  destruct (_ && _); cbn [id]; rewrite <- !list_fmap_compose;
    apply list_fmap_ext; intros i r _; simpl; by destruct (r !! k).
Qed.



End TableFacts.

(** ** Facts about the scan and the whole parse *)

Module ScanFacts.
Import Text Builtins Data Parser Lines Schema TextFacts StepFacts TableFacts.

(** What one turn of the loop can do, by the kind of line. *)
Lemma step_inv ad st l st1 :
  step ad st l = Ok st1 →
  (is_id l = true
   ∧ st1 = {| records := finish st;
              record := <["PRN" := prn_of l]>
                          (<["Time" := VTime ad]> {["Week" := week st]});
              week := week st |})
  ∨ (is_id l = false ∧ is_header l = false
     ∧ ∃ f k c, lookup_field (strip l) = Some (f, (k, c))
       ∧ st1 = {| records := records st;
                  record := <[k := parse_field c (strip l)]> (record st);
                  week := week st |})
  ∨ (is_id l = false ∧ is_field l = false
     ∧ records st1 = records st ∧ record st1 = record st
     ∧ (is_header l = false → week st1 = week st)).
Proof.
  destruct (is_id l) eqn:Hi.
  { rewrite (step_id _ _ _ Hi). intros [= <-]. by left. }
  destruct (is_field l) eqn:Hf.
  { pose proof (is_field_not_header _ Hf) as Hh.
    apply is_field_lookup in Hf as (f & k & c & Hf).
    rewrite (step_field _ _ _ _ _ _ Hf). intros [= <-].
    right; left. split_and!; [done..|]. eauto 10. }
  right; right. split_and!; [done..| | |].
  all: destruct (is_header l) eqn:Hh;
    [rewrite (step_header _ _ _ Hh) in H;
     destruct (header_week l); [destruct (py_int _)|]; by simplify_eq
    |rewrite (step_other _ _ _ Hh Hi Hf) in H; by simplify_eq].
Qed.

Lemma finish_truthy st :
  truthy (record st) = true → finish st = records st ++ [record st].
Proof. unfold finish. by intros ->. Qed.

Lemma finish_empty st : record st = ∅ → finish st = records st.
Proof. unfold finish. intros ->. by rewrite truthy_empty. Qed.

Lemma cell_insert_ne k k' v (r : dict) :
  k ≠ k' → cell k' (<[k := v]> r) = cell k' r.
Proof. intros. unfold cell. by rewrite lookup_insert_ne. Qed.

(** Once a record is in progress, every later [ID:] line adds one record,
    in order, and nothing else does. *)
Lemma scan_prn_started ad ls : ∀ st st',
  truthy (record st) = true →
  scan ad ls st = Ok st' →
  truthy (record st') = true
  ∧ cell "PRN" <$> finish st'
    = (cell "PRN" <$> finish st) ++ (prn_of <$> List.filter is_id ls).
Proof.
  induction ls as [|l ls IH]; intros st st' Ht; simpl.
  { intros [= <-]. by rewrite app_nil_r. }
  destruct (step ad st l) as [st1|e] eqn:Hs; [|done]. simpl.
  intros Hscan.
  destruct (step_inv _ _ _ _ Hs)
    as [[Hi ->]|[(Hi & _ & f & k & c & Hf & ->)|(Hi & _ & Hr & Hr' & _)]];
    rewrite Hi.
  - apply IH in Hscan as [? ->]; [|apply truthy_insert]. split; [done|].
    rewrite (finish_truthy (mkState _ _ _)) by apply truthy_insert.
    simpl. rewrite fmap_app, <- app_assoc. simpl.
    unfold cell at 2. by rewrite lookup_insert_eq.
  - apply IH in Hscan as [? ->]; [|apply truthy_insert]. split; [done|].
    f_equal. rewrite (finish_truthy (mkState _ _ _)) by apply truthy_insert.
    rewrite (finish_truthy st) by done. simpl.
    rewrite !fmap_app. simpl. rewrite cell_insert_ne; [done|].
    by apply lookup_field_key in Hf as (? & _).
  - apply IH in Hscan as [? ->]; [|by rewrite Hr']. split; [done|].
    unfold finish. by rewrite Hr, Hr'.
Qed.

(** Before the first [ID:] line of a well-formed input no record is in
    progress; from there on the records are those of the [ID:] lines. *)
Lemma scan_prn_fresh ad ls : ∀ st st',
  record st = ∅ →
  well_formed ls = true →
  scan ad ls st = Ok st' →
  cell "PRN" <$> finish st'
  = (cell "PRN" <$> records st) ++ (prn_of <$> List.filter is_id ls).
Proof.
  induction ls as [|l ls IH]; intros st st' He; simpl.
  { intros _ [= <-]. by rewrite finish_empty, app_nil_r. }
  destruct (step ad st l) as [st1|e] eqn:Hs; [|done]. simpl.
  intros Hwf Hscan.
  destruct (step_inv _ _ _ _ Hs)
    as [[Hi ->]|[(Hi & _ & f & k & c & Hf & ->)|(Hi & Hfl & Hr & Hr' & _)]];
    rewrite Hi in *.
  - apply scan_prn_started in Hscan as [_ ->]; [|apply truthy_insert].
    rewrite (finish_truthy (mkState _ _ _)) by apply truthy_insert.
    simpl. rewrite fmap_app, <- app_assoc, (finish_empty st) by done.
    simpl. unfold cell at 2. by rewrite lookup_insert_eq.
  - assert (is_field l = true) as Hfl by (apply is_field_lookup; eauto).
    by rewrite Hfl in Hwf.
  - rewrite Hfl in Hwf. rewrite <- Hr. apply IH; [|done..]. by rewrite Hr'.
Qed.

(** A property of records that holds for every record as an [ID:] line
    starts it and that field lines preserve holds for every record of a
    well-formed input. *)
Lemma scan_records_invariant ad (P : dict → Prop) :
  (∀ w prn, P (<["PRN" := prn]> (<["Time" := VTime ad]> {["Week" := w]}))) →
  (∀ r k v, k ≠ "PRN" → k ≠ "Week" → k ≠ "Time" → P r → P (<[k := v]> r)) →
  ∀ ls st st',
    Forall P (records st) →
    (if truthy (record st) then P (record st) else well_formed ls = true) →
    scan ad ls st = Ok st' →
    Forall P (finish st').
Proof.
  intros Hfresh Hins. induction ls as [|l ls IH]; intros st st' Hrs Hr; simpl.
  { intros [= <-]. unfold finish. destruct (truthy _); [|done].
    apply Forall_app. by split; [|constructor]. }
  destruct (step ad st l) as [st1|e] eqn:Hs; [|done]. simpl.
  assert (Forall P (finish st)) as Hfin.
  { unfold finish. destruct (truthy _); [|done].
    apply Forall_app. by split; [|constructor]. }
  destruct (step_inv _ _ _ _ Hs)
    as [[Hi ->]|[(Hi & _ & f & k & c & Hf & ->)|(Hi & Hfl & Hr1 & Hr1' & _)]].
  - apply IH; simpl; [done|]. by rewrite truthy_insert.
  - apply IH; simpl; [done|]. rewrite truthy_insert.
    destruct (lookup_field_key _ _ _ _ Hf) as (? & ? & ?).
    destruct (truthy (record st)) eqn:Ht; [by apply Hins|].
    simpl in Hr. rewrite Hi in Hr.
    assert (is_field l = true) as Hfl by (apply is_field_lookup; eauto).
    by rewrite Hfl in Hr.
  - apply IH; rewrite ?Hr1, ?Hr1'; [done|].
    destruct (truthy (record st)); [done|].
    simpl in Hr. by rewrite Hi, Hfl in Hr.
Qed.

(** The records once closed stay as they are: the list only grows at
    its end. *)
Lemma scan_records_prefix ad ls : ∀ st st',
  scan ad ls st = Ok st' → records st `prefix_of` records st'.
Proof.
  induction ls as [|l ls IH]; intros st st'; simpl.
  { by intros [= <-]. }
  destruct (step ad st l) as [st1|e] eqn:Hs; [|done]. simpl.
  intros Hscan%IH. etrans; [|done].
  destruct (step_inv _ _ _ _ Hs)
    as [[Hi ->]|[(Hi & _ & f & k & c & Hf & ->)|(Hi & Hfl & -> & _)]];
    simpl; [|done..].
  unfold finish. destruct (truthy _); [by apply prefix_app_r|done].
Qed.

(** The outcome of the parse, case by case. *)
Lemma parse_lines_cases lines mtime ad strict :
  parse_lines lines mtime ad strict =
    if bool_decide (lines = []) then Raise ValueError_empty_input
    else
      match scan (default mtime ad) lines init with
      | Raise e => Raise e
      | Ok st => table_of (finish st) strict
      end.
Proof.
  unfold parse_lines, table_of.
  destruct lines as [|l ls]; [done|].
  rewrite bool_decide_eq_false_2 by done.
  destruct (scan _ _ _) as [st|e]; [|done].
  unfold mbind, result_bind.
  destruct (finish st) as [|r rs] eqn:Hfin.
  { by rewrite bool_decide_eq_true_2. }
  rewrite (bool_decide_eq_false_2 (r :: rs = [])) by done.
  destruct (pd_DataFrame (r :: rs)) as [df|] eqn:Hdf; [|done].
  apply pd_DataFrame_Some in Hdf as ->. cbv zeta.
  destruct (strict && _); [done|].
  destruct (column _ "Time") as [c|] eqn:Hc.
  - rewrite (set_column_same _ _ _ Hc).
    unfold column in Hc. by case_bool_decide.
  - unfold column in Hc. by case_bool_decide.
Qed.

(** A parse that returns a table went through every stage. *)
Lemma parse_lines_Ok lines mtime ad strict df :
  parse_lines lines mtime ad strict = Ok df →
  ∃ st, scan (default mtime ad) lines init = Ok st
    ∧ pd_DataFrame (finish st) = Some df
    ∧ df = frame (finish st)
    ∧ finish st ≠ []
    ∧ "Time" ∈ columns df
    ∧ (strict = true → List.filter (is_missing df) required_fields = []).
Proof.
  rewrite parse_lines_cases. unfold table_of.
  case_bool_decide; [done|].
  destruct (scan _ _ _) as [st|e]; [|done].
  case_bool_decide as Hfin; [done|].
  destruct (pd_DataFrame (finish st)) as [df'|] eqn:Hdf; [|done]. cbv zeta.
  destruct strict; cbn [andb].
  - case_bool_decide as Hm; cbn [negb]; [|done].
    case_bool_decide; [|done]. intros [= <-]. exists st.
    split_and!; try done. by apply pd_DataFrame_Some.
  - case_bool_decide; [|done]. intros [= <-]. exists st.
    split_and!; try done. by apply pd_DataFrame_Some.
Qed.

(** Two labels of the table never write the same attribute. *)
Lemma field_map_key_label e1 e2 :
  In e1 field_map → In e2 field_map → fst (snd e1) = fst (snd e2) →
  fst e1 = fst e2.
Proof.
  simpl. intros H1 H2.
  repeat (destruct H1 as [<- | H1]; [|]); try done;
    repeat (destruct H2 as [<- | H2]; [|]); try done.
Qed.

(** Lines that are no [ID:] lines and do not write [k] leave the
    attribute [k] of the record in progress, and the closed records, as
    they are. *)
Lemma scan_keeps_attribute ad k ls : ∀ st st',
  Forall (λ l, is_id l = false ∧ field_key l ≠ Some k) ls →
  scan ad ls st = Ok st' →
  record st' !! k = record st !! k ∧ records st' = records st.
Proof.
  induction ls as [|l ls IH]; intros st st' Hls; simpl.
  { by intros [= <-]. }
  destruct (step ad st l) as [st1|e] eqn:Hs; [|done]. simpl.
  apply Forall_cons in Hls as [[Hid Hk] Hls].
  intros [-> ->]%(IH _ _ Hls).
  destruct (step_inv _ _ _ _ Hs)
    as [[Hi _]|[(_ & _ & f & k' & c & Hf & ->)|(_ & _ & -> & -> & _)]];
    [congruence| |done].
  simpl. split; [|done]. rewrite lookup_insert_ne; [done|].
  intros ->. apply Hk. unfold field_key. by rewrite Hf.
Qed.

(** No line but an [ID:] line writes PRN, Week or Time. *)
Lemma field_key_not_start l k :
  k = "PRN" ∨ k = "Week" ∨ k = "Time" → field_key l ≠ Some k.
Proof.
  intros Hk. unfold field_key.
  destruct (lookup_field (strip l)) as [[f [k' c]]|] eqn:Hf; [|done].
  destruct (lookup_field_key _ _ _ _ Hf) as (? & ? & ?).
  simpl. intros [= ->]. by destruct Hk as [?|[?|?]].
Qed.

(** The record in progress when the lines of a block end is the next
    record of the output, and the records after it are those of the
    [ID:] lines that follow. *)
Lemma scan_block_end ad post : ∀ st1 st,
  starts_record post = true →
  truthy (record st1) = true →
  scan ad post st1 = Ok st →
  ∃ after, finish st = records st1 ++ record st1 :: after
    ∧ length after = length (List.filter is_id post).
Proof.
  intros st1 st Hpost Ht Hscan.
  destruct post as [|idl post'].
  { injection Hscan as <-. exists []. by rewrite finish_truthy. }
  simpl in Hpost. simpl in Hscan. rewrite (step_id _ _ _ Hpost) in Hscan.
  simpl in Hscan. rewrite (finish_truthy _ Ht) in Hscan.
  assert (truthy (record st) = true
          ∧ length (finish st)
            = (length (records st1) + 2 + length (List.filter is_id post'))%nat)
    as [Ht' Hprn].
  { eapply scan_prn_started in Hscan as Hs; [|apply truthy_insert].
    destruct Hs as [? Hs]. split; [done|].
    apply (f_equal length) in Hs.
    rewrite (finish_truthy (mkState _ _ _)) in Hs by apply truthy_insert.
    cbn [records record] in Hs.
    rewrite length_app, !length_fmap, !length_app in Hs. simpl in Hs. lia. }
  apply scan_records_prefix in Hscan as [tail Htail]. simpl in Htail.
  rewrite (finish_truthy _ Ht'), Htail, <- !app_assoc. simpl.
  eexists. split; [done|].
  rewrite (finish_truthy _ Ht'), Htail, !length_app in Hprn. simpl in Hprn.
  simpl. rewrite Hpost. simpl. rewrite length_app. simpl. lia.
Qed.

(** The record of a field line: after the line, lines that are no [ID:]
    lines and do not write its attribute again, and then an [ID:] line
    or the end of the input, the record holds the conversion of the line
    at its attribute. *)
Lemma record_of_field_line ad pre l b2 post f k c st0 st :
  lookup_field (strip l) = Some (f, (k, c)) →
  Forall (λ l', is_id l' = false ∧ field_key l' ≠ Some k) b2 →
  starts_record post = true →
  scan ad (pre ++ l :: b2 ++ post) st0 = Ok st →
  ∃ rs r after, finish st = rs ++ r :: after
    ∧ length after = length (List.filter is_id post)
    ∧ r !! k = Some (parse_field c (strip l)).
Proof.
  intros Hl Hb2 Hpost Hscan.
  apply scan_app_inv in Hscan as (st1 & _ & Hscan).
  rewrite (scan_cons _ _ _ _ _ (step_field _ _ _ _ _ _ Hl)) in Hscan.
  apply scan_app_inv in Hscan as (st3 & Hb & Hscan).
  destruct (scan_keeps_attribute _ _ _ _ _ Hb2 Hb) as [Hk Hrs].
  simpl in Hk, Hrs. rewrite lookup_insert_eq in Hk.
  assert (truthy (record st3) = true) as Ht.
  { apply bool_decide_eq_true. intros He. by rewrite He in Hk. }
  destruct (scan_block_end _ _ _ _ Hpost Ht Hscan) as (after & Hfin & Hlen).
  by exists (records st3), (record st3), after.
Qed.

(** The record of an [ID:] line, with the lines of its block. *)
Lemma record_of_id_line ad pre idl body post st0 st :
  is_id idl = true →
  Forall (λ l, is_id l = false) body →
  starts_record post = true →
  scan ad (pre ++ idl :: body ++ post) st0 = Ok st →
  ∃ rs r after, finish st = rs ++ r :: after
    ∧ length after = length (List.filter is_id post)
    ∧ r !! "PRN" = Some (prn_of idl)
    ∧ r !! "Time" = Some (VTime ad)
    ∧ ∀ b1 l b2 f k c,
        body = b1 ++ l :: b2 →
        lookup_field (strip l) = Some (f, (k, c)) →
        Forall (λ l', field_key l' ≠ Some k) b2 →
        r !! k = Some (parse_field c (strip l)).
Proof.
  intros Hid Hbody Hpost Hscan.
  apply scan_app_inv in Hscan as (st1 & _ & Hscan).
  rewrite (scan_cons _ _ _ _ _ (step_id _ _ _ Hid)) in Hscan.
  apply scan_app_inv in Hscan as (st3 & Hb & Hscan).
  assert (∀ k, k = "PRN" ∨ k = "Week" ∨ k = "Time" →
               Forall (λ l, is_id l = false ∧ field_key l ≠ Some k) body) as Hkeep.
  { intros k Hk. eapply Forall_impl; [exact Hbody|]. intros l' Hl'.
    split; [done|]. by apply field_key_not_start. }
  destruct (scan_keeps_attribute _ "PRN" _ _ _ (Hkeep "PRN" (or_introl eq_refl)) Hb)
    as [Hprn _].
  destruct (scan_keeps_attribute _ "Time" _ _ _
              (Hkeep "Time" (or_intror (or_intror eq_refl))) Hb)
    as [Htime _].
  simpl in Hprn, Htime. rewrite lookup_insert_eq in Hprn.
  rewrite lookup_insert_ne, lookup_insert_eq in Htime by done.
  assert (truthy (record st3) = true) as Ht.
  { apply bool_decide_eq_true. intros He. by rewrite He in Hprn. }
  destruct (scan_block_end _ _ _ _ Hpost Ht Hscan) as (after & Hfin & Hlen).
  exists (records st3), (record st3), after. split_and!; [done..|].
  intros b1 l b2 f k c -> Hl Hb2.
  apply scan_app_inv in Hb as (st2 & _ & Hb).
  rewrite (scan_cons _ _ _ _ _ (step_field _ _ _ _ _ _ Hl)) in Hb.
  apply Forall_app in Hbody as [_ [_ Hbody]%Forall_cons].
  assert (Forall (λ l', is_id l' = false ∧ field_key l' ≠ Some k) b2) as Hb2'.
  { apply Forall_forall. intros l' Hl'. rewrite Forall_forall in Hbody, Hb2.
    by split; [apply Hbody|apply Hb2]. }
  destruct (scan_keeps_attribute _ _ _ _ _ Hb2' Hb) as [-> _].
  simpl. by rewrite lookup_insert_eq.
Qed.

(** A record of the scan and its row in the table. *)
Lemma row_of_record rs r after :
  ∃ before row after',
    rows (frame (rs ++ r :: after)) = before ++ row :: after'
    ∧ length before = length rs
    ∧ length after' = length after
    ∧ ∀ k, stored (cell k r) (cell k row).
Proof.
  exists (table_row (rs ++ r :: after) (columns (frame (rs ++ r :: after))) <$> rs),
    (table_row (rs ++ r :: after) (columns (frame (rs ++ r :: after))) r),
    (table_row (rs ++ r :: after) (columns (frame (rs ++ r :: after))) <$> after).
  split_and!.
  - by rewrite rows_frame, fmap_app.
  - by rewrite length_fmap.
  - by rewrite length_fmap.
  - intros k. rewrite cell_table_row.
    + apply astype_stored.
    + apply elem_of_app. right. apply list_elem_of_here.
Qed.



End ScanFacts.

(** * The claims of the specification *)

Import Text Builtins Data Parser Reader Lines Samples Schema.
Import TextFacts StepFacts TableFacts ScanFacts.

(** A successful parse returns the table of the records the scan
    produced. *)
Lemma parse_ok_inv filepath lines mtime ad strict df :
  target filepath = Readable lines mtime →
  parse_yuma_almanac filepath ad strict = Ok df →
  ∃ st, scan (default mtime ad) lines init = Ok st
        ∧ pd_DataFrame (finish st) = Some df
        ∧ df = frame (finish st).
Proof.
  unfold parse_yuma_almanac. intros ->.
  intros (st & Hst & Hdf & -> & _)%parse_lines_Ok. eauto.
Qed.

(** An entry is small when the cell it gives is null or an integer of
    the int64 range. *)
Lemma small_entry_cell k (r : dict) :
  cell k r = VNone ∨ (∃ z, cell k r = VInt z ∧ int64_min ≤ z ≤ int64_max) →
  small_entry (r !! k).
Proof.
  unfold cell, small_entry. destruct (r !! k) as [v|]; [|by left].
  simpl. intros [->|(z & -> & Hz)]; eauto.
Qed.

Lemma small_entries k (rs : list dict) :
  Forall (λ v, v = VNone ∨ ∃ z, v = VInt z ∧ int64_min ≤ z ≤ int64_max)
    (cell k <$> rs) →
  Forall (λ r : dict, small_entry (r !! k)) rs.
Proof.
  intros Hall%Forall_fmap. eapply Forall_impl; [exact Hall|].
  intros r Hr. by apply small_entry_cell.
Qed.

(** C1. For a well-formed input (no field line before the first [ID:]
    line, so that every field line lies in a block that an [ID:] line
    started), the table that parse_yuma_almanac returns has as many
    records as the input has lines beginning with [ID:], and they come in
    file order: row by row, the PRN column holds the PRN of the [ID:]
    lines as they follow one another in the file, as the table stores
    it (an integer as it is, or as its float). When every PRN that
    converts is in the int64 range, the column is the list of these PRNs
    itself if all of them convert, and the list of their floats, with
    the nulls, if one does not. A line is taken as the loop reads it,
    with the blanks around it removed. *)
Theorem C1_one_record_per_id_line filepath lines mtime ad strict df :
  target filepath = Readable lines mtime →
  well_formed lines = true →
  parse_yuma_almanac filepath ad strict = Ok df →
  length (rows df) = length (List.filter is_id lines)
  ∧ Forall2 stored (prn_of <$> List.filter is_id lines) (cell "PRN" <$> rows df)
  ∧ (Forall (λ l, prn_of l = VNone
                  ∨ ∃ z, prn_of l = VInt z ∧ int64_min ≤ z ≤ int64_max)
       (List.filter is_id lines) →
     cell "PRN" <$> rows df = int_column (prn_of <$> List.filter is_id lines)).
Proof.
  intros Ht Hwf Hp.
  destruct (parse_ok_inv _ _ _ _ _ _ Ht Hp) as (st & Hst & _ & ->).
  pose proof (scan_prn_fresh _ _ init _ eq_refl Hwf Hst) as Hprn.
  simpl in Hprn. split_and!.
  - rewrite length_rows_frame. apply (f_equal length) in Hprn.
    by rewrite !length_fmap in Hprn.
  - rewrite <- Hprn. apply rows_frame_stored.
  - intros Hsmall. rewrite <- Hprn.
    apply small_column, small_entries. rewrite Hprn. by apply Forall_fmap.
Qed.

Lemma C1_one_record_per_id_line_witness :
  ∃ df, parse_yuma_almanac two_records_file None true = Ok df
        ∧ length (rows df) = 2%nat
        ∧ cell "PRN" <$> rows df = [VInt 1; VInt 2].
Proof.
  destruct (parse_yuma_almanac two_records_file None true) as [df|e] eqn:Hp;
    [|vm_compute in Hp; discriminate].
  exists df. split; [reflexivity|].
  destruct (C1_one_record_per_id_line two_records_file two_records mtime_a
              None true df) as (Hlen & _ & Hprn);
    [reflexivity | vm_compute; reflexivity | exact Hp |].
  assert (List.filter is_id two_records
          = [ln "ID:                         01"; ln "ID:                         02"])
    as Hids by (vm_compute; reflexivity).
  rewrite Hids in Hlen, Hprn. split; [exact Hlen|].
  rewrite Hprn; [vm_compute; reflexivity|].
  unfold int64_min, int64_max.
  constructor; [right; exists 1; split; [vm_compute; reflexivity|lia]|].
  constructor; [right; exists 2; split; [vm_compute; reflexivity|lia]|].
  constructor.
Defined.

(** The two [ID:] lines of the sample give the PRNs 1 and 2. *)
Example two_records_prns :
  prn_of <$> List.filter is_id two_records = [VInt 1; VInt 2].
Proof. vm_compute; reflexivity. Qed.

(** The row of the record a field line belongs to: the rows after it
    are those of the [ID:] lines after its block, and its cell holds
    the conversion of the line, as the table stores it. *)
Lemma row_of_field_line filepath pre l b2 post mtime ad strict df f k c :
  target filepath = Readable (pre ++ l :: b2 ++ post) mtime →
  lookup_field (strip l) = Some (f, (k, c)) →
  Forall (λ l', is_id l' = false ∧ field_key l' ≠ Some k) b2 →
  starts_record post = true →
  parse_yuma_almanac filepath ad strict = Ok df →
  ∃ before row after,
    rows df = before ++ row :: after
    ∧ length after = length (List.filter is_id post)
    ∧ stored (default VNone (field_text (strip l) ≫= c)) (cell k row).
Proof.
  intros Ht Hl Hb2 Hpost Hp.
  destruct (parse_ok_inv _ _ _ _ _ _ Ht Hp) as (st & Hst & _ & ->).
  destruct (record_of_field_line _ _ _ _ _ _ _ _ _ _ Hl Hb2 Hpost Hst)
    as (rs & r & after & Hfin & Hlen & Hk).
  rewrite Hfin.
  destruct (row_of_record rs r after) as (before & row & after' & -> & _ & Hlen' & Hrow).
  exists before, row, after'. split_and!; [done|congruence|].
  specialize (Hrow k). unfold cell at 1 in Hrow. by rewrite Hk in Hrow.
Qed.

(** C2. Every numeric field line (a line that selects a label other than
    [Health:]) is converted by replacing [D] with [E] in its value text
    and parsing the result as a floating-point number, the attribute
    being null when that fails: this is the cell that the table
    returned has for the record of the line, when no later line of the
    block writes the attribute again. In particular a line
    [Eccentricity: 0.1234567D-01] gives the Eccentricity cell the double
    precision value of 0.01234567, the one [float] gives for the text
    [0.01234567]. The record of the line is found by its place: the
    rows after it are those of the [ID:] lines after its block. *)
Theorem C2_float_fields_accept_D_exponent
    filepath pre l b2 post mtime ad strict df f k c :
  target filepath = Readable (pre ++ l :: b2 ++ post) mtime →
  lookup_field (strip l) = Some (f, (k, c)) →
  f ≠ "Health:" →
  Forall (λ l', is_id l' = false ∧ field_key l' ≠ Some k) b2 →
  starts_record post = true →
  parse_yuma_almanac filepath ad strict = Ok df →
  ∃ before row after,
    rows df = before ++ row :: after
    ∧ length after = length (List.filter is_id post)
    ∧ cell k row
      = default VNone
          (x ← field_text (strip l); VFloat <$> py_float (replace "D" "E" x))
    ∧ (field_text (strip l) = Some "0.1234567D-01" →
       cell k row = VFloat (S754_finite false 7116794215889806 (-59)))
    ∧ py_float "0.01234567" = Some (S754_finite false 7116794215889806 (-59)).
Proof.
  intros Ht Hl Hf Hb2 Hpost Hp.
  destruct (row_of_field_line _ _ _ _ _ _ _ _ _ _ _ _ Ht Hl Hb2 Hpost Hp)
    as (before & row & after & Hrows & Hlen & Hcell).
  destruct (lookup_field_conv _ _ _ _ Hl) as [[? _]|[_ ->]]; [done|].
  assert (cell k row
          = default VNone
              (x ← field_text (strip l); VFloat <$> py_float (replace "D" "E" x)))
    as Hk.
  { apply stored_not_int in Hcell; [done|].
    intros z. unfold conv_float.
    destruct (field_text (strip l)) as [x|]; [|done]. simpl.
    by destruct (py_float _). }
  exists before, row, after. split_and!; [done..| |].
  - intros Hx. rewrite Hk, Hx. vm_compute. reflexivity.
  - vm_compute. reflexivity.
Qed.

Lemma C2_float_fields_accept_D_exponent_witness :
  ∃ df before row after,
    parse_yuma_almanac two_records_file None true = Ok df
    ∧ rows df = before ++ row :: after
    ∧ length after = 1%nat
    ∧ cell "Eccentricity" row = VFloat (S754_finite false 7116794215889806 (-59)).
Proof.
  destruct (parse_yuma_almanac two_records_file None true) as [df|e] eqn:Hp;
    [|vm_compute in Hp; discriminate].
  destruct (C2_float_fields_accept_D_exponent two_records_file
              [ ln "******** Week 175 almanac for PRN-01 ********";
                ln "ID:                         01";
                ln "Health:                     000" ]
              ecc_line
              [ ln ""; ln "******** Week 175 almanac for PRN-02 ********" ]
              [ ln "ID:                         02";
                ln "Health:                     063" ]
              mtime_a None true df
              "Eccentricity:" "Eccentricity" conv_float)
    as (before & row & after & Hrows & Hlen & _ & Hecc & _).
  - reflexivity.
  - reflexivity.
  - discriminate.
  - repeat constructor; vm_compute; congruence.
  - reflexivity.
  - exact Hp.
  - exists df, before, row, after. split_and!; [reflexivity|exact Hrows|exact Hlen|].
    apply Hecc. vm_compute. reflexivity.
Defined.

(** The value that line gives Af0. *)
Example af0_line_value :
  (x ← field_text (strip af0_line); VFloat <$> py_float (replace "D" "E" x))
  = Some (VFloat (S754_finite false 5277655812921277 (-63))).
Proof. vm_compute; reflexivity. Qed.

(** Once some record carries a Time, some record of the final list
    does. *)
Lemma scan_keeps_time ad ls : ∀ st st',
  (∃ r, r ∈ finish st ∧ is_Some (r !! "Time")) →
  scan ad ls st = Ok st' →
  ∃ r, r ∈ finish st' ∧ is_Some (r !! "Time").
Proof.
  induction ls as [|l ls IH]; intros st st' Hr; simpl.
  { by intros [= <-]. }
  destruct (step ad st l) as [st1|e] eqn:Hs; [|done]. simpl.
  apply IH. destruct Hr as (r & Hr & Ht).
  destruct (step_inv _ _ _ _ Hs)
    as [[Hi ->]|[(Hi & _ & f & k & c & Hf & ->)|(Hi & Hfl & Hr1 & Hr1' & _)]].
  - exists r. split; [|done].
    rewrite (finish_truthy (mkState _ _ _)) by apply truthy_insert.
    simpl. apply elem_of_app. by left.
  - rewrite (finish_truthy (mkState _ _ _)) by apply truthy_insert. simpl.
    unfold finish in Hr. destruct (truthy (record st)).
    + apply elem_of_app in Hr as [Hr| ->%list_elem_of_singleton].
      * exists r. split; [|done]. apply elem_of_app. by left.
      * exists (<[k := parse_field c (strip l)]> (record st)). split.
        { apply elem_of_app. right. by apply list_elem_of_singleton. }
        destruct (decide (k = "Time")) as [->|Hne].
        { rewrite lookup_insert_eq. eauto. }
        by rewrite lookup_insert_ne.
    + exists r. split; [|done]. apply elem_of_app. by left.
  - exists r. split; [|done]. unfold finish in *. by rewrite Hr1, Hr1'.
Qed.

(** An input with an [ID:] line gives a table with a Time column. *)
Lemma scan_id_line_time ad ls : ∀ st st',
  (∃ l, l ∈ ls ∧ is_id l = true) →
  scan ad ls st = Ok st' →
  ∃ r, r ∈ finish st' ∧ is_Some (r !! "Time").
Proof.
  induction ls as [|l ls IH]; intros st st' (l0 & Hin & Hid); simpl.
  { by apply elem_of_nil in Hin. }
  destruct (step ad st l) as [st1|e] eqn:Hs; [|done]. simpl.
  destruct (is_id l) eqn:Hl.
  - rewrite (step_id _ _ _ Hl) in Hs. injection Hs as <-.
    apply scan_keeps_time. eexists. split.
    + rewrite (finish_truthy (mkState _ _ _)) by apply truthy_insert.
      simpl. apply elem_of_app. right. by apply list_elem_of_singleton.
    + rewrite lookup_insert_ne, lookup_insert_eq by done. eauto.
  - apply IH. exists l0. split; [|done].
    apply elem_of_cons in Hin as [->|?]; [congruence|done].
Qed.

(** With an [ID:] line in the input, a scan that returns and a table
    that pandas builds, the parse fails in one way only: in strict mode,
    on a required column that is null throughout. *)
Lemma parse_lines_with_id_line lines mtime ad strict :
  (∃ l, l ∈ lines ∧ is_id l = true) →
  parse_lines lines mtime ad strict =
    match scan (default mtime ad) lines init with
    | Raise e => Raise e
    | Ok st =>
        match pd_DataFrame (finish st) with
        | None => Raise OverflowError
        | Some df =>
            let missing := List.filter (is_missing df) required_fields in
            if strict && negb (bool_decide (missing = []))
            then Raise (ValueError_missing_required missing)
            else Ok df
        end
    end.
Proof.
  intros Hid. rewrite parse_lines_cases.
  rewrite bool_decide_eq_false_2.
  2: { intros ->. destruct Hid as (? & []%elem_of_nil & _). }
  destruct (scan _ _ _) as [st|e] eqn:Hst; [|done].
  destruct (scan_id_line_time _ _ _ _ Hid Hst) as (r & Hr & Ht).
  unfold table_of. rewrite bool_decide_eq_false_2.
  2: { intros Hnil. rewrite Hnil in Hr. by apply elem_of_nil in Hr. }
  destruct (pd_DataFrame (finish st)) as [df|] eqn:Hdf; [|done].
  apply pd_DataFrame_Some in Hdf as ->.
  cbv zeta. destruct (strict && _); [done|].
  rewrite bool_decide_eq_true_2; [done|].
  apply elem_of_columns. eauto.
Qed.

(** The strict check looks at whole columns: a PRN column with one null
    and one value (the float 1.0, beside the null) passes, a PRN column that is null throughout is
    rejected, and the non-strict parse returns it with its nulls. An
    empty input and an input without records fail in both modes. *)
Example strict_check_on_whole_columns :
  cells_of "PRN"
    (parse_lines [good_header; bad_id_line; id_line_1] mtime_a None true)
    = [VNone; VFloat (S754_finite false 4503599627370496 (-52))]
  ∧ parse_lines [good_header; bad_id_line] mtime_a None true
    = Raise (ValueError_missing_required ["PRN"])
  ∧ cells_of "PRN" (parse_lines [good_header; bad_id_line] mtime_a None false)
    = [VNone]
  ∧ (∀ strict, parse_lines [] mtime_a None strict = Raise ValueError_empty_input)
  ∧ (∀ strict, parse_lines [ln ""; good_header] mtime_a None strict
               = Raise ValueError_no_records).
Proof.
  split_and!; try (vm_compute; reflexivity);
    intros []; vm_compute; reflexivity.
Qed.

(** C3. The parse fails on an empty input, on an input that gives no
    record, and in strict mode on a required column that is null or
    absent in every record; these are the three conditions of the
    specification, and [parse_lines_cases] and [parse_lines_with_id_line]
    show them. The code has a fourth failure: on a file with field lines
    and no [ID:] line the table has no Time column, and the non-strict
    parse, which should return the table, raises KeyError at
    [df['Time'] = pd.to_datetime(df['Time'])]. The strict parse of the
    same file reports the missing required fields. *)
Theorem C3_nonstrict_parse_raises_KeyError :
  parse_yuma_almanac no_id_file None false = Raise (KeyError "Time")
  ∧ parse_yuma_almanac no_id_file None true
    = Raise (ValueError_missing_required ["PRN"; "Week"; "Time"]).
Proof. split; vm_compute; reflexivity. Qed.

(** The row of the record of an [ID:] line: the rows after it are those
    of the [ID:] lines after its block, and its cells hold the
    conversions of the lines of the block, as the table stores them. *)
Lemma row_of_id_line filepath pre idl body post mtime ad strict df :
  target filepath = Readable (pre ++ idl :: body ++ post) mtime →
  is_id idl = true →
  Forall (λ l, is_id l = false) body →
  starts_record post = true →
  parse_yuma_almanac filepath ad strict = Ok df →
  ∃ before row after,
    rows df = before ++ row :: after
    ∧ length after = length (List.filter is_id post)
    ∧ stored (default VNone (field_text (strip idl) ≫= conv_int)) (cell "PRN" row)
    ∧ cell "Time" row = VTime (default mtime ad)
    ∧ ∀ b1 l b2 f k c,
        body = b1 ++ l :: b2 →
        lookup_field (strip l) = Some (f, (k, c)) →
        Forall (λ l', field_key l' ≠ Some k) b2 →
        stored (default VNone (field_text (strip l) ≫= c)) (cell k row).
Proof.
  intros Ht Hid Hbody Hpost Hp.
  destruct (parse_ok_inv _ _ _ _ _ _ Ht Hp) as (st & Hst & _ & ->).
  destruct (record_of_id_line _ _ _ _ _ _ _ Hid Hbody Hpost Hst)
    as (rs & r & after & Hfin & Hlen & Hprn & Htime & Hfields).
  rewrite Hfin.
  destruct (row_of_record rs r after)
    as (before & row & after' & -> & _ & Hlen' & Hrow).
  exists before, row, after'. split_and!; [done|congruence| | |].
  - specialize (Hrow "PRN"). unfold cell at 1 in Hrow. by rewrite Hprn in Hrow.
  - specialize (Hrow "Time"). unfold cell at 1 in Hrow. rewrite Htime in Hrow.
    by apply stored_not_int in Hrow.
  - intros b1 l b2 f k c Hb Hl Hb2. specialize (Hrow k).
    unfold cell at 1 in Hrow. by rewrite (Hfields _ _ _ _ _ _ Hb Hl Hb2) in Hrow.
Qed.

(** C4. A line whose PRN or field text does not convert sets that one
    attribute to null and the scan goes on. The scan raises for nothing
    but a week header whose number [int] refuses (more than 4300
    digits): with no such header it returns, whatever the [ID:] and
    field lines hold. In the table returned, in either mode, the record
    of an [ID:] line has its row (the rows after it are those of the
    [ID:] lines after its block); its PRN is null when the PRN text does
    not convert, its Time is the epoch, and each attribute that a field
    line of its block writes last holds the conversion of that line,
    null when that does not convert, whatever the other lines of the
    block do. (What strict mode rejects after the scan is a required
    column that is null in every record, see C3.) *)
Theorem C4_conversion_failure_sets_null :
  (∀ ad lines st,
     Forall (λ l, week_fits l = true) lines → ∃ st', scan ad lines st = Ok st')
  ∧ (∀ ad lines st e,
       scan ad lines st = Raise e →
       ∃ l g, l ∈ lines ∧ is_header l = true ∧ header_week l = Some g
              ∧ (int_max_str_digits < N.of_nat (String.length g))%N
              ∧ e = ValueError_int g)
  ∧ (∀ filepath pre idl body post mtime ad strict df,
       target filepath = Readable (pre ++ idl :: body ++ post) mtime →
       is_id idl = true →
       Forall (λ l, is_id l = false) body →
       starts_record post = true →
       parse_yuma_almanac filepath ad strict = Ok df →
       ∃ before row after,
         rows df = before ++ row :: after
         ∧ length after = length (List.filter is_id post)
         ∧ stored (default VNone (VInt <$> (field_text (strip idl) ≫= py_int)))
             (cell "PRN" row)
         ∧ (field_text (strip idl) ≫= py_int = None → cell "PRN" row = VNone)
         ∧ cell "Time" row = VTime (default mtime ad)
         ∧ ∀ b1 l b2 f k c,
             body = b1 ++ l :: b2 →
             lookup_field (strip l) = Some (f, (k, c)) →
             Forall (λ l', field_key l' ≠ Some k) b2 →
             stored (default VNone (field_text (strip l) ≫= c)) (cell k row)
             ∧ (field_text (strip l) ≫= c = None → cell k row = VNone)).
Proof.
  split_and!.
  - intros ad lines st. by apply scan_fits.
  - intros ad lines st e (l & g & ? & Hh & Hfit & Hg & ? & ?)%scan_raises.
    exists l, g. split_and!; [done..| |done].
    unfold week_fits in Hfit. rewrite Hh, Hg in Hfit. by apply N.leb_gt.
  - intros filepath pre idl body post mtime ad strict df Ht Hid Hbody Hpost Hp.
    destruct (row_of_id_line _ _ _ _ _ _ _ _ _ Ht Hid Hbody Hpost Hp)
      as (before & row & after & Hrows & Hlen & Hprn & Htime & Hfields).
    assert (field_text (strip idl) ≫= conv_int
            = VInt <$> (field_text (strip idl) ≫= py_int)) as Hconv.
    { by destruct (field_text (strip idl)). }
    rewrite Hconv in Hprn.
    exists before, row, after. split_and!; [done..| |done|].
    + intros Hfail. rewrite Hfail in Hprn. by apply stored_not_int in Hprn.
    + intros b1 l b2 f k c Hb Hl Hb2.
      pose proof (Hfields _ _ _ _ _ _ Hb Hl Hb2) as Hk. split; [done|].
      intros Hfail. rewrite Hfail in Hk. by apply stored_not_int in Hk.
Qed.

Lemma C4_conversion_failure_sets_null_witness :
  ∃ df before row after,
    parse_yuma_almanac
      {| name := "almanac.alm";
         target := Readable [good_header; bad_id_line; health_line_63;
                             bad_health_line; ecc_line; id_line_1] mtime_a |}
      None true = Ok df
    ∧ rows df = before ++ row :: after
    ∧ length after = 1%nat
    ∧ cell "PRN" row = VNone
    ∧ cell "Health" row = VNone
    ∧ cell "Eccentricity" row = VFloat (S754_finite false 7116794215889806 (-59))
    ∧ cell "Time" row = VTime mtime_a.
Proof.
  destruct C4_conversion_failure_sets_null as (_ & _ & H).
  destruct (parse_yuma_almanac
              {| name := "almanac.alm";
                 target := Readable [good_header; bad_id_line; health_line_63;
                                     bad_health_line; ecc_line; id_line_1] mtime_a |}
              None true) as [df|e] eqn:Hp;
    [|vm_compute in Hp; discriminate Hp].
  destruct (H {| name := "almanac.alm";
                 target := Readable [good_header; bad_id_line; health_line_63;
                                     bad_health_line; ecc_line; id_line_1] mtime_a |}
              [good_header] bad_id_line
              [health_line_63; bad_health_line; ecc_line] [id_line_1]
              mtime_a None true df)
    as (before & row & after & Hrows & Hlen & _ & Hprn & Htime & Hfields).
  - reflexivity.
  - reflexivity.
  - repeat constructor.
  - reflexivity.
  - exact Hp.
  - exists df, before, row, after.
    split; [reflexivity|]. split; [exact Hrows|]. split; [exact Hlen|].
    split; [apply Hprn; vm_compute; reflexivity|].
    split; [|split; [|exact Htime]].
    + apply (Hfields [health_line_63] bad_health_line [ecc_line]
               "Health:" "Health" conv_int);
        [reflexivity | reflexivity | | vm_compute; reflexivity].
      repeat constructor. vm_compute. congruence.
    + destruct (Hfields [health_line_63; bad_health_line] ecc_line []
                  "Eccentricity:" "Eccentricity" conv_float) as [Hecc _];
        [reflexivity | reflexivity | constructor |].
      destruct Hecc as [Hecc|Hecc]; rewrite Hecc; vm_compute; reflexivity.
Defined.

(** No record of the list is empty, whatever the input. *)
Lemma scan_records_nonempty ad ls : ∀ st st',
  Forall (λ r : dict, r ≠ ∅) (records st) →
  scan ad ls st = Ok st' →
  Forall (λ r : dict, r ≠ ∅) (finish st').
Proof.
  assert (∀ st, Forall (λ r : dict, r ≠ ∅) (records st) →
                Forall (λ r : dict, r ≠ ∅) (finish st)) as Hfin.
  { intros st Hrs. unfold finish. destruct (truthy (record st)) eqn:Ht; [|done].
    apply Forall_app. split; [done|]. constructor; [|done].
    by apply bool_decide_eq_true in Ht. }
  induction ls as [|l ls IH]; intros st st' Hrs; simpl.
  { intros [= <-]. by apply Hfin. }
  destruct (step ad st l) as [st1|e] eqn:Hs; [|done]. simpl.
  apply IH.
  destruct (step_inv _ _ _ _ Hs)
    as [[Hi ->]|[(Hi & _ & f & k & c & Hf & ->)|(Hi & Hfl & -> & _)]];
    simpl; [by apply Hfin|done..].
Qed.

(** Lines other than week headers leave the week as it is. *)
Lemma step_week_no_header ad st l st' :
  step ad st l = Ok st' → is_header l = false → week st' = week st.
Proof.
  intros Hs Hh.
  destruct (step_inv _ _ _ _ Hs)
    as [[Hi ->]|[(Hi & _ & f & k & c & Hf & ->)|(Hi & Hfl & _ & _ & Hw)]];
    [done..|by apply Hw].
Qed.

Lemma scan_week_no_header ad ls : ∀ st st',
  Forall (λ l, is_header l = false) ls →
  scan ad ls st = Ok st' → week st' = week st.
Proof.
  induction ls as [|l ls IH]; intros st st' Hls; simpl.
  { by intros [= <-]. }
  destruct (step ad st l) as [st1|e] eqn:Hs; [|done]. simpl.
  apply Forall_cons in Hls as [Hl Hls].
  intros Hscan. rewrite (IH _ _ Hls Hscan).
  by eapply step_week_no_header.
Qed.

(** C5, as the code has it: a field line before the first [ID:] line
    starts a record of its own, which is appended without Week and
    Time. Here the first row of the table has neither (and the week 175
    of the second row is held as the float 175.0 beside it). *)
Lemma C5_record_without_week_and_time :
  cells_of "Week" (parse_yuma_almanac field_before_id_file None true)
    = [VNone; VFloat (S754_finite false 6157265115545600 (-45))]
  ∧ cells_of "Time" (parse_yuma_almanac field_before_id_file None true)
    = [VNone; VTime mtime_a]
  ∧ match scan mtime_a field_before_id init with
    | Ok st =>
        (λ r : dict, (r !! "Week", r !! "Time")) <$> finish st
        = [(None, None); (Some (VInt 175), Some (VTime mtime_a))]
    | Raise _ => False
    end.
Proof. split_and!; vm_compute; reflexivity. Qed.

(** C5, amended. A line that is not an [ID:] line appends nothing and
    leaves the Week and Time of the record in progress as they are. An
    [ID:] line appends the record in progress if it has any field, and
    nothing if it is empty, and starts a record with Week set to the
    current week (null before any header) and Time to the resolved epoch.
    The end of input appends the record in progress under the same
    condition, so no record of the output is empty. For a well-formed
    input (no field line before the first [ID:] line) every record of
    the table returned has its Week set and its Time equal to the
    resolved epoch. *)
Theorem C5_records_of_well_formed_input_have_week_and_time :
  (∀ ad st l st',
     step ad st l = Ok st' → is_id l = false →
     records st' = records st
     ∧ record st' !! "Week" = record st !! "Week"
     ∧ record st' !! "Time" = record st !! "Time")
  ∧ (∀ ad st l st',
       step ad st l = Ok st' → is_id l = true →
       records st'
         = (if truthy (record st) then records st ++ [record st] else records st)
       ∧ record st' !! "Week" = Some (week st)
       ∧ record st' !! "Time" = Some (VTime ad))
  ∧ (∀ st,
       finish st
         = if truthy (record st) then records st ++ [record st] else records st)
  ∧ (∀ ad lines st,
       scan ad lines init = Ok st → Forall (λ r : dict, r ≠ ∅) (finish st))
  ∧ (∀ filepath lines mtime ad strict df,
       target filepath = Readable lines mtime →
       well_formed lines = true →
       parse_yuma_almanac filepath ad strict = Ok df →
       ∃ st, scan (default mtime ad) lines init = Ok st
         ∧ pd_DataFrame (finish st) = Some df
         ∧ Forall (λ r : dict,
                     r !! "Time" = Some (VTime (default mtime ad))
                     ∧ is_Some (r !! "Week")) (finish st)
         ∧ Forall (λ r, cell "Time" r = VTime (default mtime ad)) (rows df)).
Proof.
  split_and!.
  - intros ad st l st' Hs Hi.
    destruct (step_inv _ _ _ _ Hs)
      as [[Hi' _]|[(_ & _ & f & k & c & Hf & ->)|(_ & _ & -> & -> & _)]];
      [congruence| |done].
    destruct (lookup_field_key _ _ _ _ Hf) as (_ & ? & ?). simpl.
    by rewrite !lookup_insert_ne.
  - intros ad st l st' Hs Hi. rewrite (step_id _ _ _ Hi) in Hs.
    injection Hs as <-. simpl. split_and!; [done| |].
    + by rewrite !lookup_insert_ne, lookup_singleton_eq.
    + by rewrite lookup_insert_ne, lookup_insert_eq.
  - done.
  - intros ad lines st. by apply scan_records_nonempty.
  - intros filepath lines mtime ad strict df Ht Hwf Hp.
    destruct (parse_ok_inv _ _ _ _ _ _ Ht Hp) as (st & Hst & Hdf & ->).
    exists st. split_and!; [done..| |].
    + apply (scan_records_invariant (default mtime ad)
               (λ r, r !! "Time" = Some (VTime (default mtime ad))
                     ∧ is_Some (r !! "Week")) ) with (ls := lines) (st := init);
        [| |done|done|done].
      * intros w prn. split.
        -- by rewrite lookup_insert_ne, lookup_insert_eq.
        -- rewrite !lookup_insert_ne, lookup_singleton_eq by done. eauto.
      * intros r k v _ Hw Htm [? ?]. by rewrite !lookup_insert_ne.
    + rewrite rows_frame. apply Forall_fmap, Forall_forall.
      intros r Hr. simpl. rewrite (cell_table_row _ _ _ Hr).
      assert (Forall (λ r : dict, r !! "Time" = Some (VTime (default mtime ad)))
                (finish st)) as Hall.
      { apply (scan_records_invariant (default mtime ad)
                 (λ r, r !! "Time" = Some (VTime (default mtime ad))))
          with (ls := lines) (st := init); [| |done|done|done].
        - intros w prn. by rewrite lookup_insert_ne, lookup_insert_eq.
        - intros r' k v _ _ Htm ?. by rewrite lookup_insert_ne. }
      rewrite Forall_forall in Hall. rewrite (Hall r Hr).
      by destruct (default Kept _).
Qed.

Lemma C5_records_of_well_formed_input_have_week_and_time_witness :
  ∃ df, parse_yuma_almanac two_records_file None true = Ok df
        ∧ Forall (λ r, cell "Time" r = VTime (default mtime_a None)) (rows df).
Proof.
  destruct (parse_yuma_almanac two_records_file None true) as [df|e] eqn:Hp;
    [|vm_compute in Hp; discriminate].
  exists df. split; [reflexivity|].
  destruct C5_records_of_well_formed_input_have_week_and_time
    as (_ & _ & _ & _ & H).
  destruct (H two_records_file two_records mtime_a None true df)
    as (st & _ & _ & _ & HT);
    [reflexivity | vm_compute; reflexivity | exact Hp | exact HT].
Defined.

(** C6, as the code has it: the pattern asks for a blank between [Week]
    and the number. A header in which the number follows [Week] at once
    is ignored, and the record started after it has a null Week. *)
Lemma C6_header_without_blank_leaves_week :
  is_header tight_header = true
  ∧ step mtime_a init tight_header = Ok init
  ∧ match scan mtime_a [tight_header; id_line_1] init with
    | Ok st => (λ r : dict, r !! "Week") <$> finish st = [Some VNone]
    | Raise _ => False
    end.
Proof. split_and!; vm_compute; reflexivity. Qed.

(** C6, amended. A week header in which the pattern [Week\s+(\d+)] has a
    match ([Week], one or more blanks, a decimal integer; the leftmost
    match counts) sets the current week to that integer and changes
    neither the closed records nor the record in progress, when the
    integer has no more than 4300 digits; with more digits [int] raises
    ValueError, which ends the parse. A week header without such a match
    changes nothing. No other line changes the week, and an [ID:] line
    gives its record the current week: so every record started after
    the header and before the next header has the header's week. Closed
    records never change. *)
Theorem C6_week_header_sets_week_of_later_records :
  (∀ ad st l g,
     is_header l = true → header_week l = Some g →
     (N.of_nat (String.length g) <= int_max_str_digits)%N →
     ∃ w, py_int g = Some w
          ∧ step ad st l
            = Ok {| records := records st; record := record st; week := VInt w |})
  ∧ (∀ ad st l g,
       is_header l = true → header_week l = Some g →
       (int_max_str_digits < N.of_nat (String.length g))%N →
       step ad st l = Raise (ValueError_int g))
  ∧ (∀ ad st l,
       is_header l = true → header_week l = None → step ad st l = Ok st)
  ∧ (∀ ad st l st',
       step ad st l = Ok st' → is_header l = false → week st' = week st)
  ∧ (∀ ad st l st',
       step ad st l = Ok st' → is_id l = true →
       record st' !! "Week" = Some (week st))
  ∧ (∀ ad st hdr g mid idl,
       is_header hdr = true → header_week hdr = Some g →
       (N.of_nat (String.length g) <= int_max_str_digits)%N →
       Forall (λ l, is_header l = false) mid →
       is_id idl = true →
       ∃ w st', py_int g = Some w
                ∧ scan ad (hdr :: mid ++ [idl]) st = Ok st'
                ∧ record st' !! "Week" = Some (VInt w))
  ∧ (∀ ad ls st st',
       scan ad ls st = Ok st' → records st `prefix_of` records st').
Proof.
  assert (∀ l g, is_header l = true → header_week l = Some g →
                 week_fits l = (N.of_nat (String.length g) <=? int_max_str_digits)%N)
    as Hfits.
  { intros l g Hh Hg. unfold week_fits. by rewrite Hh, Hg. }
  split_and!.
  - intros ad st l g Hh Hg Hlen. apply step_header_fits; [done..|].
    rewrite (Hfits _ _ Hh Hg). by apply N.leb_le.
  - intros ad st l g Hh Hg Hlen. apply step_header_unfit; [done..|].
    rewrite (Hfits _ _ Hh Hg). by apply N.leb_gt.
  - intros ad st l Hh Hg. by rewrite (step_header _ _ _ Hh), Hg.
  - intros ad st l st'. apply step_week_no_header.
  - intros ad st l st' Hs Hi. rewrite (step_id _ _ _ Hi) in Hs.
    injection Hs as <-. simpl.
    by rewrite !lookup_insert_ne, lookup_singleton_eq.
  - intros ad st hdr g mid idl Hh Hg Hlen Hmid Hi.
    assert (week_fits hdr = true) as Hfit
      by (rewrite (Hfits _ _ Hh Hg); by apply N.leb_le).
    destruct (step_header_fits ad st hdr g Hh Hg Hfit) as (w & Hw & Hstep).
    destruct (scan_fits ad mid
                {| records := records st; record := record st; week := VInt w |})
      as [st1 Hst1].
    { eapply Forall_impl; [exact Hmid|]. intros l Hl. unfold week_fits.
      by rewrite Hl. }
    exists w. eexists. split; [done|].
    rewrite (scan_cons _ _ _ _ _ Hstep).
    rewrite (scan_app _ _ _ _ _ Hst1). simpl.
    rewrite (step_id _ _ _ Hi). simpl. split; [done|]. simpl.
    rewrite !lookup_insert_ne, lookup_singleton_eq by done.
    by rewrite (scan_week_no_header _ _ _ _ Hmid Hst1).
  - apply scan_records_prefix.
Qed.

Lemma C6_week_header_sets_week_of_later_records_witness :
  ∃ st', py_int "175" = Some 175
         ∧ scan mtime_a (good_header :: [id_line_1; health_line_0] ++ [id_line_1]) init
           = Ok st'
         ∧ record st' !! "Week" = Some (VInt 175).
Proof.
  destruct C6_week_header_sets_week_of_later_records
    as (_ & _ & _ & _ & _ & H & _).
  destruct (H mtime_a init good_header "175" [id_line_1; health_line_0] id_line_1)
    as (w & st' & Hw & Hscan & Hweek);
    [vm_compute; reflexivity | vm_compute; reflexivity | vm_compute; congruence
    | repeat constructor | vm_compute; reflexivity |].
  exists st'. split; [vm_compute; reflexivity|]. split; [exact Hscan|].
  rewrite Hweek. vm_compute in Hw. by injection Hw as <-.
Defined.

(** C7, as the code has it: with no epoch argument the parser reads the
    modification time of the file ([filepath.stat().st_mtime]), as its
    docstring says. The same lines in two files modified at different
    times give different tables. *)
Lemma C7_parser_reads_modification_time :
  cells_of "Time" (parse_yuma_almanac two_records_file None true)
    = [VTime mtime_a; VTime mtime_a]
  ∧ cells_of "Time" (parse_yuma_almanac two_records_file_b None true)
    = [VTime mtime_b; VTime mtime_b]
  ∧ parse_yuma_almanac two_records_file None true
    ≠ parse_yuma_almanac two_records_file_b None true.
Proof.
  split_and!; [vm_compute; reflexivity..|].
  intros H. apply (f_equal (cells_of "Time")) in H.
  vm_compute in H. discriminate.
Qed.

(** C7, amended. With no epoch argument the parser takes the epoch from
    the modification time of the file: the result is the one of the same
    call with that time as the epoch. With an epoch argument the result
    depends on the lines, the epoch and the strict flag only, not on the
    modification time or the name of the file. yumaread resolves nothing
    from file metadata: it hands the parser the date of the file name or
    no epoch, so with a dated name its result does not depend on the
    modification time. *)
Theorem C7_epoch_argument_or_modification_time :
  (∀ filepath lines mtime strict,
     target filepath = Readable lines mtime →
     parse_yuma_almanac filepath None strict
     = parse_yuma_almanac filepath (Some mtime) strict)
  ∧ (∀ f1 f2 lines m1 m2 d strict,
       target f1 = Readable lines m1 →
       target f2 = Readable lines m2 →
       parse_yuma_almanac f1 (Some d) strict
       = parse_yuma_almanac f2 (Some d) strict)
  ∧ (∀ strftime_cell style n lines m1 m2 d tf fp display strict,
       filename_date n = Some d →
       yumaread strftime_cell style (mkPath n (Readable lines m1)) tf fp display strict
       = yumaread strftime_cell style (mkPath n (Readable lines m2)) tf fp display strict).
Proof.
  split_and!.
  - intros filepath lines mtime strict Ht.
    unfold parse_yuma_almanac. by rewrite Ht.
  - intros f1 f2 lines m1 m2 d strict Ht1 Ht2.
    unfold parse_yuma_almanac. by rewrite Ht1, Ht2.
  - intros strftime_cell style n lines m1 m2 d tf fp display strict Hd.
    unfold yumaread, yumaread_body, parse_yuma_almanac. simpl.
    by rewrite Hd.
Qed.

Lemma C7_epoch_argument_or_modification_time_witness :
  parse_yuma_almanac two_records_file (Some (midnight 2024 3 5)) true
  = parse_yuma_almanac two_records_file_b (Some (midnight 2024 3 5)) true.
Proof.
  apply (proj1 (proj2 C7_epoch_argument_or_modification_time)
           two_records_file two_records_file_b two_records mtime_a mtime_b);
    reflexivity.
Defined.

(** A table that the parser returns has a Time column. *)
Lemma parse_ok_time_column filepath ad strict df :
  parse_yuma_almanac filepath ad strict = Ok df →
  "Time" ∈ columns df ∧ target filepath ≠ NoFile.
Proof.
  unfold parse_yuma_almanac.
  destruct (target filepath) as [| |lines mtime]; [done..|].
  by intros (st & _ & _ & _ & _ & ? & _)%parse_lines_Ok.
Qed.

Lemma zip_insert_cells k (rs : list dict) (c : list value) :
  length c = length rs →
  cell k <$> zip_with (λ r v, <[k := v]> r) rs c = c.
Proof.
  revert c. induction rs as [|r rs IH]; intros [|v c] Hlen; simplify_eq/=;
    [done|]. rewrite IH by done. unfold cell. by rewrite lookup_insert_eq.
Qed.

(** The Time index of what yumaread returns: the Time column of the
    parsed table, rendered if a format is given and the rendering
    succeeds. *)
Lemma yumaread_index strftime_cell style filename tf fp display strict df :
  yumaread strftime_cell style filename tf fp display strict = Some df →
  ∃ df0, parse_yuma_almanac filename (filename_date (name filename)) strict = Ok df0
    ∧ index df
      = Some ("Time",
              let times := cell "Time" <$> rows df0 in
              match format_given tf ≫= (λ fmt, dt_strftime strftime_cell fmt times) with
              | Some c => c
              | None => times
              end).
Proof.
  unfold yumaread, yumaread_body.
  destruct (parse_yuma_almanac filename _ strict) as [df0|e] eqn:Hp.
  2: { by destruct (target filename). }
  destruct (parse_ok_time_column _ _ _ _ Hp) as [Hcol Hfile].
  assert (column df0 "Time" = Some (cell "Time" <$> rows df0)) as Hc0.
  { unfold column. by rewrite bool_decide_eq_true_2. }
  assert (∃ df1, set_index "Time" (format_time strftime_cell tf df0) = Some df1
          ∧ index df1
            = Some ("Time",
                    let times := cell "Time" <$> rows df0 in
                    match format_given tf ≫= (λ fmt, dt_strftime strftime_cell fmt times) with
                    | Some c => c
                    | None => times
                    end)) as (df1 & Hidx & Hindex).
  { unfold format_time. cbv zeta.
    destruct (format_given tf) as [fmt|]; simpl.
    - rewrite Hc0. simpl.
      destruct (dt_strftime strftime_cell fmt (cell "Time" <$> rows df0))
        as [c|] eqn:Hfmt.
      + unfold set_index, column. simpl.
        rewrite bool_decide_eq_true_2 by set_solver.
        eexists. split; [done|]. simpl.
        rewrite zip_insert_cells; [done|].
        apply length_mapM in Hfmt. by rewrite length_fmap in Hfmt.
      + unfold set_index. rewrite Hc0. eauto.
    - unfold set_index. rewrite Hc0. eauto. }
  intros Hy. exists df0. split; [done|].
  destruct (target filename); [done|..]; simpl in Hy;
    rewrite (bool_decide_eq_true_2 _ Hcol) in Hy; simpl in Hy;
    rewrite Hidx in Hy;
    (destruct display; [destruct (style fp df1)|]); by simplify_eq.
Qed.

(** The date read from a file name is a midnight in UTC. *)
Lemma filename_date_midnight fname d :
  filename_date fname = Some d →
  d = mkDatetime (year d) (month d) (day d) 0 0 0 0 (Some 0).
Proof.
  unfold filename_date. destruct (re_search_date fname) as [[[gy gm] gd]|]; [|done].
  destruct (py_int gy) as [y|]; [|done]. destruct (py_int gm) as [m|]; [|done].
  destruct (py_int gd) as [dd|]; [|done]. simpl. unfold datetime_utc.
  case_match; [|done]. by intros [= <-].
Qed.

(** For a well-formed input the Time column of the parsed table holds
    the epoch once for each [ID:] line. *)
Lemma parse_well_formed_time_cells filepath lines mtime ad strict df :
  target filepath = Readable lines mtime →
  well_formed lines = true →
  parse_yuma_almanac filepath ad strict = Ok df →
  cell "Time" <$> rows df
  = replicate (length (List.filter is_id lines)) (VTime (default mtime ad)).
Proof.
  intros Ht Hwf Hp.
  destruct (parse_ok_inv _ _ _ _ _ _ Ht Hp) as (st & Hst & _ & ->).
  assert (Forall (λ r : dict, r !! "Time" = Some (VTime (default mtime ad)))
            (finish st)) as Hall.
  { apply (scan_records_invariant (default mtime ad)
             (λ r, r !! "Time" = Some (VTime (default mtime ad))))
      with (ls := lines) (st := init); [| |done|done|done].
    - intros w prn. by rewrite lookup_insert_ne, lookup_insert_eq.
    - intros r' k v _ _ Htm ?. by rewrite lookup_insert_ne. }
  rewrite rows_frame_cells_kept.
  2: { eapply Forall_impl; [exact Hall|]. intros r Hr z. by rewrite Hr. }
  clear Hall.
  assert (length (List.filter is_id lines) = length (finish st)) as ->.
  { pose proof (scan_prn_fresh _ _ init _ eq_refl Hwf Hst) as Hprn.
    apply (f_equal length) in Hprn. simpl in Hprn.
    by rewrite !length_fmap in Hprn. }
  assert (Forall (λ r : dict, r !! "Time" = Some (VTime (default mtime ad)))
            (finish st)) as Hall.
  { apply (scan_records_invariant (default mtime ad)
             (λ r, r !! "Time" = Some (VTime (default mtime ad))))
      with (ls := lines) (st := init); [| |done|done|done].
    - intros w prn. by rewrite lookup_insert_ne, lookup_insert_eq.
    - intros r' k v _ _ Htm ?. by rewrite lookup_insert_ne. }
  revert Hall. generalize (finish st). intros rs Hall.
  induction Hall as [|r rs Hr _ IH]; csimpl; [done|].
  rewrite IH. unfold cell. by rewrite Hr.
Qed.

(** C8, as the code has it. With the default format the Time of the
    table is the text of the date, not a timestamp; and the date is
    looked for at the leftmost date-shaped part of the name only, so a
    name with a valid date further on gets the modification time. *)
Lemma C8_time_is_text_or_modification_time :
  index_of (yumaread strftime_value display_ok dated_file
              default_time_format None false true)
    = Some ("Time", [VStr "2024-03-05"; VStr "2024-03-05"])
  ∧ index_of (yumaread strftime_value display_ok misdated_file
                None None false true)
    = Some ("Time", [VTime mtime_a; VTime mtime_a]).
Proof. split; vm_compute; reflexivity. Qed.

(** C8, amended. When the leftmost [YYYY-MM-DD] part of the file name is
    a valid calendar date, yumaread passes that date at midnight UTC to
    the parser as the epoch, whatever the modification time of the file.
    For a well-formed input each record of the returned table then has,
    as its Time, that timestamp if no format is given or the rendering
    fails, and the rendering of that timestamp under the format
    otherwise (a text, under the default format [%Y-%m-%d]). *)
Theorem C8_filename_date_is_the_epoch
    strftime_cell style filename lines mtime d tf fp display strict df :
  target filename = Readable lines mtime →
  filename_date (name filename) = Some d →
  well_formed lines = true →
  yumaread strftime_cell style filename tf fp display strict = Some df →
  d = mkDatetime (year d) (month d) (day d) 0 0 0 0 (Some 0)
  ∧ index df
    = Some ("Time",
            let times := replicate (length (List.filter is_id lines)) (VTime d) in
            match format_given tf ≫= (λ fmt, dt_strftime strftime_cell fmt times) with
            | Some c => c
            | None => times
            end).
Proof.
  intros Ht Hd Hwf Hy. split; [by apply filename_date_midnight in Hd|].
  destruct (yumaread_index _ _ _ _ _ _ _ _ Hy) as (df0 & Hp & ->).
  rewrite Hd in Hp.
  by rewrite (parse_well_formed_time_cells _ _ _ _ _ _ Ht Hwf Hp).
Qed.

Lemma C8_filename_date_is_the_epoch_witness :
  ∃ df, yumaread strftime_value display_ok dated_file
          default_time_format None false true = Some df
    ∧ index df
      = Some ("Time",
              let times := replicate (length (List.filter is_id two_records))
                             (VTime (midnight 2024 3 5)) in
              match format_given default_time_format
                    ≫= (λ fmt, dt_strftime strftime_value fmt times) with
              | Some c => c
              | None => times
              end).
Proof.
  destruct (yumaread strftime_value display_ok dated_file
              default_time_format None false true) as [df|] eqn:Hy;
    [|vm_compute in Hy; discriminate].
  exists df. split; [reflexivity|].
  apply (C8_filename_date_is_the_epoch strftime_value display_ok dated_file
           two_records mtime_a (midnight 2024 3 5) default_time_format
           None false true df);
    [reflexivity | vm_compute; reflexivity | vm_compute; reflexivity | exact Hy].
Defined.

(** The name of the sample carries the 5th of March 2024. *)
Example dated_file_date :
  filename_date (name dated_file) = Some (midnight 2024 3 5)
  ∧ filename_date (name misdated_file) = None.
Proof. split; vm_compute; reflexivity. Qed.

(** C9. yumaread returns a table or [None] and lets no exception out.
    It returns [None] when the file is missing, when the parser raises
    (whatever it raises) and when anything else in its body raises. When
    only the rendering of the Time column fails, the table is indexed by
    the timestamps as the parser gave them, and it is returned unless
    the display step that follows raises. *)
Theorem C9_yumaread_returns_None_instead_of_raising
    strftime_cell style filename tf fp display strict :
  (target filename = NoFile →
   yumaread strftime_cell style filename tf fp display strict = None)
  ∧ (∀ e,
       parse_yuma_almanac filename (filename_date (name filename)) strict = Raise e →
       yumaread strftime_cell style filename tf fp display strict = None)
  ∧ (∀ e,
       yumaread_body strftime_cell style filename tf fp display strict = Raise e →
       yumaread strftime_cell style filename tf fp display strict = None)
  ∧ (∀ df fmt,
       parse_yuma_almanac filename (filename_date (name filename)) strict = Ok df →
       format_given tf = Some fmt →
       column df "Time" ≫= dt_strftime strftime_cell fmt = None →
       ∃ df', set_index "Time" df = Some df'
         ∧ index df' = Some ("Time", cell "Time" <$> rows df)
         ∧ yumaread strftime_cell style filename tf fp display strict
           = if display then style fp df' ≫= (λ _, Some df') else Some df').
Proof.
  split_and!.
  - intros Ht. unfold yumaread, yumaread_body. by rewrite Ht.
  - intros e He. unfold yumaread, yumaread_body. rewrite He.
    by destruct (target filename).
  - intros e He. unfold yumaread. by rewrite He.
  - intros df fmt Hp Hf Hfail.
    destruct (parse_ok_time_column _ _ _ _ Hp) as [Hcol Hfile].
    assert (column df "Time" = Some (cell "Time" <$> rows df)) as Hc.
    { unfold column. by rewrite bool_decide_eq_true_2. }
    eexists. split_and!.
    + unfold set_index. by rewrite Hc.
    + done.
    + unfold yumaread, yumaread_body. rewrite Hp.
      destruct (target filename); [done|..]; simpl;
        rewrite (bool_decide_eq_true_2 _ Hcol); simpl;
        unfold format_time; rewrite Hf, Hfail;
        unfold set_index; rewrite Hc;
        (destruct display; [destruct (style fp _)|]); done.
Qed.

Lemma C9_yumaread_returns_None_instead_of_raising_witness :
  yumaread strftime_value display_ok missing_file
    default_time_format None false true = None
  ∧ yumaread strftime_value display_ok no_id_file
      default_time_format None false false = None.
Proof.
  split.
  - apply (proj1 (C9_yumaread_returns_None_instead_of_raising
                    strftime_value display_ok missing_file
                    default_time_format None false true)).
    reflexivity.
  - apply (proj1 (proj2 (C9_yumaread_returns_None_instead_of_raising
                           strftime_value display_ok no_id_file
                           default_time_format None false false))
             (KeyError "Time")).
    vm_compute; reflexivity.
Defined.

(** C10. When a label occurs on several lines of one block, the record
    holds the conversion of its last occurrence. For a line that writes
    attribute [k], followed in its block by lines that do not write [k]
    again, the table returned has in the row of that record, at [k],
    the conversion of that line (by [int] for [Health:], by the float
    converter for the other labels; an integer as it is or as its
    float), whatever the lines before wrote there, and null if the
    conversion failed. The record of the line is found by its place:
    the rows after it are those of the [ID:] lines after its block. *)
Theorem C10_last_occurrence_of_a_label_wins
    filepath pre l b2 post mtime ad strict df f k c :
  target filepath = Readable (pre ++ l :: b2 ++ post) mtime →
  lookup_field (strip l) = Some (f, (k, c)) →
  Forall (λ l', is_id l' = false ∧ field_key l' ≠ Some k) b2 →
  starts_record post = true →
  parse_yuma_almanac filepath ad strict = Ok df →
  ∃ before row after,
    rows df = before ++ row :: after
    ∧ length after = length (List.filter is_id post)
    ∧ stored (default VNone (field_text (strip l) ≫= c)) (cell k row)
    ∧ (field_text (strip l) ≫= c = None → cell k row = VNone)
    ∧ (f = "Health:" →
       field_text (strip l) ≫= c = VInt <$> (field_text (strip l) ≫= py_int))
    ∧ (f ≠ "Health:" →
       field_text (strip l) ≫= c
       = VFloat <$> (x ← field_text (strip l); py_float (replace "D" "E" x))).
Proof.
  intros Ht Hl Hb2 Hpost Hp.
  destruct (row_of_field_line _ _ _ _ _ _ _ _ _ _ _ _ Ht Hl Hb2 Hpost Hp)
    as (before & row & after & Hrows & Hlen & Hcell).
  exists before, row, after. split_and!; [done..| | |].
  - intros Hfail. rewrite Hfail in Hcell. by apply stored_not_int in Hcell.
  - intros ->. destruct (lookup_field_conv _ _ _ _ Hl) as [[_ ->]|[? _]]; [|done].
    by destruct (field_text (strip l)).
  - intros Hf. destruct (lookup_field_conv _ _ _ _ Hl) as [[? _]|[_ ->]]; [done|].
    by destruct (field_text (strip l)).
Qed.

Lemma C10_last_occurrence_of_a_label_wins_witness :
  ∃ df before row after,
    parse_yuma_almanac
      {| name := "almanac.alm";
         target := Readable [good_header; id_line_1; health_line_63;
                             bad_health_line; ecc_line] mtime_a |}
      None true = Ok df
    ∧ rows df = before ++ row :: after
    ∧ length after = 0%nat
    ∧ cell "Health" row = VNone.
Proof.
  destruct (parse_yuma_almanac
              {| name := "almanac.alm";
                 target := Readable [good_header; id_line_1; health_line_63;
                                     bad_health_line; ecc_line] mtime_a |}
              None true) as [df|e] eqn:Hp;
    [|vm_compute in Hp; discriminate Hp].
  destruct (C10_last_occurrence_of_a_label_wins
              {| name := "almanac.alm";
                 target := Readable [good_header; id_line_1; health_line_63;
                                     bad_health_line; ecc_line] mtime_a |}
              [good_header; id_line_1; health_line_63] bad_health_line
              [ecc_line] [] mtime_a None true df "Health:" "Health" conv_int)
    as (before & row & after & Hrows & Hlen & _ & Hnull & _).
  - reflexivity.
  - reflexivity.
  - repeat constructor. vm_compute. congruence.
  - reflexivity.
  - exact Hp.
  - exists df, before, row, after.
    split; [reflexivity|]. split; [exact Hrows|]. split; [exact Hlen|].
    apply Hnull. vm_compute. reflexivity.
Defined.

(** The case of the claim: a good Health line, then one that does not
    convert, in the block of one [ID:] line. *)
Example health_overwritten_with_null :
  cells_of "Health"
    (parse_lines [good_header; id_line_1; health_line_63; bad_health_line]
       mtime_a None true) = [VNone]
  ∧ cells_of "Health"
      (parse_lines [good_header; id_line_1; bad_health_line; health_line_63]
         mtime_a None true) = [VInt 63].
Proof. split; vm_compute; reflexivity. Qed.

(** * Further properties of the code *)

Import Download Schema DownloadSamples.

(** ** parse_yuma_almanac *)

Lemma startswith_app p : ∀ s, startswith p s = true → ∃ t, s = p +:+ t.
Proof.
  induction p as [|c p IH]; intros s; [by exists s|].
  destruct s as [|d t]; [done|].
  intros [<- [t' ->]%IH]%startswith_cons. by exists t'.
Qed.

(** No line starts with two labels of the table. *)
Lemma labels_prefix_free e e' s :
  In e field_map → In e' field_map →
  startswith (fst e) s = true → startswith (fst e') s = true → e = e'.
Proof.
  simpl. intros H1 H2 Hs Hs'.
  repeat (destruct H1 as [<- | H1];
    [apply startswith_app in Hs as [t ->];
     repeat (destruct H2 as [<- | H2]; [first [done | by simpl in Hs']|]);
     done|]).
  done.
Qed.

(** X1. The labels of the table do not overlap: a line that starts
    with a label other than [ID:] selects the entry of that label,
    whatever the order of the table. *)
Theorem field_labels_do_not_overlap e s :
  In e field_map → fst e ≠ "ID:" → startswith (fst e) s = true →
  lookup_field s = Some e.
Proof.
  intros Hin Hne Hs. destruct (lookup_field s) as [e'|] eqn:Hl.
  - destruct (lookup_field_in _ _ Hl) as (Hin' & Hs' & _).
    f_equal. by apply (labels_prefix_free e' e s).
  - unfold lookup_field in Hl.
    pose proof (find_none _ _ Hl e Hin) as Hnone. simpl in Hnone.
    rewrite Hs in Hnone. apply String.eqb_neq in Hne.
    by rewrite Hne in Hnone.
Qed.

Lemma field_labels_do_not_overlap_witness :
  lookup_field "Af1(s/s):   0.3637978807D-11"
  = Some ("Af1(s/s):", ("Af1", conv_float)).
Proof.
  apply (field_labels_do_not_overlap ("Af1(s/s):", ("Af1", conv_float)));
    [simpl; tauto | discriminate | reflexivity].
Defined.

(** The scan from any state, line by line, keeps what holds of the week,
    of the closed records and of the record in progress. *)
Lemma scan_invariant ad (P : dict → Prop) (Q : value → Prop) :
  (∀ w prn, Q w → P (<["PRN" := prn]> (<["Time" := VTime ad]> {["Week" := w]}))) →
  (∀ r s f k c v, lookup_field s = Some (f, (k, c)) → P r → P (<[k := v]> r)) →
  (∀ g w, g ≠ "" → all_chars isdigit g = true → py_int g = Some w → Q (VInt w)) →
  ∀ ls st st',
    Q (week st) → Forall P (records st) → P (record st) →
    scan ad ls st = Ok st' →
    Q (week st') ∧ Forall P (records st') ∧ P (record st').
Proof.
  intros Hfresh Hins Hweek.
  induction ls as [|l ls IH]; intros st st' HQ HPs HP; simpl.
  { by intros [= <-]. }
  destruct (step ad st l) as [st1|e] eqn:Hs; [|done]. simpl.
  apply IH.
  - destruct (is_header l) eqn:Hh.
    + rewrite (step_header _ _ _ Hh) in Hs.
      destruct (header_week l) as [g|] eqn:Hg; [|by simplify_eq].
      destruct (re_search_week_digits _ _ Hg) as [Hne Hall].
      destruct (py_int g) as [w|] eqn:Hw; [|done]. simplify_eq. simpl.
      by eapply Hweek.
    + by rewrite (step_week_no_header _ _ _ _ Hs Hh).
  - destruct (step_inv _ _ _ _ Hs)
      as [[Hi ->]|[(Hi & _ & f & k & c & Hf & ->)|(Hi & Hfl & -> & _)]];
      simpl; [|done..].
    unfold finish. destruct (truthy _); [|done].
    apply Forall_app. by split; [|constructor].
  - destruct (step_inv _ _ _ _ Hs)
      as [[Hi ->]|[(Hi & _ & f & k & c & Hf & ->)|(Hi & Hfl & _ & -> & _)]];
      simpl; [by apply Hfresh|by eapply Hins|done].
Qed.

Lemma scan_invariant_finish ad (P : dict → Prop) (Q : value → Prop) :
  (∀ w prn, Q w → P (<["PRN" := prn]> (<["Time" := VTime ad]> {["Week" := w]}))) →
  (∀ r s f k c v, lookup_field s = Some (f, (k, c)) → P r → P (<[k := v]> r)) →
  (∀ g w, g ≠ "" → all_chars isdigit g = true → py_int g = Some w → Q (VInt w)) →
  P ∅ → Q VNone →
  ∀ ls st', scan ad ls init = Ok st' → Forall P (finish st').
Proof.
  intros Hfresh Hins Hweek HP HQ ls st' Hscan.
  destruct (scan_invariant ad P Q Hfresh Hins Hweek ls init st')
    as (_ & Hrs & Hr); [done..|].
  unfold finish. destruct (truthy _); [|done].
  apply Forall_app. by split; [|constructor].
Qed.

(** The PRN column for any input: a null for the record of the field
    lines that come before the first [ID:] line, if there are any, then
    the PRNs of the [ID:] lines. *)
Lemma scan_prn_any ad ls : ∀ st st',
  record st = ∅ →
  scan ad ls st = Ok st' →
  cell "PRN" <$> finish st'
  = (cell "PRN" <$> records st)
    ++ (if well_formed ls then [] else [VNone])
    ++ (prn_of <$> List.filter is_id ls).
Proof.
  induction ls as [|l ls IH]; intros st st' He; simpl.
  { intros [= <-]. by rewrite finish_empty, app_nil_r. }
  destruct (step ad st l) as [st1|e] eqn:Hs; [|done]. simpl.
  intros Hscan.
  destruct (step_inv _ _ _ _ Hs)
    as [[Hi ->]|[(Hi & _ & f & k & c & Hf & ->)|(Hi & Hfl & Hr & Hr' & _)]];
    rewrite Hi in *.
  - apply scan_prn_started in Hscan as [_ ->]; [|apply truthy_insert].
    rewrite (finish_truthy (mkState _ _ _)) by apply truthy_insert.
    simpl. rewrite fmap_app, <- app_assoc, (finish_empty st) by done.
    simpl. unfold cell at 2. by rewrite lookup_insert_eq.
  - assert (is_field l = true) as -> by (apply is_field_lookup; eauto).
    apply scan_prn_started in Hscan as [_ ->]; [|apply truthy_insert].
    rewrite (finish_truthy (mkState _ _ _)) by apply truthy_insert.
    simpl. rewrite fmap_app, <- app_assoc. simpl. do 2 f_equal.
    rewrite cell_insert_ne by (by apply lookup_field_key in Hf as (? & _)).
    unfold cell. by rewrite He, lookup_empty.
  - rewrite Hfl, <- Hr. apply IH; [|done]. by rewrite Hr'.
Qed.

(** X2. For any input the table has one row for each [ID:] line, in
    file order, and one more row in front, with a null PRN, exactly when
    a field line comes before the first [ID:] line. Row by row the PRN
    column holds the PRNs of the [ID:] lines as the table stores them
    (an integer as it is, or as its float); when every PRN that
    converts is in the int64 range, the column is the list of the PRNs
    itself if none is null, and the list of their floats, with the
    nulls, otherwise. *)
Theorem record_count_of_any_input filepath lines mtime ad strict df :
  target filepath = Readable lines mtime →
  parse_yuma_almanac filepath ad strict = Ok df →
  length (rows df)
  = ((if well_formed lines then 0 else 1) + length (List.filter is_id lines))%nat
  ∧ Forall2 stored
      ((if well_formed lines then [] else [VNone])
       ++ (prn_of <$> List.filter is_id lines))
      (cell "PRN" <$> rows df)
  ∧ (Forall (λ l, prn_of l = VNone
                  ∨ ∃ z, prn_of l = VInt z ∧ int64_min ≤ z ≤ int64_max)
       (List.filter is_id lines) →
     cell "PRN" <$> rows df
     = int_column ((if well_formed lines then [] else [VNone])
                   ++ (prn_of <$> List.filter is_id lines))).
Proof.
  intros Ht Hp.
  destruct (parse_ok_inv _ _ _ _ _ _ Ht Hp) as (st & Hst & _ & ->).
  pose proof (scan_prn_any _ _ init _ eq_refl Hst) as Hprn.
  simpl in Hprn. split_and!.
  - rewrite length_rows_frame. apply (f_equal length) in Hprn.
    rewrite length_fmap, length_app, length_fmap in Hprn.
    rewrite Hprn. by destruct (well_formed lines).
  - rewrite <- Hprn. apply rows_frame_stored.
  - intros Hsmall. rewrite <- Hprn.
    apply small_column, small_entries. rewrite Hprn.
    apply Forall_app. split; [|by apply Forall_fmap].
    destruct (well_formed lines); repeat constructor.
Qed.

Lemma record_count_of_any_input_witness :
  ∃ df, parse_yuma_almanac field_before_id_file None true = Ok df
    ∧ length (rows df) = 2%nat
    ∧ cell "PRN" <$> rows df
      = [VNone; VFloat (S754_finite false 4503599627370496 (-52))].
Proof.
  destruct (parse_yuma_almanac field_before_id_file None true) as [df|e] eqn:Hp;
    [|vm_compute in Hp; discriminate Hp].
  exists df. split; [reflexivity|].
  destruct (record_count_of_any_input field_before_id_file field_before_id
              mtime_a None true df) as (Hlen & _ & Hprn);
    [reflexivity | exact Hp |].
  assert (well_formed field_before_id = false) as Hwf by (vm_compute; reflexivity).
  assert (List.filter is_id field_before_id = [ln "ID:                         01"])
    as Hids by (vm_compute; reflexivity).
  rewrite Hwf, Hids in Hlen, Hprn. split; [exact Hlen|].
  rewrite Hprn; [vm_compute; reflexivity|].
  unfold int64_min, int64_max.
  constructor; [right; exists 1; split; [vm_compute; reflexivity|lia]|].
  constructor.
Defined.

(** A line the loop passes over changes nothing. *)
Lemma step_ignored ad st l : is_ignored l = true → step ad st l = Ok st.
Proof.
  unfold is_ignored. intros [[Hh Hi]%andb_prop Hf]%andb_prop.
  apply negb_true_iff in Hh, Hi, Hf. by apply step_other.
Qed.

Lemma scan_without_ignored ad ls : ∀ st,
  scan ad (List.filter (λ l, negb (is_ignored l)) ls) st = scan ad ls st.
Proof.
  induction ls as [|l ls IH]; intros st; simpl; [done|].
  destruct (is_ignored l) eqn:Hi; simpl.
  - by rewrite (step_ignored _ _ _ Hi), IH.
  - destruct (step ad st l); simpl; [apply IH|done].
Qed.

(** X3. Blank lines and lines that are neither a week header, an [ID:]
    line nor a field line have no effect on the result: taking them out
    of the input gives the same table or the same error, as long as a
    line is left (with none left the error is the one of the empty
    input instead of the one of no records). *)
Theorem unrecognised_lines_are_ignored lines mtime ad strict :
  List.filter (λ l, negb (is_ignored l)) lines ≠ [] →
  parse_lines (List.filter (λ l, negb (is_ignored l)) lines) mtime ad strict
  = parse_lines lines mtime ad strict.
Proof.
  intros Hne. unfold parse_lines.
  rewrite scan_without_ignored.
  destruct lines as [|l ls]; [done|].
  by destruct (List.filter _ (l :: ls)).
Qed.

Lemma unrecognised_lines_are_ignored_witness :
  parse_lines (List.filter (λ l, negb (is_ignored l))
                 (ln "almanac of the day" :: two_records)) mtime_a None true
  = parse_lines (ln "almanac of the day" :: two_records) mtime_a None true.
Proof.
  apply unrecognised_lines_are_ignored. vm_compute. discriminate.
Defined.

Lemma lstrip_by_head p s :
  lstrip_by p s = "" ∨ ∃ c t, lstrip_by p s = String c t ∧ p c = false.
Proof.
  induction s as [|c s IH]; simpl; [by left|].
  destruct (p c) eqn:Hc; [done|]. right. eauto.
Qed.

Lemma rstrip_by_idemp p s : rstrip_by p (rstrip_by p s) = rstrip_by p s.
Proof.
  induction s as [|c s IH]; simpl; [done|].
  destruct (rstrip_by p s) as [|d r] eqn:Hr.
  - destruct (p c) eqn:Hc; simpl; [done|]. by rewrite Hc.
  - simpl in IH. cbn [rstrip_by]. fold (rstrip_by p (String d r)).
    by rewrite IH.
Qed.

Lemma rstrip_by_head p c t :
  p c = false → ∃ t', rstrip_by p (String c t) = String c t'.
Proof.
  intros Hc. simpl. destruct (rstrip_by p t); [rewrite Hc|]; eauto.
Qed.

(** [strip()] a second time changes nothing. *)
Lemma strip_by_idemp p s : strip_by p (strip_by p s) = strip_by p s.
Proof.
  unfold strip_by.
  destruct (lstrip_by_head p s) as [->|(c & t & -> & Hc)]; [done|].
  destruct (rstrip_by_head p c t Hc) as [t' Ht]. rewrite Ht.
  simpl lstrip_by. rewrite Hc, <- Ht. apply rstrip_by_idemp.
Qed.

Lemma step_strip ad st l : step ad st (strip l) = step ad st l.
Proof. unfold step, strip. by rewrite strip_by_idemp. Qed.

Lemma scan_strip ad ls : ∀ st, scan ad (strip <$> ls) st = scan ad ls st.
Proof.
  induction ls as [|l ls IH]; intros st; csimpl; [done|].
  rewrite step_strip. destruct (step ad st l); simpl; [apply IH|done].
Qed.

(** X4. The blanks around a line do not count: the parse of the lines
    and the parse of the lines with the blanks around each removed
    (indentation, trailing blanks, the newline) give the same result. *)
Theorem blanks_around_lines_do_not_count lines mtime ad strict :
  parse_lines (strip <$> lines) mtime ad strict
  = parse_lines lines mtime ad strict.
Proof.
  unfold parse_lines. rewrite scan_strip. by destruct lines.
Qed.

Lemma attributes_of_label s f k c :
  lookup_field s = Some (f, (k, c)) → k ∈ attributes.
Proof.
  intros (Hin & _)%lookup_field_in. apply list_elem_of_In.
  unfold attributes. apply in_or_app. right.
  by apply (in_map (λ e : string * (string * converter), fst (snd e))) in Hin.
Qed.

(** X5. The columns of a table that the parser returns are among the
    thirteen attributes PRN, Week, Time and those of the labels: no line
    of the input can add a column of another name. *)
Theorem table_columns_are_known_attributes filepath lines mtime ad strict df :
  target filepath = Readable lines mtime →
  parse_yuma_almanac filepath ad strict = Ok df →
  ∀ k, k ∈ columns df → k ∈ attributes.
Proof.
  intros Ht Hp k Hk.
  destruct (parse_ok_inv _ _ _ _ _ _ Ht Hp) as (st & Hst & _ & ->).
  apply elem_of_columns in Hk as (r & Hr & Hk).
  assert (Forall (λ r : dict, ∀ k, is_Some (r !! k) → k ∈ attributes)
            (finish st)) as Hall.
  { apply (scan_invariant_finish (default mtime ad) _ (λ _, True))
      with (ls := lines); [| |done| |done|done].
    - intros w prn _ k'. rewrite !lookup_insert_is_Some, lookup_singleton_is_Some.
      intros [<-|[_ [<-|[_ <-]]]]; apply list_elem_of_In; simpl; tauto.
    - intros r' s f k0 c v Hf Hr' k'. rewrite lookup_insert_is_Some.
      intros [<-|[_ ?]]; [by eapply attributes_of_label|by apply Hr'].
    - intros k' [? Hx]. by rewrite lookup_empty in Hx. }
  rewrite Forall_forall in Hall. by apply (Hall r).
Qed.

Lemma table_columns_are_known_attributes_witness :
  ∃ df, parse_yuma_almanac two_records_file None true = Ok df
        ∧ ∀ k, k ∈ columns df → k ∈ attributes.
Proof.
  destruct (parse_yuma_almanac two_records_file None true) as [df|e] eqn:Hp;
    [|vm_compute in Hp; discriminate].
  exists df. split; [reflexivity|].
  apply (table_columns_are_known_attributes two_records_file two_records
           mtime_a None true); [reflexivity | exact Hp].
Defined.

Lemma py_int_digits_nonneg g w :
  g ≠ "" → all_chars isdigit g = true → py_int g = Some w → 0 ≤ w.
Proof.
  intros Hne Hg. unfold py_int. rewrite (strip_by_digits _ Hg).
  destruct g as [|c g]; [done|]. simpl in Hg.
  apply andb_prop in Hg as [Hc Hg].
  rewrite (isdigit_read_sign _ _ Hc).
  destruct (digitpart 0 0 (String c g)) as [[v [|n]] [|? ?]]; try done.
  case_match; [|done]. intros [= <-]. lia.
Qed.

(** X6. Every Week cell of a returned table is null or a non-negative
    integer (held as it is, or as its float), and every Time cell is
    null or the epoch of the call (the [almanac_date] given, else the
    modification time of the file): no line of the input can give a
    record another Week or Time. *)
Theorem week_and_time_cells filepath lines mtime ad strict df :
  target filepath = Readable lines mtime →
  parse_yuma_almanac filepath ad strict = Ok df →
  Forall (λ r, (cell "Week" r = VNone
                ∨ ∃ w, 0 ≤ w ∧ (cell "Week" r = VInt w
                                ∨ cell "Week" r = VFloat (float_of_int w)))
               ∧ (cell "Time" r = VNone
                  ∨ cell "Time" r = VTime (default mtime ad))) (rows df).
Proof.
  intros Ht Hp.
  destruct (parse_ok_inv _ _ _ _ _ _ Ht Hp) as (st & Hst & _ & ->).
  set (Q := λ v : value, v = VNone ∨ ∃ w, v = VInt w ∧ 0 ≤ w).
  assert (Forall (λ r : dict,
                    (∀ v, r !! "Week" = Some v → Q v)
                    ∧ (∀ v, r !! "Time" = Some v → v = VTime (default mtime ad)))
            (finish st)) as Hall.
  { apply (scan_invariant_finish (default mtime ad) _ Q) with (ls := lines);
      [| | | |by left|done].
    - intros w prn Hw. split; intros v.
      + rewrite !lookup_insert_ne, lookup_singleton_eq by done. by intros [= <-].
      + rewrite lookup_insert_ne, lookup_insert_eq by done. by intros [= <-].
    - intros r s f k c v Hf [Hw Htm].
      destruct (lookup_field_key _ _ _ _ Hf) as (_ & ? & ?).
      by rewrite !lookup_insert_ne.
    - intros g w Hne Hg Hw. right. exists w. split; [done|].
      by eapply py_int_digits_nonneg.
    - split; intros v; by rewrite lookup_empty. }
  rewrite rows_frame. apply Forall_fmap, Forall_forall. intros r Hr. simpl.
  rewrite Forall_forall in Hall. destruct (Hall r Hr) as [Hw Htm].
  rewrite !(cell_table_row _ _ _ Hr). split.
  - destruct (r !! "Week") as [v|]; [|by left].
    destruct (Hw v eq_refl) as [->|(w & -> & Hw0)].
    + left. by destruct (default Kept _).
    + right. exists w. split; [done|]. destruct (default Kept _); simpl; eauto.
  - destruct (r !! "Time") as [v|]; [|by left].
    rewrite (Htm v eq_refl). right. by destruct (default Kept _).
Qed.

Lemma week_and_time_cells_witness :
  ∃ df, parse_yuma_almanac field_before_id_file None true = Ok df
    ∧ Forall (λ r, (cell "Week" r = VNone
                    ∨ ∃ w, 0 ≤ w ∧ (cell "Week" r = VInt w
                                    ∨ cell "Week" r = VFloat (float_of_int w)))
                   ∧ (cell "Time" r = VNone
                      ∨ cell "Time" r = VTime (default mtime_a None))) (rows df).
Proof.
  destruct (parse_yuma_almanac field_before_id_file None true) as [df|e] eqn:Hp;
    [|vm_compute in Hp; discriminate Hp].
  exists df. split; [reflexivity|].
  apply (week_and_time_cells field_before_id_file field_before_id
           mtime_a None true); [reflexivity | exact Hp].
Defined.

(** X7. Strict mode only adds the check of the required columns: a
    table returned in strict mode is returned as it is in non-strict
    mode, and a table returned in non-strict mode is returned in strict
    mode too unless one of PRN, Week, Time is null throughout, in which
    case strict mode raises with the list of those columns. *)
Theorem strict_mode_only_adds_a_check lines mtime ad df :
  (parse_lines lines mtime ad true = Ok df →
   parse_lines lines mtime ad false = Ok df)
  ∧ (parse_lines lines mtime ad false = Ok df →
     let missing := List.filter (is_missing df) required_fields in
     parse_lines lines mtime ad true
     = if bool_decide (missing = []) then Ok df
       else Raise (ValueError_missing_required missing)).
Proof.
  rewrite !parse_lines_cases. unfold table_of. cbv zeta.
  destruct (bool_decide (lines = [])); [done|].
  destruct (scan _ _ _) as [st|e]; [|done].
  destruct (bool_decide (finish st = [])); [done|].
  destruct (pd_DataFrame (finish st)) as [df'|]; [|done]. simpl.
  split.
  - destruct (negb _); [done|]. done.
  - case_bool_decide as Htime; [|done]. intros [= <-].
    by destruct (bool_decide (_ = [])).
Qed.

Lemma strict_mode_only_adds_a_check_witness :
  ∃ df, parse_lines two_records mtime_a None true = Ok df
        ∧ parse_lines two_records mtime_a None false = Ok df.
Proof.
  destruct (parse_lines two_records mtime_a None true) as [df|e] eqn:Hp;
    [|vm_compute in Hp; discriminate].
  exists df. split; [reflexivity|].
  by apply (proj1 (strict_mode_only_adds_a_check two_records mtime_a None df)).
Defined.

Lemma forallb_false {A} (f : A → bool) l :
  forallb f l = false → ∃ x, In x l ∧ f x = false.
Proof.
  induction l as [|x l IH]; simpl; [done|].
  destruct (f x) eqn:Hx; simpl; [|by eauto].
  intros (y & ? & ?)%IH. eauto.
Qed.

(** X8. A table returned in strict mode has the columns PRN, Week and
    Time, each with a value that is not null in some row. *)
Theorem strict_table_has_required_values lines mtime ad df :
  parse_lines lines mtime ad true = Ok df →
  has_value df "PRN" ∧ has_value df "Week" ∧ has_value df "Time".
Proof.
  intros (st & _ & _ & _ & _ & _ & Hm)%parse_lines_Ok.
  specialize (Hm eq_refl).
  assert (∀ f, In f required_fields → has_value df f) as Hall.
  { intros f Hf.
    assert (is_missing df f = false) as Hf'.
    { destruct (is_missing df f) eqn:E; [|done].
      assert (In f (List.filter (is_missing df) required_fields)) as Hin
        by (apply filter_In; done).
      by rewrite Hm in Hin. }
    unfold is_missing, column in Hf'. case_bool_decide as Hcol; [|done].
    split; [done|].
    apply forallb_false in Hf' as (v & Hv & Hnull).
    apply list_elem_of_In, list_elem_of_fmap in Hv as (r & -> & Hr). eauto. }
  split_and!; apply Hall; simpl; tauto.
Qed.

Lemma strict_table_has_required_values_witness :
  ∃ df, parse_lines two_records mtime_a None true = Ok df
        ∧ has_value df "PRN" ∧ has_value df "Week" ∧ has_value df "Time".
Proof.
  destruct (parse_lines two_records mtime_a None true) as [df|e] eqn:Hp;
    [|vm_compute in Hp; discriminate].
  exists df. split; [reflexivity|].
  by apply (strict_table_has_required_values two_records mtime_a None).
Defined.

Lemma scan_nothing_started ad ls : ∀ st st',
  Forall (λ l, is_id l = false ∧ is_field l = false) ls →
  scan ad ls st = Ok st' →
  record st' = record st ∧ records st' = records st.
Proof.
  induction ls as [|l ls IH]; intros st st' Hls; simpl.
  { by intros [= <-]. }
  destruct (step ad st l) as [st1|e] eqn:Hs; [|done]. simpl.
  apply Forall_cons in Hls as [[Hi Hf] Hls].
  intros [-> ->]%(IH _ _ Hls).
  destruct (step_inv _ _ _ _ Hs)
    as [[Hi' _]|[(_ & _ & f & k & c & Hf' & _)|(_ & _ & -> & -> & _)]];
    [congruence| |done].
  assert (is_field l = true) by (apply is_field_lookup; eauto). congruence.
Qed.

Lemma scan_something_started ad ls : ∀ st st',
  scan ad ls st = Ok st' →
  finish st' = [] →
  Forall (λ l, is_id l = false ∧ is_field l = false) ls.
Proof.
  induction ls as [|l ls IH]; intros st st'; simpl; [done|].
  destruct (step ad st l) as [st1|e] eqn:Hs; [|done]. simpl.
  intros Hscan Hfin.
  assert (truthy (record st1) = true → False) as Hno.
  { intros Ht. destruct (scan_prn_started _ _ _ _ Ht Hscan) as [Ht' _].
    rewrite (finish_truthy _ Ht') in Hfin. by destruct (records st'). }
  destruct (step_inv _ _ _ _ Hs)
    as [[Hi ->]|[(_ & _ & f & k & c & Hf' & ->)|(Hi & Hf & _)]].
  - destruct Hno. apply truthy_insert.
  - destruct Hno. apply truthy_insert.
  - constructor; [done|]. by eapply IH.
Qed.

(** X9. The parse raises "No valid records" exactly when the input has
    lines, but neither an [ID:] line nor a field line, and no week
    header whose number [int] refuses (with such a header the
    ValueError of [int] ends the parse before), in either mode. *)
Theorem no_records_without_id_and_field_lines lines mtime ad strict :
  parse_lines lines mtime ad strict = Raise ValueError_no_records
  ↔ lines ≠ []
    ∧ Forall (λ l, is_id l = false ∧ is_field l = false ∧ week_fits l = true)
        lines.
Proof.
  rewrite parse_lines_cases. unfold table_of. split.
  - case_bool_decide as Hl; [done|].
    destruct (scan _ _ _) as [st|e] eqn:Hst.
    + case_bool_decide as Hfin.
      * intros _. split; [done|].
        pose proof (scan_something_started _ _ _ _ Hst Hfin) as Hno.
        pose proof (scan_Ok_fits _ _ _ _ Hst) as Hfit.
        apply Forall_forall. intros l Hin.
        rewrite Forall_forall in Hno, Hfit.
        destruct (Hno l Hin). by split_and!; [..|apply Hfit].
      * destruct (pd_DataFrame _); [|done]. cbv zeta.
        destruct (strict && _); [done|]. by case_bool_decide.
    + intros [= ->].
      by destruct (scan_raises _ _ _ _ Hst) as (? & ? & _ & _ & _ & _ & _ & ?).
  - intros [Hne Hall]. rewrite bool_decide_eq_false_2 by done.
    destruct (scan_fits (default mtime ad) lines init) as [st Hst].
    { eapply Forall_impl; [exact Hall|]. by intros l (_ & _ & ?). }
    rewrite Hst.
    assert (Forall (λ l, is_id l = false ∧ is_field l = false) lines) as Hall'.
    { eapply Forall_impl; [exact Hall|]. by intros l (? & ? & _). }
    destruct (scan_nothing_started _ _ _ _ Hall' Hst) as [Hr Hrs].
    rewrite bool_decide_eq_true_2; [done|].
    unfold finish. rewrite Hr, Hrs. cbn [record records init].
    by rewrite truthy_empty.
Qed.

Lemma no_records_without_id_and_field_lines_witness :
  parse_lines [ln ""; good_header; ln "end of file"] mtime_a None false
  = Raise ValueError_no_records.
Proof.
  apply no_records_without_id_and_field_lines. split; [discriminate|].
  repeat constructor.
Defined.

Lemma replace_twice c d s :
  c ≠ d → replace c d (replace d c s) = replace c d s
          ∧ replace c d (replace c d s) = replace c d s.
Proof.
  intros Hne. induction s as [|x s [IH1 IH2]]; simpl; [done|].
  rewrite IH1, IH2. split; f_equal.
  - destruct (Ascii.eqb_spec x d) as [->|Hxd].
    + rewrite Ascii.eqb_refl. by destruct (Ascii.eqb_spec d c).
    + by destruct (Ascii.eqb_spec x c).
  - destruct (Ascii.eqb_spec x c) as [->|Hxc].
    + destruct (Ascii.eqb_spec d c); [congruence|done].
    + by destruct (Ascii.eqb_spec x c).
Qed.

(** X10. The float converter reads [D] and [E] alike: a value text
    gives the same result with every [E] written as [D], and with every
    [D] written as [E]. (The lower-case [d] is not replaced.) *)
Theorem float_converter_reads_D_as_E x :
  conv_float (replace "E" "D" x) = conv_float x
  ∧ conv_float (replace "D" "E" x) = conv_float x.
Proof.
  unfold conv_float.
  destruct (replace_twice "D" "E" x) as [-> ->]; done.
Qed.

(** A lower-case exponent letter [d] makes the value null, an upper-case
    one does not. *)
Example float_converter_case :
  conv_float "0.1234567d-01" = None
  ∧ conv_float "0.1234567D-01" = conv_float "0.1234567e-01".
Proof. split; vm_compute; reflexivity. Qed.

(** X11. A table that the parser returns, in either mode, has a row whose
    Time is the epoch: the parser never returns a table made only of
    field lines that no [ID:] line preceded. *)
Theorem returned_table_has_a_timed_row filepath lines mtime ad strict df :
  target filepath = Readable lines mtime →
  parse_yuma_almanac filepath ad strict = Ok df →
  ∃ r, r ∈ rows df ∧ cell "Time" r = VTime (default mtime ad).
Proof.
  intros Ht Hp.
  destruct (parse_ok_time_column _ _ _ _ Hp) as [Hcol _].
  destruct (parse_ok_inv _ _ _ _ _ _ Ht Hp) as (st & Hst & _ & ->).
  apply elem_of_columns in Hcol as (r & Hr & [v Hv]).
  assert (Forall (λ r : dict,
                    ∀ v, r !! "Time" = Some v → v = VTime (default mtime ad))
            (finish st)) as Hall.
  { apply (scan_invariant_finish (default mtime ad) _ (λ _, True))
      with (ls := lines); [| |done| |done|done].
    - intros w prn _ v'. rewrite lookup_insert_ne, lookup_insert_eq by done.
      by intros [= <-].
    - intros r' s f k c v' Hf Hr'.
      destruct (lookup_field_key _ _ _ _ Hf) as (_ & _ & ?).
      by rewrite lookup_insert_ne.
    - intros v'. by rewrite lookup_empty. }
  rewrite Forall_forall in Hall. rewrite (Hall r Hr v Hv) in Hv.
  exists (table_row (finish st) (columns (frame (finish st))) r). split.
  - rewrite rows_frame. apply list_elem_of_fmap. eauto.
  - rewrite (cell_table_row _ _ _ Hr), Hv. by destruct (default Kept _).
Qed.

Lemma returned_table_has_a_timed_row_witness :
  ∃ df, parse_yuma_almanac field_before_id_file None false = Ok df
        ∧ ∃ r, r ∈ rows df ∧ cell "Time" r = VTime (default mtime_a None).
Proof.
  destruct (parse_yuma_almanac field_before_id_file None false) as [df|e] eqn:Hp;
    [|vm_compute in Hp; discriminate].
  exists df. split; [reflexivity|].
  apply (returned_table_has_a_timed_row field_before_id_file field_before_id
           mtime_a None false); [reflexivity | exact Hp].
Defined.

(** ** yumaread *)

(** What yumaread does once the parser has returned a table. *)
Lemma yumaread_after_parse
    strftime_cell style filename tf fp display strict df0 :
  parse_yuma_almanac filename (filename_date (name filename)) strict = Ok df0 →
  ∃ df1, set_index "Time" (format_time strftime_cell tf df0) = Some df1
    ∧ yumaread_body strftime_cell style filename tf fp display strict
      = (if display
         then match style fp df1 with Some _ => Ok df1 | None => Raise OtherError end
         else Ok df1)
    ∧ yumaread strftime_cell style filename tf fp display strict
      = (if display then style fp df1 ≫= (λ _, Some df1) else Some df1).
Proof.
  intros Hp.
  destruct (parse_ok_time_column _ _ _ _ Hp) as [Hcol Hfile].
  assert (∃ df1, set_index "Time" (format_time strftime_cell tf df0) = Some df1)
    as [df1 Hidx].
  { unfold set_index, column, format_time.
    destruct (format_given tf) as [fmt|]; simpl.
    - destruct (column df0 "Time" ≫= dt_strftime strftime_cell fmt); simpl.
      + rewrite bool_decide_eq_true_2 by set_solver. eauto.
      + rewrite bool_decide_eq_true_2 by done. eauto.
    - rewrite bool_decide_eq_true_2 by done. eauto. }
  exists df1. split; [done|].
  assert (yumaread_body strftime_cell style filename tf fp display strict
          = (if display
             then match style fp df1 with Some _ => Ok df1 | None => Raise OtherError end
             else Ok df1)) as Hbody.
  { unfold yumaread_body. rewrite Hp.
    destruct (target filename); [done|..]; simpl;
      rewrite (bool_decide_eq_true_2 _ Hcol); simpl; by rewrite Hidx. }
  split; [done|]. unfold yumaread. rewrite Hbody.
  destruct display; [by destruct (style fp df1)|done].
Qed.

(** X12. When the parser returns a table, yumaread returns it indexed by
    Time, unless [display] is on and the display raises; the check of
    the Time column after the parse never fires, and indexing never
    fails. With the parser raising it returns [None] (C9). So yumaread
    gives [None] only for a failed parse or a failed display. *)
Theorem yumaread_follows_the_parser
    strftime_cell style filename tf fp display strict df0 :
  parse_yuma_almanac filename (filename_date (name filename)) strict = Ok df0 →
  ∃ df1, set_index "Time" (format_time strftime_cell tf df0) = Some df1
    ∧ yumaread_body strftime_cell style filename tf fp display strict
      = (if display
         then match style fp df1 with Some _ => Ok df1 | None => Raise OtherError end
         else Ok df1)
    ∧ yumaread strftime_cell style filename tf fp display strict
      = (if display then style fp df1 ≫= (λ _, Some df1) else Some df1).
Proof. apply yumaread_after_parse. Qed.

Lemma yumaread_follows_the_parser_witness :
  ∃ df0 df1,
    parse_yuma_almanac dated_file (filename_date (name dated_file)) true = Ok df0
    ∧ set_index "Time" (format_time strftime_value default_time_format df0)
      = Some df1
    ∧ yumaread strftime_value display_raises dated_file
        default_time_format None true true
      = display_raises None df1 ≫= (λ _, Some df1).
Proof.
  destruct (parse_yuma_almanac dated_file (filename_date (name dated_file)) true)
    as [df0|e] eqn:Hp; [|vm_compute in Hp; discriminate].
  destruct (yumaread_follows_the_parser strftime_value display_raises
              dated_file default_time_format None true true df0 Hp)
    as (df1 & H1 & _ & H3).
  exists df0, df1. split_and!; [reflexivity | exact H1 | exact H3].
Defined.

Lemma zip_insert_other k0 k (rs : list dict) : ∀ c : list value,
  k ≠ k0 →
  cell k <$> zip_with (λ r v, <[k0 := v]> r) rs c = cell k <$> take (length c) rs.
Proof.
  induction rs as [|r rs IH]; intros [|v c] Hk; csimpl; [done..|].
  rewrite IH by done. f_equal. unfold cell. by rewrite lookup_insert_ne.
Qed.

(** Rendering the Time column touches the Time cells only. *)
Lemma format_time_shape strftime_cell tf df0 :
  "Time" ∈ columns df0 →
  columns (format_time strftime_cell tf df0) = columns df0
  ∧ length (rows (format_time strftime_cell tf df0)) = length (rows df0)
  ∧ ∀ k, k ≠ "Time" →
      cell k <$> rows (format_time strftime_cell tf df0) = cell k <$> rows df0.
Proof.
  intros Hcol. unfold format_time.
  destruct (format_given tf) as [fmt|]; [|done].
  unfold column. rewrite bool_decide_eq_true_2 by done. simpl.
  destruct (dt_strftime strftime_cell fmt (cell "Time" <$> rows df0))
    as [c|] eqn:Hc; [|done].
  apply length_mapM in Hc. rewrite length_fmap in Hc.
  unfold set_column; simpl. split_and!.
  - rewrite (comm_L (∪)). by apply subseteq_union_1_L, singleton_subseteq_l.
  - rewrite length_zip_with. lia.
  - intros k Hk. rewrite zip_insert_other by done.
    by rewrite <- Hc, firstn_all.
Qed.

(** X13. The table that yumaread returns is the parser's table with the
    Time column moved to the index: the same number of rows, the same
    columns but Time, and in every other column the same cells in the
    same order. The index is named Time and has one entry for each
    row. *)
Theorem yumaread_moves_time_to_the_index
    strftime_cell style filename tf fp display strict df :
  yumaread strftime_cell style filename tf fp display strict = Some df →
  ∃ df0,
    parse_yuma_almanac filename (filename_date (name filename)) strict = Ok df0
    ∧ columns df = columns df0 ∖ {["Time"]}
    ∧ length (rows df) = length (rows df0)
    ∧ (∃ c, index df = Some ("Time", c) ∧ length c = length (rows df0))
    ∧ Forall (λ r : dict, r !! "Time" = None) (rows df)
    ∧ ∀ k, k ≠ "Time" → cell k <$> rows df = cell k <$> rows df0.
Proof.
  intros Hy.
  destruct (parse_yuma_almanac filename (filename_date (name filename)) strict)
    as [df0|e] eqn:Hp.
  2: { unfold yumaread, yumaread_body in Hy. rewrite Hp in Hy.
       by destruct (target filename). }
  exists df0. split; [done|].
  destruct (yumaread_after_parse strftime_cell style filename tf fp display
              strict df0 Hp) as (df1 & Hidx & _ & Hy').
  assert (df = df1) as ->.
  { rewrite Hy' in Hy. destruct display; [|by simplify_eq].
    destruct (style fp df1); by simplify_eq/=. }
  destruct (parse_ok_time_column _ _ _ _ Hp) as [Hcol _].
  destruct (format_time_shape strftime_cell tf df0 Hcol) as (Hc & Hlen & Hcells).
  unfold set_index, column in Hidx. rewrite Hc in Hidx.
  rewrite bool_decide_eq_true_2 in Hidx by done. injection Hidx as <-.
  cbn [columns rows index].
  split_and!.
  - done.
  - by rewrite length_fmap.
  - eexists. split; [done|]. by rewrite length_fmap.
  - apply Forall_fmap, Forall_forall. intros r _. simpl. apply lookup_delete_eq.
  - intros k Hk. rewrite <- Hcells by done. rewrite <- list_fmap_compose.
    apply list_fmap_ext. intros _ r _. simpl. unfold cell.
    by rewrite lookup_delete_ne.
Qed.

Lemma yumaread_moves_time_to_the_index_witness :
  ∃ df df0,
    yumaread strftime_value display_ok dated_file default_time_format None false true
      = Some df
    ∧ parse_yuma_almanac dated_file (filename_date (name dated_file)) true = Ok df0
    ∧ columns df = columns df0 ∖ {["Time"]}
    ∧ length (rows df) = length (rows df0)
    ∧ (∃ c, index df = Some ("Time", c) ∧ length c = length (rows df0))
    ∧ Forall (λ r : dict, r !! "Time" = None) (rows df)
    ∧ ∀ k, k ≠ "Time" → cell k <$> rows df = cell k <$> rows df0.
Proof.
  destruct (yumaread strftime_value display_ok dated_file
              default_time_format None false true) as [df|] eqn:Hy;
    [|vm_compute in Hy; discriminate].
  destruct (yumaread_moves_time_to_the_index _ _ _ _ _ _ _ _ Hy) as (df0 & H).
  exists df, df0. split; [reflexivity | exact H].
Defined.

(** X14. The display and its precision do not change what is returned:
    if yumaread returns a table with [display] on, it returns the same
    table with [display] off, whatever the precision and the display
    would have been. *)
Theorem display_does_not_change_the_table
    strftime_cell style filename tf fp strict df :
  yumaread strftime_cell style filename tf fp true strict = Some df →
  ∀ style' fp',
    yumaread strftime_cell style' filename tf fp' false strict = Some df.
Proof.
  intros Hy style' fp'.
  destruct (parse_yuma_almanac filename (filename_date (name filename)) strict)
    as [df0|e] eqn:Hp.
  2: { unfold yumaread, yumaread_body in Hy. rewrite Hp in Hy.
       by destruct (target filename). }
  destruct (yumaread_after_parse strftime_cell style filename tf fp true
              strict df0 Hp) as (df1 & Hidx & _ & Hy1).
  destruct (yumaread_after_parse strftime_cell style' filename tf fp' false
              strict df0 Hp) as (df2 & Hidx' & _ & Hy2).
  rewrite Hy2. rewrite Hidx in Hidx'. injection Hidx' as <-.
  rewrite Hy1 in Hy. by destruct (style fp df1); simplify_eq/=.
Qed.

Lemma display_does_not_change_the_table_witness :
  ∃ df, yumaread strftime_value display_ok dated_file
          default_time_format (Some 3) true true = Some df
    ∧ yumaread strftime_value display_raises dated_file
        default_time_format None false true = Some df.
Proof.
  destruct (yumaread strftime_value display_ok dated_file
              default_time_format (Some 3) true true) as [df|] eqn:Hy;
    [|vm_compute in Hy; discriminate].
  exists df. split; [reflexivity|].
  by apply (display_does_not_change_the_table strftime_value display_ok
              dated_file default_time_format (Some 3) true df).
Defined.

(** ** The exceptions of the parser *)










(** ** download_yuma_almanac *)

Ltac download_cases :=
  unfold download_yuma_almanac, download_body;
  repeat (case_match; simplify_eq/=).

(** X17. Whatever the directory, the archive and the writing do, the
    download returns (a path or [None]) when [raise_on_fail] is off, and
    never returns [None] when it is on: a failure is then an exception. *)
Theorem raise_on_fail_decides_how_failure_shows w d save_dir overwrite :
  (∃ r, out (download_yuma_almanac w d save_dir false overwrite) = Return r)
  ∧ out (download_yuma_almanac w d save_dir true overwrite) ≠ Return None.
Proof.
  split; download_cases; eauto.
Qed.

(** X18. A returned path is the path [save_dir/yumaAlmanac_<date>.alm]
    of the date asked for, and the file is there afterwards: either it
    was there before, [overwrite] is off, nothing was requested and no
    file changed; or the archive answered 200 with a content that is not
    blank, which is now the content of the file, after one request. *)
Theorem returned_path_names_a_file w d save_dir raise_on_fail overwrite p :
  out (download_yuma_almanac w d save_dir raise_on_fail overwrite) = Return (Some p) →
  p = filename_of save_dir d
  ∧ ∃ c,
      files_after (download_yuma_almanac w d save_dir raise_on_fail overwrite) !! p
      = Some c
      ∧ ((overwrite = false ∧ files w !! p = Some c
          ∧ files_after (download_yuma_almanac w d save_dir raise_on_fail overwrite)
            = files w
          ∧ requests (download_yuma_almanac w d save_dir raise_on_fail overwrite) = [])
         ∨ (get w (url_of d) = Response 200 c ∧ nonblank c = true
            ∧ files_after (download_yuma_almanac w d save_dir raise_on_fail overwrite)
              = <[p := c]> (files w)
            ∧ requests (download_yuma_almanac w d save_dir raise_on_fail overwrite)
              = [url_of d])).
Proof.
  revert p. download_cases; intros p Hout; simplify_eq.
  all: split; [done|].
  - match goal with H : _ && _ = true |- _ => apply andb_prop in H as [Hx Hy] end.
    apply bool_decide_eq_true in Hx as [c Hc]. apply negb_true_iff in Hy.
    exists c. split; [done|]. by left.
  - match goal with H : _ && _ = true |- _ => apply andb_prop in H as [Hx Hy] end.
    apply Z.eqb_eq in Hx as ->.
    eexists. split; [apply lookup_insert_eq|]. right. done.
Qed.

Lemma returned_path_names_a_file_witness :
  out (download_yuma_almanac online march_5 "data" false false)
  = Return (Some (filename_of "data" march_5))
  ∧ files_after (download_yuma_almanac online march_5 "data" false false)
    = <[filename_of "data" march_5 := almanac_bytes]> ∅.
Proof.
  split; [reflexivity|].
  destruct (returned_path_names_a_file online march_5 "data" false false
              (filename_of "data" march_5))
    as (_ & c & _ & [(_ & Hc & _)|(Hg & _ & Hf & _)]); [reflexivity|..].
  - discriminate Hc.
  - injection Hg as <-. exact Hf.
Defined.

(** X19. A call changes no file but the one it names, and sends no
    request or one request, to the address of the date. *)
Theorem download_touches_one_file_and_one_address
    w d save_dir raise_on_fail overwrite :
  (∀ p, p ≠ filename_of save_dir d →
     files_after (download_yuma_almanac w d save_dir raise_on_fail overwrite) !! p
     = files w !! p)
  ∧ (requests (download_yuma_almanac w d save_dir raise_on_fail overwrite) = []
     ∨ requests (download_yuma_almanac w d save_dir raise_on_fail overwrite)
       = [url_of d]).
Proof.
  split.
  - intros p Hp. download_cases; try done.
    + by rewrite lookup_insert_ne.
    + by rewrite lookup_insert_ne.
    + by rewrite lookup_delete_ne.
  - download_cases; auto.
Qed.

(** X20. With [overwrite] off every file that exists keeps its
    content, whether the call succeeds, returns [None] or raises. *)
Theorem existing_files_survive_without_overwrite w d save_dir raise_on_fail p c :
  files w !! p = Some c →
  files_after (download_yuma_almanac w d save_dir raise_on_fail false) !! p = Some c.
Proof.
  intros Hp. download_cases; try done.
  all: match goal with H : _ && _ = false |- _ =>
         rewrite andb_true_r in H; apply bool_decide_eq_false in H end.
  all: destruct (decide (p = filename_of save_dir d)) as [->|Hne];
    [exfalso; eauto|].
  - by rewrite lookup_insert_ne.
  - by rewrite lookup_insert_ne.
  - by rewrite lookup_delete_ne.
Qed.

Lemma existing_files_survive_without_overwrite_witness :
  files_after (download_yuma_almanac cached_offline march_5 "data" true false)
    !! filename_of "data" march_5
  = Some almanac_bytes.
Proof.
  apply (existing_files_survive_without_overwrite cached_offline march_5 "data"
           true (filename_of "data" march_5) almanac_bytes).
  reflexivity.
Defined.

(** X21. Where writing the file cannot fail, a call that returns no
    path leaves every file as it was: the directory, the request and the
    answer of the archive are all checked before the file is opened. *)
Theorem failure_before_writing_leaves_the_files w d save_dir raise_on_fail overwrite :
  (∀ c, write w (filename_of save_dir d) c = Written) →
  (∀ p, out (download_yuma_almanac w d save_dir raise_on_fail overwrite) ≠ Return (Some p)) →
  files_after (download_yuma_almanac w d save_dir raise_on_fail overwrite) = files w.
Proof.
  intros Hw. download_cases; try done; intros Hn.
  all: try (by exfalso; eapply Hn).
  all: match goal with H : write _ _ _ = WriteRaises _ _ |- _ => by rewrite Hw in H end.
Qed.

Lemma failure_before_writing_leaves_the_files_witness :
  files_after (download_yuma_almanac not_found march_5 "data" false true) = ∅.
Proof.
  apply (failure_before_writing_leaves_the_files not_found march_5 "data"
           false true).
  - intros c. reflexivity.
  - intros p. discriminate.
Defined.

(** X22. When the archive answers with another status than 200, or with
    a blank content, nothing is written; with [raise_on_fail] off the
    call returns [None], and with it on the RuntimeError of line 51 is
    caught by [except Exception] and raised again at line 64, so that
    its message carries "Unexpected error: " before "Failed to download
    file (HTTP <status>) from: <address>". *)
Theorem refused_download_raises_a_wrapped_message w d save_dir overwrite status content :
  mkdir w save_dir = None →
  files w !! filename_of save_dir d = None ∨ overwrite = true →
  get w (url_of d) = Response status content →
  status ≠ 200 ∨ nonblank content = false →
  out (download_yuma_almanac w d save_dir true overwrite)
  = Raises ("Unexpected error: Failed to download file (HTTP " +:+ str_int status
            +:+ ") from: " +:+ url_of d)
  ∧ out (download_yuma_almanac w d save_dir false overwrite) = Return None
  ∧ ∀ raise_on_fail,
      files_after (download_yuma_almanac w d save_dir raise_on_fail overwrite)
      = files w.
Proof.
  intros Hm Hf Hg Hs.
  unfold download_yuma_almanac, download_body. rewrite Hm, Hg. cbv zeta.
  assert (bool_decide (is_Some (files w !! filename_of save_dir d)) && negb overwrite = false) as ->.
  { destruct Hf as [Hf| ->]; [|apply andb_false_r].
    rewrite Hf. rewrite bool_decide_eq_false_2; [done|]. by intros [? ?]. }
  assert ((status =? 200) && nonblank content = false) as ->.
  { destruct Hs as [Hs|Hs]; [|rewrite Hs; apply andb_false_r].
    apply Z.eqb_neq in Hs. by rewrite Hs. }
  split_and!; [done..|]. by intros [].
Qed.

Lemma refused_download_raises_a_wrapped_message_witness :
  out (download_yuma_almanac not_found march_5 "data" true false)
  = Raises ("Unexpected error: Failed to download file (HTTP 404) from: "
            +:+ "https://navcen.uscg.gov/sites/default/files/gps/almanac/2024/Yuma/065.alm")
  ∧ out (download_yuma_almanac not_found march_5 "data" false false) = Return None
  ∧ ∀ raise_on_fail,
      files_after (download_yuma_almanac not_found march_5 "data" raise_on_fail false)
      = ∅.
Proof.
  apply (refused_download_raises_a_wrapped_message not_found march_5 "data"
           false 404 "").
  - reflexivity.
  - left. reflexivity.
  - reflexivity.
  - left. discriminate.
Defined.

(** ** The date in the address and in the file name *)

Lemma dec_code n : code (dec n) = (48 + Z.to_N (n mod 10))%N.
Proof.
  unfold dec, code. apply N_ascii_embedding.
  assert (0 ≤ n mod 10 < 10) by (apply Z.mod_pos_bound; lia). lia.
Qed.

Lemma isdigit_dec n : isdigit (dec n) = true.
Proof.
  unfold isdigit. rewrite dec_code. cbv zeta.
  assert (0 ≤ n mod 10 < 10) by (apply Z.mod_pos_bound; lia).
  apply andb_true_intro. split; apply N.leb_le; lia.
Qed.

Lemma read_digits_dec acc n a s :
  read_digits acc n (String (dec a) s)
  = read_digits (10 * acc + Z.to_N (a mod 10))%N (S n) s.
Proof.
  cbn [read_digits]. rewrite isdigit_dec. unfold digit_val. rewrite dec_code.
  do 3 f_equal. lia.
Qed.

(** [int] on a run of digits that starts with the digit of [a]. *)
Lemma py_int_dec a s :
  all_chars isdigit s = true →
  (N.of_nat (S (String.length s)) <=? int_max_str_digits)%N = true →
  py_int (String (dec a) s)
  = match read_digits (Z.to_N (a mod 10)) 1 s with
    | (v, _, _) => Some (Z.of_N v)
    end.
Proof.
  intros Hs Hlen. unfold py_int. rewrite strip_by_digits.
  2: { simpl. by rewrite isdigit_dec. }
  rewrite (isdigit_read_sign _ _ (isdigit_dec a)).
  change (digitpart 0 0 (String (dec a) s)) with
    (if isdigit (dec a) then read_digits (10 * 0 + digit_val (dec a))%N 1 s
     else (0%N, 0%nat, String (dec a) s)).
  rewrite isdigit_dec. unfold digit_val. rewrite dec_code.
  replace (10 * 0 + (48 + Z.to_N (a mod 10) - 48))%N with (Z.to_N (a mod 10)) by lia.
  destruct (read_digits_all s (Z.to_N (a mod 10)) 1 Hs) as [v ->].
  cbn [Nat.add]. by rewrite Hlen.
Qed.

Lemma py_int_pad2 n : 0 ≤ n < 100 → py_int (pad2 n) = Some n.
Proof.
  intros Hn. unfold pad2.
  rewrite py_int_dec; [|simpl; by rewrite isdigit_dec|reflexivity].
  rewrite read_digits_dec. cbn [read_digits]. f_equal.
  Z.div_mod_to_equations. lia.
Qed.

Lemma py_int_pad3 n : 0 ≤ n < 1000 → py_int (pad3 n) = Some n.
Proof.
  intros Hn. unfold pad3, pad2.
  rewrite py_int_dec; [|simpl; by rewrite !isdigit_dec|reflexivity].
  rewrite !read_digits_dec. cbn [read_digits]. f_equal.
  Z.div_mod_to_equations. lia.
Qed.

Lemma py_int_pad4 n : 0 ≤ n < 10000 → py_int (pad4 n) = Some n.
Proof.
  intros Hn. unfold pad4, pad2.
  rewrite py_int_dec; [|simpl; by rewrite !isdigit_dec|reflexivity].
  rewrite !read_digits_dec. cbn [read_digits]. f_equal.
  Z.div_mod_to_equations. lia.
Qed.

Lemma re_search_date_skip c s :
  isdigit c = false → re_search_date (String c s) = re_search_date s.
Proof.
  intros Hc. cbn [re_search_date].
  assert (match_date_at (String c s) = None) as ->; [|done].
  unfold match_date_at. repeat case_match; try done.
  by rewrite Hc in *.
Qed.

Lemma re_search_date_of_name save_dir d :
  re_search_date (snd (filename_of save_dir d))
  = Some (pad4 (dyear d), pad2 (dmonth d), pad2 (dday d)).
Proof.
  unfold filename_of, isoformat, pad4, pad2. cbn [snd]. cbv [String.append].
  rewrite !re_search_date_skip by reflexivity.
  cbn [re_search_date]. unfold match_date_at.
  rewrite !isdigit_dec. reflexivity.
Qed.

Lemma valid_date_bounds d :
  valid_date d = true →
  1 ≤ dyear d ≤ 9999 ∧ 1 ≤ dmonth d ≤ 12
  ∧ 1 ≤ dday d ≤ days_in_month (dyear d) (dmonth d) ∧ dday d ≤ 31.
Proof.
  unfold valid_date. intros Hv.
  repeat (apply andb_prop in Hv as [Hv ?]).
  repeat match goal with H : (_ <=? _) = true |- _ => apply Z.leb_le in H end.
  split_and!; try done.
  unfold days_in_month in *. repeat case_match; lia.
Qed.

Lemma filename_date_of_name save_dir d :
  valid_date d = true →
  filename_date (snd (filename_of save_dir d))
  = Some (mkDatetime (dyear d) (dmonth d) (dday d) 0 0 0 0 (Some 0)).
Proof.
  intros Hv. unfold filename_date. rewrite re_search_date_of_name.
  destruct (valid_date_bounds d Hv) as (? & ? & ? & ?).
  rewrite py_int_pad4 by lia. rewrite !py_int_pad2 by lia. csimpl.
  unfold datetime_utc. unfold valid_date in Hv. by rewrite Hv.
Qed.

Lemma string_of_uint_digits u :
  all_chars isdigit (NilEmpty.string_of_uint u) = true.
Proof. induction u; simpl; done. Qed.

Lemma str_int_digits n : 0 < n → all_chars isdigit (str_int n) = true.
Proof.
  destruct n as [|p|p]; try lia. intros _.
  unfold str_int, Z.to_int, NilZero.string_of_int, NilZero.string_of_uint.
  pose proof (string_of_uint_digits (Pos.to_uint p)).
  by destruct (Pos.to_uint p).
Qed.

Lemma str_int_inj n m : 0 < n → 0 < m → str_int n = str_int m → n = m.
Proof.
  destruct n as [|p|p], m as [|q|q]; try lia. intros _ _ Hs.
  unfold str_int, Z.to_int, NilZero.string_of_int in Hs.
  apply (f_equal NilZero.uint_of_string) in Hs.
  rewrite !NilZero.usu in Hs by apply Unsigned.to_uint_nonnil.
  injection Hs as Hs. by apply Unsigned.to_uint_inj in Hs as ->.
Qed.

Lemma append_inv_head p a b : p +:+ a = p +:+ b → a = b.
Proof. induction p as [|c p IH]; cbv [String.append]; [done|]. intros [= H]. by apply IH. Qed.

(** Two runs of digits, each followed by the same character that is no
    digit, are equal when the whole texts are. *)
Lemma digits_then_stop c s1 : ∀ s2 r1 r2,
  isdigit c = false →
  all_chars isdigit s1 = true → all_chars isdigit s2 = true →
  s1 +:+ String c r1 = s2 +:+ String c r2 → s1 = s2 ∧ r1 = r2.
Proof.
  induction s1 as [|a s1 IH]; intros [|b s2] r1 r2 Hc H1 H2;
    cbv [String.append]; fold String.append; intros Heq; simplify_eq; simpl in *.
  - done.
  - apply andb_prop in H2 as [? ?]. congruence.
  - apply andb_prop in H1 as [? ?]. congruence.
  - apply andb_prop in H1 as [_ H1]. apply andb_prop in H2 as [_ H2].
    destruct (IH s2 r1 r2 Hc H1 H2) as [-> ->]; done.
Qed.

Lemma days_in_month_bounds y m : 28 ≤ days_in_month y m ≤ 31.
Proof. unfold days_in_month. repeat case_match; lia. Qed.

Lemma month_cases m :
  1 ≤ m ≤ 12 →
  m = 1 ∨ m = 2 ∨ m = 3 ∨ m = 4 ∨ m = 5 ∨ m = 6
  ∨ m = 7 ∨ m = 8 ∨ m = 9 ∨ m = 10 ∨ m = 11 ∨ m = 12.
Proof. lia. Qed.

Ltac each_month H :=
  apply month_cases in H;
  repeat (destruct H as [->|H]); [..|subst].

Lemma tm_yday_bounds d :
  valid_date d = true → 1 ≤ tm_yday d ≤ (if is_leap (dyear d) then 366 else 365).
Proof.
  intros Hv. destruct (valid_date_bounds d Hv) as (_ & Hm & Hd & _).
  unfold tm_yday, days_before_month. revert Hd. unfold days_in_month.
  generalize (is_leap (dyear d)). intros b.
  revert Hm. generalize (dmonth d). intros m Hm.
  each_month Hm; destruct b; simpl; lia.
Qed.

Lemma tm_yday_inj d1 d2 :
  valid_date d1 = true → valid_date d2 = true →
  dyear d1 = dyear d2 → tm_yday d1 = tm_yday d2 → d1 = d2.
Proof.
  intros Hv1 Hv2 Hy.
  destruct (valid_date_bounds d1 Hv1) as (_ & Hm1 & Hd1 & _).
  destruct (valid_date_bounds d2 Hv2) as (_ & Hm2 & Hd2 & _).
  destruct d1 as [y1 m1 a1], d2 as [y2 m2 a2]. simpl in *. subst y2.
  unfold tm_yday, days_before_month. cbn [dyear dmonth dday].
  revert Hd1 Hd2. unfold days_in_month.
  generalize (is_leap y1). intros b Hd1 Hd2 Heq.
  assert (m1 = m2 ∧ a1 = a2) as [-> ->]; [|done].
  each_month Hm1; each_month Hm2; destruct b; simpl in *; lia.
Qed.

(** X23. The name the download gives a file is one yumaread reads the
    date back from: for a path returned by a download of a calendar date
    [d], the date yumaread takes from the file name, and passes to the
    parser as the epoch, is [d] at midnight UTC. *)
Theorem downloaded_file_is_read_with_its_date
    w d save_dir raise_on_fail overwrite p :
  valid_date d = true →
  out (download_yuma_almanac w d save_dir raise_on_fail overwrite) = Return (Some p) →
  filename_date (snd p)
  = Some (mkDatetime (dyear d) (dmonth d) (dday d) 0 0 0 0 (Some 0)).
Proof.
  intros Hv Hout.
  assert (p = filename_of save_dir d) as ->.
  { revert Hout. unfold download_yuma_almanac, download_body.
    repeat (case_match; simplify_eq/=); congruence. }
  by apply filename_date_of_name.
Qed.

Lemma downloaded_file_is_read_with_its_date_witness :
  filename_date (snd (filename_of "data" march_5))
  = Some (mkDatetime 2024 3 5 0 0 0 0 (Some 0)).
Proof.
  apply (downloaded_file_is_read_with_its_date online march_5 "data" false false
           (filename_of "data" march_5)); reflexivity.
Defined.

(** X24. Two different calendar dates are requested from different
    addresses and saved under different names: the year and the day of
    the year in the address, and the ISO date in the name, determine the
    date. *)
Theorem dates_have_their_own_address_and_name save_dir d1 d2 :
  valid_date d1 = true → valid_date d2 = true → d1 ≠ d2 →
  url_of d1 ≠ url_of d2 ∧ filename_of save_dir d1 ≠ filename_of save_dir d2.
Proof.
  intros Hv1 Hv2 Hne. split; intros Heq; apply Hne.
  - destruct (valid_date_bounds d1 Hv1) as (Hy1 & _).
    destruct (valid_date_bounds d2 Hv2) as (Hy2 & _).
    pose proof (tm_yday_bounds d1 Hv1) as Hb1.
    pose proof (tm_yday_bounds d2 Hv2) as Hb2.
    unfold url_of in Heq. apply append_inv_head in Heq.
    apply (digits_then_stop "/" (str_int (dyear d1)) (str_int (dyear d2))
             ("Yuma/" +:+ pad3 (tm_yday d1) +:+ ".alm")
             ("Yuma/" +:+ pad3 (tm_yday d2) +:+ ".alm")) in Heq as [Hy Hr];
      [|done|apply str_int_digits; lia..].
    apply str_int_inj in Hy; [|lia..].
    apply append_inv_head in Hr.
    assert (py_int (pad3 (tm_yday d1)) = py_int (pad3 (tm_yday d2))) as Hp.
    { unfold pad3, pad2 in *. cbv [String.append] in Hr. congruence. }
    assert (0 ≤ tm_yday d1 < 1000) by (destruct (is_leap (dyear d1)); lia).
    assert (0 ≤ tm_yday d2 < 1000) by (destruct (is_leap (dyear d2)); lia).
    rewrite !py_int_pad3 in Hp by done.
    apply tm_yday_inj; congruence.
  - apply (f_equal (λ p, filename_date (snd p))) in Heq.
    rewrite !filename_date_of_name in Heq by done.
    destruct d1, d2. simpl in *. congruence.
Qed.

Lemma dates_have_their_own_address_and_name_witness :
  url_of march_5 ≠ url_of (mkDate 2023 3 6)
  ∧ filename_of "data" march_5 ≠ filename_of "data" (mkDate 2023 3 6).
Proof.
  apply (dates_have_their_own_address_and_name "data" march_5 (mkDate 2023 3 6));
    [reflexivity | reflexivity | discriminate].
Defined.
